(** * Stroke-risk prediction pipeline: validators, training columns,
      prediction service and the /predict route.

    A shallow embedding of
      - app/utils/validators.py      (validate_prediction_input, validate_patient_data)
      - scripts/train_model.py       (the column order of the training matrix)
      - app/services/prediction_service.py (load_model, predict_risk)
      - app/routes/prediction.py     (predict)

    Python floats are IEEE binary64 numbers, here the kernel's primitive
    floats; dictionaries are finite maps with string keys; exceptions are
    explicit outcomes; the service singleton, the log and the calls made
    are threaded through a small state-and-exception monad. *)

From Stdlib Require Import Floats ZArith Lia Ascii String.
From stdpp Require Import base option list strings gmap.

Set Warnings "-inexact-float,-register-all".
Local Open Scope Z_scope.

(* ===================================================================== *)
(** ** Python values, exceptions, outcomes                                *)
(* ===================================================================== *)

(** The values a decoded JSON body can hold. *)
Inductive value : Type :=
  | VNone
  | VBool (b : bool)
  | VInt (z : Z)
  | VFloat (f : float)
  | VStr (s : string)
  | VList (l : list value)
  | VDict (d : list (string * value)).

(** A Python dict with string keys. *)
Abbreviation pydict := (gmap string value).

(** Dict literal, [{k1: v1, ...}]. *)
Definition dict_of (kvs : list (string * value)) : pydict := list_to_map kvs.

Inductive exn_kind : Type :=
  | ValueError | TypeError | KeyError | OverflowError | AttributeError
  | RuntimeError | OtherError.

(** An exception instance: its class and [str(e)]. *)
Record exn : Type := Exn { exn_class : exn_kind; exn_msg : string }.

Inductive outcome (A : Type) : Type :=
  | Return (a : A)
  | Raise (e : exn).
Arguments Return {A} a.
Arguments Raise {A} e.

Definition is_ValueError (e : exn) : bool :=
  match exn_class e with ValueError => true | _ => false end.
Definition is_TypeError (e : exn) : bool :=
  match exn_class e with TypeError => true | _ => false end.

(** The parts of the Python runtime the code calls and that are not
    determined by the repository: the string parsers behind [float(s)] and
    [int(s)], and [round(x, 2)] on the classifier's float. *)
Class PyRuntime : Type := {
  parse_float : string -> option float;
  parse_int : string -> option Z;
  round2 : float -> float
}.

(** [repr] of a plain string (no quote or escape inside). *)
Definition quote (s : string) : string := "'" +:+ s +:+ "'".

(** [float(z)] for an int: round to nearest even, OverflowError when the
    int is too large for a binary64. *)
Definition float_of_Z (z : Z) : outcome float :=
  match binary_normalize prec emax z 0 false with
  | S754_infinity _ => Raise (Exn OverflowError "int too large to convert to float")
  | sf => Return (SF2Prim sf)
  end.

(** [int(f)] for a float: truncation toward zero. *)
Definition Z_of_float (f : float) : outcome Z :=
  match Prim2SF f with
  | S754_nan => Raise (Exn ValueError "cannot convert float NaN to integer")
  | S754_infinity _ => Raise (Exn OverflowError "cannot convert float infinity to integer")
  | S754_zero _ => Return 0
  | S754_finite s m e =>
      let a := if 0 <=? e then Z.pos m * 2 ^ e else Z.pos m / 2 ^ (- e) in
      Return (if s then - a else a)
  end.

Section Builtins.
Context {rt : PyRuntime}.

(** [float(v)] *)
Definition py_float (v : value) : outcome float :=
  match v with
  | VNone =>
      Raise (Exn TypeError
        "float() argument must be a string or a real number, not 'NoneType'")
  | VBool b => Return (if b then 1%float else 0%float)
  | VInt z => float_of_Z z
  | VFloat f => Return f
  | VStr s =>
      match parse_float s with
      | Some f => Return f
      | None => Raise (Exn ValueError ("could not convert string to float: " +:+ quote s))
      end
  | VList _ =>
      Raise (Exn TypeError
        "float() argument must be a string or a real number, not 'list'")
  | VDict _ =>
      Raise (Exn TypeError
        "float() argument must be a string or a real number, not 'dict'")
  end.

(** [int(v)] *)
Definition py_int (v : value) : outcome Z :=
  match v with
  | VNone =>
      Raise (Exn TypeError
        "int() argument must be a string, a bytes-like object or a real number, not 'NoneType'")
  | VBool b => Return (if b then 1 else 0)
  | VInt z => Return z
  | VFloat f => Z_of_float f
  | VStr s =>
      match parse_int s with
      | Some z => Return z
      | None =>
          Raise (Exn ValueError ("invalid literal for int() with base 10: " +:+ quote s))
      end
  | VList _ =>
      Raise (Exn TypeError
        "int() argument must be a string, a bytes-like object or a real number, not 'list'")
  | VDict _ =>
      Raise (Exn TypeError
        "int() argument must be a string, a bytes-like object or a real number, not 'dict'")
  end.
End Builtins.

(** [d[k]] *)
Definition py_getitem (d : pydict) (k : string) : outcome value :=
  match d !! k with
  | Some v => Return v
  | None => Raise (Exn KeyError (quote k))
  end.

(** [d.copy()]: a new dict with the same entries; what is then stored into
    the copy does not reach [d]. *)
Definition py_copy (d : pydict) : pydict := d.

(** [d.get(k)] and [d.get(k, default)] *)
Definition py_get (d : pydict) (k : string) : value := default VNone (d !! k).
Definition py_get_default (d : pydict) (k : string) (dflt : value) : value :=
  default dflt (d !! k).

(* ===================================================================== *)
(** ** app/utils/validators.py                                            *)
(* ===================================================================== *)

(** [field not in data or data[field] is None or data[field] == ''] *)
Definition missing_or_empty (data : pydict) (field : string) : bool :=
  match data !! field with
  | None => true
  | Some VNone => true
  | Some (VStr s) => bool_decide (s = "")
  | Some _ => false
  end.

(** [field not in patient_data or patient_data[field] is None] *)
Definition missing_or_none (data : pydict) (field : string) : bool :=
  match data !! field with
  | None => true
  | Some VNone => true
  | Some _ => false
  end.

(** The first field of the list for which the test fires (the loop returns
    at that field). *)
Fixpoint first_failing (test : string -> bool) (fields : list string) : option string :=
  match fields with
  | [] => None
  | field :: rest => if test field then Some field else first_failing test rest
  end.

Section Validators.
Context {rt : PyRuntime}.

(** [for field in fields: float(data[field])] *)
Fixpoint convert_numeric (data : pydict) (fields : list string) : outcome unit :=
  match fields with
  | [] => Return tt
  | field :: rest =>
      match py_getitem data field with
      | Raise e => Raise e
      | Return v =>
          match py_float v with
          | Raise e => Raise e
          | Return _ => convert_numeric data rest
          end
      end
  end.

Definition prediction_required_fields : list string :=
  [ "gender"; "age"; "hypertension"; "heart_disease"; "ever_married";
    "work_type"; "Residence_type"; "avg_glucose_level"; "bmi";
    "smoking_status" ].

Definition numeric_fields : list string := [ "age"; "avg_glucose_level"; "bmi" ].

Definition validate_prediction_input (data : pydict)
  : outcome (bool * option string) :=
  match first_failing (missing_or_empty data) prediction_required_fields with
  | Some field => Return (false, Some ("Missing required field: " +:+ field))
  | None =>
      match convert_numeric data numeric_fields with
      | Return _ => Return (true, None)
      | Raise e =>
          (* except (ValueError, TypeError) as e *)
          if is_ValueError e || is_TypeError e
          then Return (false, Some ("Invalid numeric value: " +:+ exn_msg e))
          else Raise e
      end
  end.

Definition patient_required_fields : list string :=
  [ "gender"; "age"; "hypertension"; "heart_disease"; "ever_married";
    "work_type"; "Residence_type"; "avg_glucose_level"; "smoking_status";
    "stroke" ].

Definition valid_genders : list string := [ "Male"; "Female"; "Other" ].
Definition binary_fields : list string := [ "hypertension"; "heart_disease"; "stroke" ].

(** [try: x = float(data[field]); if x < lo or x > hi: return False, range_msg
     except (ValueError, TypeError): return False, bad_msg].
    [None] means that the block fell through. *)
Definition check_range (data : pydict) (field : string) (lo hi : float)
    (range_msg bad_msg : string) : outcome (option (bool * option string)) :=
  let converted :=
    match py_getitem data field with
    | Raise e => Raise e
    | Return v => py_float v
    end in
  match converted with
  | Return x =>
      if (x <? lo)%float || (hi <? x)%float
      then Return (Some (false, Some range_msg))
      else Return None
  | Raise e =>
      if is_ValueError e || is_TypeError e
      then Return (Some (false, Some bad_msg))
      else Raise e
  end.

(** [patient_data['gender'] not in valid_genders]: only a str equals a str. *)
Definition gender_not_valid (data : pydict) : bool :=
  match data !! "gender" with
  | Some (VStr s) => negb (bool_decide (s ∈ valid_genders))
  | _ => true
  end.

(** [str(patient_data[field]) not in ['0', '1']]: the text of a value is
    "0" or "1" only for these strs and ints (a bool prints True/False and a
    float always prints a point, an exponent, inf or nan). *)
Definition not_binary (data : pydict) (field : string) : bool :=
  match data !! field with
  | Some (VStr s) => negb (bool_decide (s ∈ ["0"; "1"]))
  | Some (VInt z) => negb (bool_decide (z = 0 ∨ z = 1))
  | _ => true
  end.

Definition validate_patient_data (patient_data : pydict)
  : outcome (bool * option string) :=
  match first_failing (missing_or_none patient_data) patient_required_fields with
  | Some field => Return (false, Some ("Missing required field: " +:+ field))
  | None =>
      match check_range patient_data "age" 0 120
              "Age must be between 0 and 120." "Invalid age value." with
      | Raise e => Raise e
      | Return (Some r) => Return r
      | Return None =>
          match check_range patient_data "avg_glucose_level" 0 500
                  "Glucose level must be between 0 and 500."
                  "Invalid glucose level value." with
          | Raise e => Raise e
          | Return (Some r) => Return r
          | Return None =>
              if gender_not_valid patient_data
              then Return (false, Some "Gender must be one of: Male, Female, Other")
              else
                match first_failing (not_binary patient_data) binary_fields with
                | Some field => Return (false, Some (field +:+ " must be 0 or 1."))
                | None => Return (true, None)
                end
          end
      end
  end.
End Validators.

(* ===================================================================== *)
(** ** Sequencing of outcomes                                             *)
(* ===================================================================== *)

Global Instance outcome_ret : MRet outcome := fun A a => Return a.
Global Instance outcome_bind : MBind outcome := fun A B f m =>
  match m with
  | Return a => f a
  | Raise e => Raise e
  end.

(** [[f(x) for x in xs]], stopping at the first exception. *)
Fixpoint traverse {A B} (f : A -> outcome B) (xs : list A) : outcome (list B) :=
  match xs with
  | [] => Return []
  | x :: rest =>
      match f x with
      | Raise e => Raise e
      | Return y =>
          match traverse f rest with
          | Raise e => Raise e
          | Return ys => Return (y :: ys)
          end
      end
  end.

(* ===================================================================== *)
(** ** scripts/train_model.py: the columns of the training matrix         *)
(* ===================================================================== *)

(** A data frame is followed through the script by its column index, the
    part the order of the training features depends on. *)
Abbreviation columns := (list string).

(** What the cells of the file decide on the way to the training matrix:
    whether each statement that computes on them goes through or raises.
    These are the overview printed of the stroke column (its sum, its count
    of zeros, its share of the rows formatted as a number), the conversion of
    bmi by [pd.to_numeric], the filling of bmi with its median, the filling
    of smoking_status, the dropping of the rows without gender, and the
    fitting of the encoder of each categorical column. *)
Record Cells : Type := {
  stroke_overview : outcome unit;
  bmi_to_numeric : outcome unit;
  bmi_fillna : outcome unit;
  smoking_status_fillna : outcome unit;
  gender_dropna : outcome unit;
  fit_transform : string -> outcome unit
}.

(** [df[c]] read: KeyError when there is no such column. *)
Definition df_read (df : columns) (c : string) : outcome unit :=
  if bool_decide (c ∈ df) then Return tt else Raise (Exn KeyError (quote c)).

(** [df[c] = ...]: an existing column keeps its place, a new one goes last. *)
Definition df_assign (df : columns) (c : string) : columns :=
  if bool_decide (c ∈ df) then df else df ++ [c].

(** [df.drop(labels, axis=1)]: KeyError when a label is not a column. *)
Definition df_drop (df : columns) (labels : list string) : outcome columns :=
  match first_failing (fun l => negb (bool_decide (l ∈ df))) labels with
  | Some l => Raise (Exn KeyError ("[" +:+ quote l +:+ "] not found in axis"))
  | None => Return (filter (fun c => c ∉ labels) df)
  end.

Definition categorical_cols : list string :=
  [ "gender"; "ever_married"; "work_type"; "Residence_type"; "smoking_status" ].

(** [df.dropna(subset=[c])]: KeyError when there is no such column. *)
Definition df_dropna (df : columns) (c : string) : outcome unit :=
  if bool_decide (c ∈ df) then Return tt
  else Raise (Exn KeyError ("[" +:+ quote c +:+ "]")).

(** [load_and_preprocess_data], from the frame that [read_csv] returned. *)
Definition load_and_preprocess_data (cells : Cells) (header : columns)
    : outcome columns :=
  let df := header in
  _ ← df_read df "stroke";
  _ ← stroke_overview cells;
  _ ← df_read df "bmi";
  _ ← bmi_to_numeric cells;
  let df := df_assign df "bmi" in
  _ ← df_read df "bmi";
  _ ← bmi_fillna cells;
  _ ← df_read df "smoking_status";
  _ ← smoking_status_fillna cells;
  _ ← df_dropna df "gender";
  _ ← gender_dropna cells;
  Return df.

Fixpoint encode_categorical_from (cells : Cells) (df : columns) (cols : list string)
    : outcome columns :=
  match cols with
  | [] => Return df
  | col :: rest =>
      _ ← df_read df col;
      _ ← fit_transform cells col;
      encode_categorical_from cells (df_assign df col) rest
  end.

Definition encode_categorical (cells : Cells) (df : columns) : outcome columns :=
  encode_categorical_from cells df categorical_cols.

(** [X.columns] in [main], for the frame read from the dataset. *)
Definition training_columns (cells : Cells) (header : columns) : outcome columns :=
  df ← load_and_preprocess_data cells header;
  df ← encode_categorical cells df;
  X ← df_drop df ["id"; "stroke"];
  _ ← df_read df "stroke";
  Return X.

(** Modelled from the spec: the columns of
    data/healthcare-dataset-stroke-data.csv, the file that the training
    script reads and that is not among the sources. Section 3 of the
    specification gives the Patient Feature Vector as an ordered tuple of
    ten fields; the residence field is keyed Residence_type, as in the
    example of section 8. *)
Definition patient_feature_vector : list string :=
  [ "gender"; "age"; "hypertension"; "heart_disease"; "ever_married";
    "work_type"; "Residence_type"; "avg_glucose_level"; "bmi";
    "smoking_status" ].

(** Modelled from the spec: a header row of that file, the tuple between
    the two columns that the script drops, id and stroke. The theorems on
    the order of the features hold of every header whose columns, without
    these two, are the tuple; this header is one of them. *)
Definition dataset_header : columns :=
  "id" :: patient_feature_vector ++ ["stroke"].

(** The same header with the key of the residence in lower case. *)
Definition lowercase_header : columns :=
  [ "id"; "gender"; "age"; "hypertension"; "heart_disease"; "ever_married";
    "work_type"; "residence_type"; "avg_glucose_level"; "bmi";
    "smoking_status"; "stroke" ].

(* ===================================================================== *)
(** ** Model artifacts                                                    *)
(* ===================================================================== *)

(** A LabelEncoder fitted on a column of strs: [classes_] is the
    vocabulary seen in training, in sorted order. *)
Record LabelEncoder : Type := { classes_ : list string }.

Fixpoint index_of (s : string) (l : list string) : option Z :=
  match l with
  | [] => None
  | c :: rest => if bool_decide (s = c) then Some 0 else Z.succ <$> index_of s rest
  end.

(** The exceptions of [transform]: the ValueError of a str outside the
    vocabulary, the ValueError of a value that is no label at all (a number,
    None, an array of the wrong shape; the service never reads its text), and
    the TypeError of a dict, which cannot be looked up. *)
Definition unseen_label (s : string) : exn :=
  Exn ValueError ("y contains previously unseen labels: " +:+ quote s).
Definition not_a_label : exn := Exn ValueError "y contains previously unseen labels".
Definition unhashable_dict : exn := Exn TypeError "unhashable type: 'dict'".

(** The position of a str in the vocabulary. *)
Definition le_lookup (le : LabelEncoder) (s : string) : outcome Z :=
  match index_of s (classes_ le) with
  | Some code => Return code
  | None => Raise (unseen_label s)
  end.

(** [le.transform([v])[0]] on the values a JSON body can hold: a str is
    looked up; a list of one element is flattened to that element; a dict, on
    its own or as that element, is unhashable; every other value is an array
    of the wrong shape or no label of the vocabulary. *)
Definition le_transform (le : LabelEncoder) (v : value) : outcome Z :=
  match v with
  | VStr s => le_lookup le s
  | VDict _ => Raise unhashable_dict
  | VList [VStr s] => le_lookup le s
  | VList [VDict _] => Raise unhashable_dict
  | _ => Raise not_a_label
  end.

(** The fitted scaler: [transform(np.array([row]))] for the assembled row. *)
Record Scaler : Type := { scaler_transform : list value -> outcome (list float) }.

(** The fitted ensemble classifier: [len(model)] is the number of its
    estimators (the truth value of the object is [len(model) > 0]), and
    [predict_proba(X)[0][1]] is the class-1 probability of one row. *)
Record Model : Type := {
  estimators_ : nat;
  predict_proba : list float -> outcome float
}.

Abbreviation Encoders := (gmap string LabelEncoder).

(* ===================================================================== *)
(** ** The world the service runs in                                      *)
(* ===================================================================== *)

(** The attributes of the PredictionService singleton. *)
Record Service : Type := {
  _model : option Model;
  _scaler : option Scaler;
  _label_encoders : option Encoders
}.

Inductive level : Type := INFO | WARNING | ERROR.

(** What is logged (the text of a record is a fixed phrase around these). *)
Inductive message : Type :=
  | LoadedModel (path : string)
  | LoadedScaler (path : string)
  | LoadedEncoders (path : string)
  | ModelLoaded
  | SomeFilesNotFound
  | ErrorLoadingModel (e : exn)
  | UnseenLabel (col : string) (v : value)
  | PredictionError (e : exn)
  | PredictionMade (category probability : value)
  | PredictionValidationError (e : exn).

(** The calls that reach the service and its artifacts. *)
Inductive call : Type :=
  | CallPredictRisk (patient_data : pydict)
  | CallScaler (row : list value)
  | CallModel (x : list float).

Record World : Type := {
  service : Service;
  log : list (level * message);
  calls : list call
}.

(** What the process reads and never writes: the Flask configuration
    ([None] outside an application context) and, for a path, what
    [os.path.exists] and [pickle.load(open(path, 'rb'))] give when the path is
    read as the classifier, the scaler or the encoders: [None] when there is
    no such file, an exception when opening or unpickling fails. *)
Record Env : Type := {
  app_config : option (gmap string string);
  model_at : string -> option (outcome Model);
  scaler_at : string -> option (outcome Scaler);
  encoders_at : string -> option (outcome Encoders)
}.

Definition M (A : Type) : Type := World -> outcome A * World.

Global Instance M_ret : MRet M := fun A a w => (Return a, w).
Global Instance M_bind : MBind M := fun A B f m w =>
  match m w with
  | (Return a, w') => f a w'
  | (Raise e, w') => (Raise e, w')
  end.

Definition raise {A} (e : exn) : M A := fun w => (Raise e, w).
Definition lift {A} (o : outcome A) : M A := fun w => (o, w).

(** [try: body except Exception as e: handler(e)] *)
Definition try_except {A} (body : M A) (handler : exn -> M A) : M A := fun w =>
  match body w with
  | (Return a, w') => (Return a, w')
  | (Raise e, w') => handler e w'
  end.

Definition get_service : M Service := fun w => (Return (service w), w).
Definition put_service (s : Service) : M unit := fun w =>
  (Return tt, {| service := s; log := log w; calls := calls w |}).
Definition logging (l : level) (m : message) : M unit := fun w =>
  (Return tt, {| service := service w; log := log w ++ [(l, m)]; calls := calls w |}).
Definition record (c : call) : M unit := fun w =>
  (Return tt, {| service := service w; log := log w; calls := calls w ++ [c] |}).

Definition set_model (m : Model) : M unit :=
  s ← get_service;
  put_service {| _model := Some m; _scaler := _scaler s;
                 _label_encoders := _label_encoders s |}.
Definition set_scaler (sc : Scaler) : M unit :=
  s ← get_service;
  put_service {| _model := _model s; _scaler := Some sc;
                 _label_encoders := _label_encoders s |}.
Definition set_label_encoders (encs : Encoders) : M unit :=
  s ← get_service;
  put_service {| _model := _model s; _scaler := _scaler s;
                 _label_encoders := Some encs |}.

(** Truth values of the three attributes. *)
Definition model_truthy (m : option Model) : bool :=
  match m with Some m => negb (Nat.eqb (estimators_ m) 0) | None => false end.
Definition scaler_truthy (sc : option Scaler) : bool :=
  match sc with Some _ => true | None => false end.
Definition encoders_truthy (encs : option Encoders) : bool :=
  match encs with Some d => negb (bool_decide (d = ∅)) | None => false end.

(** Truth value of a JSON value. *)
Definition truthy (v : value) : bool :=
  match v with
  | VNone => false
  | VBool b => b
  | VInt z => negb (z =? 0)
  | VFloat f => negb (f =? 0)%float
  | VStr s => negb (bool_decide (s = ""))
  | VList l => match l with [] => false | _ => true end
  | VDict d => match d with [] => false | _ => true end
  end.

(* ===================================================================== *)
(** ** app/services/prediction_service.py                                 *)
(* ===================================================================== *)

(** [current_app.config]: RuntimeError outside an application context. *)
Definition current_app_config (env : Env) : M (gmap string string) :=
  match app_config env with
  | Some cfg => mret cfg
  | None => raise (Exn RuntimeError "Working outside of application context.")
  end.

(** [config.get(key, dflt)] *)
Definition config_get (cfg : gmap string string) (key dflt : string) : string :=
  default dflt (cfg !! key).

(** [for path in paths: if os.path.exists(path): store(pickle.load(...));
     logging.info(...); break] *)
Fixpoint load_first {A} (read : string -> option (outcome A)) (store : A -> M unit)
    (loaded : string -> message) (paths : list string) : M unit :=
  match paths with
  | [] => mret tt
  | path :: rest =>
      match read path with
      | None => load_first read store loaded rest
      | Some (Raise e) => raise e
      | Some (Return a) =>
          _ ← store a;
          logging INFO (loaded path)
      end
  end.

Definition model_paths (cfg : gmap string string) : list string :=
  [ config_get cfg "MODEL_PATH" "ml_models/stroke_model.pkl";
    "stroke_model.pkl"; "ml_models/stroke_model.pkl" ].
Definition scaler_paths (cfg : gmap string string) : list string :=
  [ config_get cfg "SCALER_PATH" "ml_models/scaler.pkl";
    "scaler.pkl"; "ml_models/scaler.pkl" ].
Definition encoder_paths (cfg : gmap string string) : list string :=
  [ config_get cfg "ENCODERS_PATH" "ml_models/label_encoders.pkl";
    "label_encoders.pkl"; "ml_models/label_encoders.pkl" ].

Definition load_model (env : Env) : M bool :=
  s ← get_service;
  match _model s with
  | Some _ => mret true
  | None =>
      try_except
        (cfg ← current_app_config env;
         let model_paths := model_paths cfg in
         let scaler_paths := scaler_paths cfg in
         let encoder_paths := encoder_paths cfg in
         _ ← load_first (model_at env) set_model LoadedModel model_paths;
         _ ← load_first (scaler_at env) set_scaler LoadedScaler scaler_paths;
         _ ← load_first (encoders_at env) set_label_encoders LoadedEncoders encoder_paths;
         s ← get_service;
         if model_truthy (_model s) && scaler_truthy (_scaler s)
            && encoders_truthy (_label_encoders s)
         then _ ← logging INFO ModelLoaded; mret true
         else _ ← logging WARNING SomeFilesNotFound; mret false)
        (fun e => _ ← logging ERROR (ErrorLoadingModel e); mret false)
  end.

Definition feature_order : list string :=
  [ "gender"; "age"; "hypertension"; "heart_disease";
    "ever_married"; "work_type"; "Residence_type";
    "avg_glucose_level"; "bmi"; "smoking_status" ].

(** One round of the encoding loop, for column [col]. *)
Definition encode_col (patient_data : pydict) (encoded_data : pydict) (col : string)
    : M pydict :=
  s ← get_service;
  match _label_encoders s with
  | None => raise (Exn TypeError "argument of type 'NoneType' is not iterable")
  | Some encoders =>
      match encoders !! col, patient_data !! col with
      | Some le, Some v =>
          match le_transform le v with
          | Return code => mret (<[col := VInt code]> encoded_data)
          | Raise e =>
              (* except ValueError *)
              if is_ValueError e
              then _ ← logging WARNING (UnseenLabel col v);
                   mret (<[col := VInt 0]> encoded_data)
              else raise e
          end
      | _, _ => mret encoded_data
      end
  end.

Fixpoint encode_cols (patient_data : pydict) (encoded_data : pydict)
    (cols : list string) : M pydict :=
  match cols with
  | [] => mret encoded_data
  | col :: rest =>
      encoded_data ← encode_col patient_data encoded_data col;
      encode_cols patient_data encoded_data rest
  end.

(** [self._scaler.transform(X_input)] *)
Definition scale (X_input : list value) : M (list float) :=
  s ← get_service;
  match _scaler s with
  | None => raise (Exn AttributeError "'NoneType' object has no attribute 'transform'")
  | Some sc => _ ← record (CallScaler X_input); lift (scaler_transform sc X_input)
  end.

(** [self._model.predict_proba(X_scaled)[0][1]] *)
Definition classify (X_scaled : list float) : M float :=
  s ← get_service;
  match _model s with
  | None => raise (Exn AttributeError "'NoneType' object has no attribute 'predict_proba'")
  | Some m => _ ← record (CallModel X_scaled); lift (predict_proba m X_scaled)
  end.

(** The risk bucket of a probability: category and colour. *)
Definition categorize (risk_probability : float) : string * string :=
  if (risk_probability <? 0.33)%float then ("Low Risk", "green")
  else if (risk_probability <? 0.66)%float then ("Medium Risk", "orange")
  else ("High Risk", "red").

Definition failure (error : string) : pydict :=
  dict_of [ ("success", VBool false); ("error", VStr error) ].

Section Service.
Context {rt : PyRuntime}.

Definition success (risk_probability : float) : pydict :=
  let '(risk_category, risk_color) := categorize risk_probability in
  dict_of [ ("success", VBool true);
            ("risk_probability", VFloat (round2 (risk_probability * 100)%float));
            ("risk_category", VStr risk_category);
            ("risk_color", VStr risk_color) ].

(** The body of the [try] of [predict_risk]. *)
Definition predict_body (patient_data : pydict) : M pydict :=
  let encoded_data := py_copy patient_data in
  encoded_data ← encode_cols patient_data encoded_data categorical_cols;
  X_input ← lift (traverse (py_getitem encoded_data) feature_order);
  X_scaled ← scale X_input;
  risk_probability ← classify X_scaled;
  mret (success risk_probability).

Definition predict_risk (env : Env) (patient_data : pydict) : M pydict :=
  _ ← record (CallPredictRisk patient_data);
  loaded ← load_model env;
  if negb loaded then mret (failure "Model not loaded")
  else
    s ← get_service;
    match _model s with
    | None => mret (failure "Model not available")
    | Some _ =>
        try_except (predict_body patient_data)
          (fun e => _ ← logging ERROR (PredictionError e);
                    mret (failure (exn_msg e)))
    end.
End Service.

(* ===================================================================== *)
(** ** app/routes/prediction.py                                           *)
(* ===================================================================== *)

Definition error_value (msg : option string) : value :=
  match msg with Some m => VStr m | None => VNone end.

Section Routes.
Context {rt : PyRuntime}.

(** The dict handed to [predict_risk], its entries evaluated in order. *)
Definition prepare_patient_data (data : pydict) : outcome pydict :=
  let gender := py_get data "gender" in
  age ← py_float (py_get data "age");
  hypertension ← py_int (py_get_default data "hypertension" (VInt 0));
  heart_disease ← py_int (py_get_default data "heart_disease" (VInt 0));
  let ever_married := py_get data "ever_married" in
  let work_type := py_get data "work_type" in
  let Residence_type := py_get data "Residence_type" in
  avg_glucose_level ← py_float (py_get data "avg_glucose_level");
  bmi ← py_float (py_get data "bmi");
  let smoking_status := py_get data "smoking_status" in
  Return (dict_of
    [ ("gender", gender); ("age", VFloat age);
      ("hypertension", VInt hypertension);
      ("heart_disease", VInt heart_disease);
      ("ever_married", ever_married); ("work_type", work_type);
      ("Residence_type", Residence_type);
      ("avg_glucose_level", VFloat avg_glucose_level);
      ("bmi", VFloat bmi); ("smoking_status", smoking_status) ]).

(** The [try] block of the view: the JSON body and the status code. *)
Definition predict_try (env : Env) (data : pydict) : M (pydict * Z) :=
  if bool_decide (data = ∅) then mret (failure "No data provided", 400)
  else
    '(is_valid, error_msg) ← lift (validate_prediction_input data);
    if negb is_valid
    then mret (dict_of [ ("success", VBool false); ("error", error_value error_msg) ], 400)
    else
      patient_data ← lift (prepare_patient_data data);
      result ← predict_risk env patient_data;
      _ ← (if truthy (py_get result "success")
           then category ← lift (py_getitem result "risk_category");
                probability ← lift (py_getitem result "risk_probability");
                logging INFO (PredictionMade category probability)
           else mret tt);
      mret (result, 200).

(** POST /predict on a JSON object body. *)
Definition predict (env : Env) (data : pydict) : M (pydict * Z) :=
  try_except (predict_try env data)
    (fun e =>
       if is_ValueError e
       then _ ← logging ERROR (PredictionValidationError e);
            mret (failure ("Invalid input: " +:+ exn_msg e), 400)
       else _ ← logging ERROR (PredictionError e);
            mret (failure (exn_msg e), 500)).
End Routes.

(* ===================================================================== *)
(** ** A concrete runtime and concrete artifacts                          *)
(* ===================================================================== *)

(** Plain decimal literals, [-]ddd[.ddd]: the value is the quotient of two
    exactly represented integers, hence correctly rounded, as long as the
    digits fit 53 bits and there are at most 22 decimals. *)
Definition digit_of (a : Ascii.ascii) : option Z :=
  let n := Z.of_N (Ascii.N_of_ascii a) in
  if (48 <=? n) && (n <=? 57) then Some (n - 48) else None.

(** The digits at the head of [s]: their value after [acc], how many there
    are, and the rest of the string. *)
Fixpoint read_digits (s : string) (acc : Z) (n : nat) : Z * nat * string :=
  match s with
  | String a rest =>
      match digit_of a with
      | Some d => read_digits rest (10 * acc + d) (S n)
      | None => (acc, n, s)
      end
  | EmptyString => (acc, n, s)
  end.

Definition split_sign (s : string) : bool * string :=
  match s with
  | String "-"%char rest => (true, rest)
  | _ => (false, s)
  end.

Definition decimal_int (s : string) : option Z :=
  let '(neg, body) := split_sign s in
  match read_digits body 0 0 with
  | (z, S _, EmptyString) => Some (if neg then - z else z)
  | _ => None
  end.

Definition quotient (num den : Z) : option float :=
  match float_of_Z num, float_of_Z den with
  | Return a, Return b => Some (a / b)%float
  | _, _ => None
  end.

Definition decimal_float (s : string) : option float :=
  let '(neg, body) := split_sign s in
  match read_digits body 0 0 with
  | (z, S _, EmptyString) => quotient (if neg then - z else z) 1
  | (z, S _, String "."%char frac) =>
      match read_digits frac z 0 with
      | (zf, S k, EmptyString) => quotient (if neg then - zf else zf) (10 ^ Z.of_nat (S k))
      | _ => None
      end
  | _ => None
  end.

(** Round to the nearest integer, ties to even (exact below 2^52). *)
Definition rint (x : float) : float :=
  let two52 := 4503599627370496%float in
  if (abs x <? two52)%float
  then if (0 <=? x)%float then ((x + two52) - two52)%float
       else ((x - two52) + two52)%float
  else x.

(** [round(x, 2)] of a NumPy float64: scale, round, scale back. *)
Definition round_by_scaling (x : float) : float := (rint (x * 100) / 100)%float.

Definition decimal_runtime : PyRuntime :=
  {| parse_float := decimal_float;
     parse_int := decimal_int;
     round2 := round_by_scaling |}.

(** The vocabularies a LabelEncoder learns from the stroke dataset (sorted). *)
Definition stroke_encoders : Encoders :=
  list_to_map
    [ ("gender", {| classes_ := ["Female"; "Male"; "Other"] |});
      ("ever_married", {| classes_ := ["No"; "Yes"] |});
      ("work_type",
        {| classes_ := ["Govt_job"; "Never_worked"; "Private"; "Self-employed"; "children"] |});
      ("Residence_type", {| classes_ := ["Rural"; "Urban"] |});
      ("smoking_status",
        {| classes_ := ["Unknown"; "formerly smoked"; "never smoked"; "smokes"] |}) ].

(** A scaler with mean 0 and deviation 1 on a numeric row. *)
Definition unit_scaler : Scaler :=
  {| scaler_transform :=
       traverse (fun v =>
         match v with
         | VInt z => float_of_Z z
         | VFloat f => Return f
         | VBool b => Return (if b then 1%float else 0%float)
         | _ => Raise (Exn ValueError "could not convert string to float")
         end) |}.

(** A forest of 100 trees that gives every row the probability [p]. *)
Definition constant_model (p : float) : Model :=
  {| estimators_ := 100; predict_proba := fun _ => Return p |}.

Definition at_path {A} (where_ : string) (a : A) (path : string) : option (outcome A) :=
  if bool_decide (path = where_) then Some (Return a) else None.

(** The three artifacts in place under ml_models/, default configuration. *)
Definition deployed (m : Model) : Env :=
  {| app_config := Some ∅;
     model_at := at_path "ml_models/stroke_model.pkl" m;
     scaler_at := at_path "ml_models/scaler.pkl" unit_scaler;
     encoders_at := at_path "ml_models/label_encoders.pkl" stroke_encoders |}.

(** No artifact anywhere. *)
Definition bare : Env :=
  {| app_config := Some ∅;
     model_at := fun _ => None;
     scaler_at := fun _ => None;
     encoders_at := fun _ => None |}.

(** The service as the class body leaves it, nothing logged or called yet. *)
Definition fresh : World :=
  {| service := {| _model := None; _scaler := None; _label_encoders := None |};
     log := []; calls := [] |}.

(** The example input of the docstrings. *)
Definition example_input : pydict :=
  dict_of
    [ ("gender", VStr "Male"); ("age", VInt 45); ("hypertension", VInt 0);
      ("heart_disease", VInt 0); ("ever_married", VStr "Yes");
      ("work_type", VStr "Private"); ("Residence_type", VStr "Urban");
      ("avg_glucose_level", VFloat 120.5); ("bmi", VFloat 25.6);
      ("smoking_status", VStr "never smoked") ].

(** A body whose age is an integer too large for a float and whose bmi is
    not a number. *)
Definition oversized_age_input : pydict :=
  <["age" := VInt (10 ^ 400)]> (<["bmi" := VStr "abc"]> example_input).

(** A patient record with a negative age, and one with a glucose level
    above 500. *)
Definition negative_age_input : pydict :=
  <["age" := VInt (-5)]> (<["stroke" := VInt 0]> example_input).
Definition high_glucose_input : pydict :=
  <["avg_glucose_level" := VStr "600"]> (<["stroke" := VInt 0]> example_input).

(** A field that is present, not None and not the empty string. *)
Definition present_nonempty (data : pydict) (field : string) : Prop :=
  exists v, data !! field = Some v /\ v <> VNone /\ v <> VStr "".

(** A field that is present and not None. *)
Definition present (data : pydict) (field : string) : Prop :=
  exists v, data !! field = Some v /\ v <> VNone.

(** [float(data[field])] gives a float. *)
Definition parses_as_float {rt : PyRuntime} (data : pydict) (field : string) : Prop :=
  exists v x, data !! field = Some v /\ py_float v = Return x.

(* ===================================================================== *)
(** ** Properties of computations                                         *)
(* ===================================================================== *)

(** The result of [m] and the service it leaves depend on the service it
    starts from only, not on what was logged or called before. *)
Definition service_only {A} (m : M A) : Prop :=
  forall w w0, service w = service w0 ->
    (m w).1 = (m w0).1 /\ service (m w).2 = service (m w0).2.

(** [m] leaves the attributes of the service as they are. *)
Definition keeps_service {A} (m : M A) : Prop :=
  forall w, service (m w).2 = service w.

(** [m] leaves the classifier attribute as it is. *)
Definition keeps_model {A} (m : M A) : Prop :=
  forall w, _model (service (m w).2) = _model (service w).

(** [m] calls neither the service nor an artifact. *)
Definition keeps_calls {A} (m : M A) : Prop :=
  forall w, calls (m w).2 = calls w.

(** [m] only adds to the log. *)
Definition extends_log {A} (m : M A) : Prop :=
  forall w, log w `prefix_of` log (m w).2.

(** None of the three artifacts is on disk, at any path. *)
Definition artifacts_absent (env : Env) : Prop :=
  forall path, model_at env path = None /\ scaler_at env path = None /\
               encoders_at env path = None.

Section Reachability.
Context {rt : PyRuntime}.

(** The worlds a process gets to from the fresh service by calls of
    [load_model] and [predict_risk]; whatever else runs in between (the
    route, other logging) leaves the attributes of the service alone. *)
Inductive reachable (env : Env) : World -> Prop :=
  | reach_fresh : reachable env fresh
  | reach_load_model w :
      reachable env w -> reachable env (load_model env w).2
  | reach_predict_risk patient_data w :
      reachable env w -> reachable env (predict_risk env patient_data w).2
  | reach_elsewhere w w' :
      reachable env w -> service w' = service w -> reachable env w'.
End Reachability.

(** What is left of [predict_body] once the categorical columns are encoded. *)
Definition predict_rest {rt : PyRuntime} (encoded_data : pydict) : M pydict :=
  X_input ← lift (traverse (py_getitem encoded_data) feature_order);
  X_scaled ← scale X_input;
  risk_probability ← classify X_scaled;
  mret (success risk_probability).

(** The categorical fields that the input holds are strs. *)
Definition labelled (patient_data : pydict) : Prop :=
  Forall (fun c => forall v, patient_data !! c = Some v -> exists s, v = VStr s)
    categorical_cols.

(** A label outside the vocabulary of an encoder: a str that is not one of
    its classes. *)
Definition unseen (le : LabelEncoder) (v : value) : Prop :=
  exists s, v = VStr s /\ s ∉ classes_ le.

(** The contract of the classifier: a probability it returns lies in
    [0, 1]. *)
Definition probabilistic (m : Model) : Prop :=
  forall X_scaled p, predict_proba m X_scaled = Return p ->
    (0 <=? p)%float && (p <=? 1)%float = true.

(** A service whose three artifacts are in memory, nothing logged yet. *)
Definition serving (m : Model) : World :=
  {| service := {| _model := Some m; _scaler := Some unit_scaler;
                   _label_encoders := Some stroke_encoders |};
     log := []; calls := [] |}.

(** The docstring input with a gender the encoder has never seen. *)
Definition unseen_gender_input : pydict :=
  <["gender" := VStr "Nonbinary"]> example_input.

(** The answer of the try block of [predict_risk], from the outcome of its
    body. *)
Definition answer (o : outcome pydict) : outcome pydict :=
  match o with
  | Return d => Return d
  | Raise e => Return (failure (exn_msg e))
  end.

(** The classifier and the encoders are on disk; the scaler is missing. *)
Definition scaler_missing (m : Model) : Env :=
  {| app_config := Some ∅;
     model_at := at_path "ml_models/stroke_model.pkl" m;
     scaler_at := fun _ => None;
     encoders_at := at_path "ml_models/label_encoders.pkl" stroke_encoders |}.

(** The docstring input with a JSON object for its gender. *)
Definition unhashable_gender_input : pydict :=
  <["gender" := VDict [("code", VInt 1)]]> example_input.

(** Cells on which every step of the training script goes through. *)
Definition clean_cells : Cells :=
  {| stroke_overview := Return tt;
     bmi_to_numeric := Return tt;
     bmi_fillna := Return tt;
     smoking_status_fillna := Return tt;
     gender_dropna := Return tt;
     fit_transform := fun _ => Return tt |}.

(** The header of a file that lists the age before the gender. *)
Definition reordered_header : columns :=
  [ "id"; "age"; "gender"; "hypertension"; "heart_disease"; "ever_married";
    "work_type"; "Residence_type"; "avg_glucose_level"; "bmi";
    "smoking_status"; "stroke" ].

(** Only the classifier is on disk; scaler and encoders are missing. *)
Definition classifier_only (m : Model) : Env :=
  {| app_config := Some ∅;
     model_at := at_path "ml_models/stroke_model.pkl" m;
     scaler_at := fun _ => None;
     encoders_at := fun _ => None |}.

(* ===================================================================== *)
(** ** What the validators accept                                         *)
(* ===================================================================== *)

(** [str(v)] is '0' or '1'. *)
Definition binary_value (v : value) : Prop :=
  v = VStr "0" \/ v = VStr "1" \/ v = VInt 0 \/ v = VInt 1.

(** [float(data[field])] gives a float that is neither below [lo] nor above
    [hi] (a NaN is neither). *)
Definition within {rt : PyRuntime} (data : pydict) (field : string) (lo hi : float)
    : Prop :=
  exists v x, data !! field = Some v /\ py_float v = Return x /\
              (x <? lo)%float = false /\ (hi <? x)%float = false.

(** What a patient record has to satisfy for validate_patient_data. *)
Definition acceptable_patient {rt : PyRuntime} (data : pydict) : Prop :=
  Forall (present data) patient_required_fields /\
  within data "age" 0 120 /\
  within data "avg_glucose_level" 0 500 /\
  (exists g, data !! "gender" = Some (VStr g) /\ g ∈ valid_genders) /\
  Forall (fun f => exists v, data !! f = Some v /\ binary_value v) binary_fields.

(** The fields whose value validate_patient_data looks at, and the ones it
    only requires to be there. *)
Definition inspected_patient_fields : list string :=
  [ "gender"; "age"; "hypertension"; "heart_disease"; "avg_glucose_level"; "stroke" ].
Definition uninspected_patient_fields : list string :=
  [ "ever_married"; "work_type"; "Residence_type"; "smoking_status" ].

(** The docstring input without its age and its bmi. *)
Definition ageless_input : pydict := delete "age" (delete "bmi" example_input).

(** A stored record: the docstring input with its stroke flag. *)
Definition example_patient : pydict := <["stroke" := VInt 0]> example_input.

(** The same patient with marital status, work and residence that no
    category lists, and no bmi. *)
Definition odd_patient : pydict :=
  <["ever_married" := VStr "perhaps"]>
    (<["work_type" := VInt 7]>
       (<["Residence_type" := VStr ""]> (delete "bmi" example_patient))).

(* ===================================================================== *)
(** ** What the encoding loop computes                                    *)
(* ===================================================================== *)

(** The code [transform] gives, the default 0 of the [except ValueError]
    branch, or the exception that gets through that branch. *)
Definition code_or_zero (le : LabelEncoder) (v : value) : outcome Z :=
  match le_transform le v with
  | Return code => Return code
  | Raise e => if is_ValueError e then Return 0 else Raise e
  end.

(** The round of the loop for column [c]: the entry of the column after it,
    [old] being the entry before it, or the exception that ends the loop. *)
Definition encode_entry (encoders : Encoders) (patient_data : pydict) (c : string)
    (old : option value) : outcome (option value) :=
  match encoders !! c, patient_data !! c with
  | Some le, Some v => code ← code_or_zero le v; Return (Some (VInt code))
  | _, _ => Return old
  end.

(** The entry of key [c] in [encoded_data] once the loop is over, or the
    exception the loop raises at that column. *)
Definition encoded_entry (encoders : Encoders) (patient_data : pydict) (c : string)
    : outcome (option value) :=
  if bool_decide (c ∈ categorical_cols)
  then encode_entry encoders patient_data c (patient_data !! c)
  else Return (patient_data !! c).

(** The docstring input with a field the model does not use, and without
    its bmi. *)
Definition annotated_input : pydict := <["note" := VStr "follow-up"]> example_input.
Definition bmiless_input : pydict := delete "bmi" example_input.

(** What the route makes of the docstring input: the age as a float. *)
Definition example_patient_data : pydict :=
  dict_of
    [ ("gender", VStr "Male"); ("age", VFloat 45); ("hypertension", VInt 0);
      ("heart_disease", VInt 0); ("ever_married", VStr "Yes");
      ("work_type", VStr "Private"); ("Residence_type", VStr "Urban");
      ("avg_glucose_level", VFloat 120.5); ("bmi", VFloat 25.6);
      ("smoking_status", VStr "never smoked") ].

(** A classifier file that cannot be unpickled. *)
Definition corrupt_classifier : Env :=
  {| app_config := Some ∅;
     model_at := fun path =>
       if bool_decide (path = "ml_models/stroke_model.pkl")
       then Some (Raise (Exn OtherError "invalid load key, 'x'.")) else None;
     scaler_at := at_path "ml_models/scaler.pkl" unit_scaler;
     encoders_at := at_path "ml_models/label_encoders.pkl" stroke_encoders |}.

(** A configured classifier beside the one under ml_models/. *)
Definition configured (m m' : Model) : Env :=
  {| app_config := Some {[ "MODEL_PATH" := "prod/model.pkl" ]};
     model_at := fun path =>
       if bool_decide (path = "prod/model.pkl") then Some (Return m)
       else at_path "ml_models/stroke_model.pkl" m' path;
     scaler_at := at_path "ml_models/scaler.pkl" unit_scaler;
     encoders_at := at_path "ml_models/label_encoders.pkl" stroke_encoders |}.

(* ===================================================================== *)
(** ** scripts/train_model.py: stratification and saved artifacts         *)
(* ===================================================================== *)

(** [(mask).sum()] for a boolean mask over the predictions. *)
Definition count_where (mask : float -> bool) (all_predictions : list float) : nat :=
  length (List.filter mask all_predictions).

(** The three counts of [main]. *)
Definition low_risk (all_predictions : list float) : nat :=
  count_where (fun p => (p <? 0.33)%float) all_predictions.
Definition medium_risk (all_predictions : list float) : nat :=
  count_where (fun p => (0.33 <=? p)%float && (p <? 0.66)%float) all_predictions.
Definition high_risk (all_predictions : list float) : nat :=
  count_where (fun p => (0.66 <=? p)%float) all_predictions.

(** How many of the predictions the serving bucketer puts in a category. *)
Definition served_as (category : string) (all_predictions : list float) : nat :=
  count_where (fun p => bool_decide ((categorize p).1 = category)) all_predictions.

Definition MODEL_PATH : string := "ml_models/stroke_model.pkl".
Definition SCALER_PATH : string := "ml_models/scaler.pkl".
Definition ENCODERS_PATH : string := "ml_models/label_encoders.pkl".

(** The file at [where_] rewritten with the pickle of [a]. *)
Definition dump_at {A} (where_ : string) (a : A) (read : string -> option (outcome A))
    : string -> option (outcome A) :=
  fun path => if bool_decide (path = where_) then Some (Return a) else read path.

(** [save_model(model, scaler, le_dict)], when the three dumps go through:
    the disk afterwards. *)
Definition save_model (model : Model) (scaler : Scaler) (le_dict : Encoders)
    (env : Env) : Env :=
  {| app_config := app_config env;
     model_at := dump_at MODEL_PATH model (model_at env);
     scaler_at := dump_at SCALER_PATH scaler (scaler_at env);
     encoders_at := dump_at ENCODERS_PATH le_dict (encoders_at env) |}.

(** The columns the training script reads by name. *)
Definition columns_read : list string :=
  [ "stroke"; "bmi"; "smoking_status"; "gender"; "ever_married"; "work_type";
    "Residence_type"; "id" ].

(** Every statement of the script that computes on the cells goes
    through. *)
Definition computes (cells : Cells) : Prop :=
  stroke_overview cells = Return tt /\
  bmi_to_numeric cells = Return tt /\
  bmi_fillna cells = Return tt /\
  smoking_status_fillna cells = Return tt /\
  gender_dropna cells = Return tt /\
  Forall (fun col => fit_transform cells col = Return tt) categorical_cols.

(** The application's own configuration of the three paths. *)
Definition default_config : gmap string string :=
  list_to_map [ ("MODEL_PATH", MODEL_PATH); ("SCALER_PATH", SCALER_PATH);
                ("ENCODERS_PATH", ENCODERS_PATH) ].
(* ===================================================================== *)
(** ** app/utils/validators.py: sanitize_input, validate_email,          *)
(** ** validate_password                                                  *)
(* ===================================================================== *)

(** A str taken apart into its characters and put together again; one
    [ascii] is one code point, so that the strs modelled are those of code
    points below 256. *)
Abbreviation chars := list_ascii_of_string.
Abbreviation text := string_of_list_ascii.

(** [c.isspace()]: the controls 9 to 13 and 28 to 31, the space, the next
    line control 133 and the no-break space 160. *)
Definition isspace (c : ascii) : bool :=
  let n := N_of_ascii c in
  ((9 <=? n) && (n <=? 13) || (28 <=? n) && (n <=? 32) || (n =? 133) || (n =? 160))%N.

(** [s.lstrip()], [s.rstrip()] and [s.strip()] *)
Fixpoint lstrip (s : list ascii) : list ascii :=
  match s with
  | c :: s' => if isspace c then lstrip s' else s
  | [] => []
  end.
Definition rstrip (s : list ascii) : list ascii := reverse (lstrip (reverse s)).
Definition strip (s : list ascii) : list ascii := rstrip (lstrip s).

(** [s.replace(old, new)] for an [old] of one character. *)
Definition replace (old : ascii) (new : string) (s : list ascii) : list ascii :=
  flat_map (fun c => if Ascii.eqb c old then chars new else [c]) s.

(** [html.escape(s)], quotes included: the ampersand first, then the angle
    brackets, the double quote (character 34) and the single quote. *)
Definition html_escape (s : list ascii) : list ascii :=
  let s := replace "&" "&amp;" s in
  let s := replace "<" "&lt;" s in
  let s := replace ">" "&gt;" s in
  let s := replace "034" "&quot;" s in
  let s := replace "'" "&#x27;" s in
  s.

(** No whitespace at the start and none at the end. *)
Definition trimmed (s : list ascii) : Prop :=
  (forall c, head s = Some c -> isspace c = false) /\
  (forall c, last s = Some c -> isspace c = false).

(** The characters [html.escape] replaces, and what follows the ampersand in
    their replacements. *)
Definition html_special : list ascii := [ "&"; "<"; ">"; "034"; "'" ]%char.
Definition entity_tails : list (list ascii) :=
  chars <$> [ "amp;"; "lt;"; "gt;"; "quot;"; "#x27;" ].

(** [sanitize_input(input_string)], for None and for a str. *)
Definition sanitize_input (input_string : option string) : string :=
  match input_string with
  | None => ""
  | Some s => text (html_escape (strip (chars s)))
  end.

(** The patterns of this module are made of a start anchor, an end anchor,
    character classes and repeated character classes, one after the other. *)
Inductive atom : Type :=
  | Caret
  | Dollar
  | Class (ranges : list (ascii * ascii))
  | Repeat (min : nat) (ranges : list (ascii * ascii)).

(** [a-z] and a single character inside the brackets of a class. *)
Definition range (lo hi : ascii) : ascii * ascii := (lo, hi).
Definition one (c : ascii) : ascii * ascii := (c, c).

Definition in_class (ranges : list (ascii * ascii)) (c : ascii) : bool :=
  existsb (fun '(lo, hi) =>
             (N_of_ascii lo <=? N_of_ascii c)%N && (N_of_ascii c <=? N_of_ascii hi)%N)
          ranges.

(** What is left of [s] after each run of characters of the class at its
    start, the longest run first. *)
Fixpoint runs (ranges : list (ascii * ascii)) (s : list ascii) : list (list ascii) :=
  match s with
  | c :: s' => if in_class ranges c then runs ranges s' ++ [s] else [s]
  | [] => [[]]
  end.

(** What is left after each way an atom matches at [s], a suffix of
    [subject]. [$] matches at the end and before a newline that ends the
    subject. *)
Definition atom_ends (subject : list ascii) (a : atom) (s : list ascii)
    : list (list ascii) :=
  match a with
  | Caret => if bool_decide (length s = length subject) then [s] else []
  | Dollar => if bool_decide (s = [] \/ s = ["010"%char]) then [s] else []
  | Class ranges =>
      match s with
      | c :: s' => if in_class ranges c then [s'] else []
      | [] => []
      end
  | Repeat min ranges =>
      List.filter (fun s' => (min <=? length s - length s')%nat) (runs ranges s)
  end.

Fixpoint pattern_ends (subject : list ascii) (pattern : list atom) (s : list ascii)
    : list (list ascii) :=
  match pattern with
  | [] => [s]
  | a :: pattern' => flat_map (pattern_ends subject pattern') (atom_ends subject a s)
  end.

(** Whether the pattern matches at [s]. *)
Definition matches_at (subject : list ascii) (pattern : list atom) (s : list ascii)
    : bool :=
  match pattern_ends subject pattern s with
  | [] => false
  | _ :: _ => true
  end.

Fixpoint tails (s : list ascii) : list (list ascii) :=
  s :: match s with
       | [] => []
       | _ :: s' => tails s'
       end.

(** [bool(re.match(pattern, string))] and [bool(re.search(pattern, string))] *)
Definition re_match (pattern : list atom) (string : list ascii) : bool :=
  matches_at string pattern string.
Definition re_search (pattern : list atom) (string : list ascii) : bool :=
  existsb (matches_at string pattern) (tails string).

(** [a-zA-Z0-9._%+-], [a-zA-Z0-9.-] and [a-zA-Z] *)
Definition local_class : list (ascii * ascii) :=
  [ range "a" "z"; range "A" "Z"; range "0" "9";
    one "."; one "_"; one "%"; one "+"; one "-" ].
Definition domain_class : list (ascii * ascii) :=
  [ range "a" "z"; range "A" "Z"; range "0" "9"; one "."; one "-" ].
Definition letter_class : list (ascii * ascii) := [ range "a" "z"; range "A" "Z" ].

(** [r'^[a-zA-Z0-9._%+-]+@[a-zA-Z0-9.-]+\.[a-zA-Z]{2,}$'] *)
Definition email_regex : list atom :=
  [ Caret; Repeat 1 local_class; Class [ one "@" ]; Repeat 1 domain_class;
    Class [ one "." ]; Repeat 2 letter_class; Dollar ].

(** The text local@domain.tld, and what the pattern asks of its parts. *)
Definition address (local domain tld : list ascii) : list ascii :=
  local ++ "@"%char :: domain ++ "."%char :: tld.
Definition well_formed (local domain tld : list ascii) : Prop :=
  local <> [] /\ Forall (fun c => in_class local_class c = true) local /\
  domain <> [] /\ Forall (fun c => in_class domain_class c = true) domain /\
  (2 <= length tld)%nat /\ Forall (fun c => in_class letter_class c = true) tld.

(** [validate_email(email)], for None and for a str. *)
Definition validate_email (email : option string) : bool :=
  match email with
  | None => false
  | Some s => if bool_decide (s = "") then false else re_match email_regex (chars s)
  end.

(** [validate_password(password)], for None and for a str; [\d] is [0-9]
    on code points below 256. *)
Definition validate_password (password : option string) : bool * option string :=
  let s := chars (default "" password) in
  if bool_decide (s = []) || (length s <? 8)%nat
  then (false, Some "Password must be at least 8 characters long.")
  else if negb (re_search [ Class [ range "A" "Z" ] ] s)
  then (false, Some "Password must contain at least one uppercase letter.")
  else if negb (re_search [ Class [ range "a" "z" ] ] s)
  then (false, Some "Password must contain at least one lowercase letter.")
  else if negb (re_search [ Class [ range "0" "9" ] ] s)
  then (false, Some "Password must contain at least one digit.")
  else (true, None).

(* ===================================================================== *)
(** ** app/routes/auth.py and app/routes/patients.py: the form checks     *)
(* ===================================================================== *)

(** [request.form.get(key)] as a value: a str or None. *)
Definition form_value (form : gmap string string) (key : string) : value :=
  match form !! key with
  | Some s => VStr s
  | None => VNone
  end.

(** The checks of [register] on a POST, up to the call of
    AuthService.register: the message flashed, or the username, email and
    password handed to the service. *)
Definition register_checks (form : gmap string string)
    : option string + string * string * string :=
  let username := sanitize_input (Some (default "" (form !! "username"))) in
  let email := sanitize_input (Some (default "" (form !! "email"))) in
  let password := default "" (form !! "password") in
  let confirm_password := default "" (form !! "confirm_password") in
  if bool_decide (username = "" \/ email = "" \/ password = "")
  then inl (Some "All fields are required.")
  else if negb (validate_email (Some email))
  then inl (Some "Invalid email format.")
  else if bool_decide (password <> confirm_password)
  then inl (Some "Passwords do not match.")
  else
    match validate_password (Some password) with
    | (false, error_msg) => inl error_msg
    | (true, _) => inr (username, email, password)
    end.

Section Forms.
Context {rt : PyRuntime}.

(** [bmi = request.form.get('bmi')] and the entry made of it. *)
Definition bmi_entry (form : gmap string string) : outcome value :=
  match form !! "bmi" with
  | Some bmi =>
      if bool_decide (bmi <> "" /\ bmi <> "N/A")
      then x ← py_float (VStr bmi); mret (VFloat x)
      else mret (VStr "N/A")
  | None => mret (VStr "N/A")
  end.

(** The dict [patient_data] that [add_patient] validates: the literal, in
    the order of its entries, then its bmi. *)
Definition add_patient_data (form : gmap string string) : outcome pydict :=
  id ← py_int (form_value form "patient_id");
  let gender := sanitize_input (form !! "gender") in
  age ← py_float (form_value form "age");
  hypertension ← py_int (form_value form "hypertension");
  heart_disease ← py_int (form_value form "heart_disease");
  let ever_married := sanitize_input (form !! "ever_married") in
  let work_type := sanitize_input (form !! "work_type") in
  let Residence_type := sanitize_input (form !! "Residence_type") in
  avg_glucose_level ← py_float (form_value form "avg_glucose_level");
  let smoking_status := sanitize_input (form !! "smoking_status") in
  stroke ← py_int (form_value form "stroke");
  let patient_data :=
    dict_of [ ("id", VInt id); ("gender", VStr gender); ("age", VFloat age);
              ("hypertension", VInt hypertension);
              ("heart_disease", VInt heart_disease);
              ("ever_married", VStr ever_married); ("work_type", VStr work_type);
              ("Residence_type", VStr Residence_type);
              ("avg_glucose_level", VFloat avg_glucose_level);
              ("smoking_status", VStr smoking_status); ("stroke", VInt stroke) ] in
  bmi ← bmi_entry form;
  mret (<["bmi" := bmi]> patient_data).

(** The dict [update_data] that [edit_patient] validates: the same without
    the id. *)
Definition edit_patient_data (form : gmap string string) : outcome pydict :=
  let gender := sanitize_input (form !! "gender") in
  age ← py_float (form_value form "age");
  hypertension ← py_int (form_value form "hypertension");
  heart_disease ← py_int (form_value form "heart_disease");
  let ever_married := sanitize_input (form !! "ever_married") in
  let work_type := sanitize_input (form !! "work_type") in
  let Residence_type := sanitize_input (form !! "Residence_type") in
  avg_glucose_level ← py_float (form_value form "avg_glucose_level");
  let smoking_status := sanitize_input (form !! "smoking_status") in
  stroke ← py_int (form_value form "stroke");
  let update_data :=
    dict_of [ ("gender", VStr gender); ("age", VFloat age);
              ("hypertension", VInt hypertension);
              ("heart_disease", VInt heart_disease);
              ("ever_married", VStr ever_married); ("work_type", VStr work_type);
              ("Residence_type", VStr Residence_type);
              ("avg_glucose_level", VFloat avg_glucose_level);
              ("smoking_status", VStr smoking_status); ("stroke", VInt stroke) ] in
  bmi ← bmi_entry form;
  mret (<["bmi" := bmi]> update_data).
End Forms.

(** The form of a new patient that leaves out ever_married, work_type,
    Residence_type and smoking_status, with blanks around the gender. *)
Definition sparse_form : gmap string string :=
  list_to_map
    [ ("patient_id", "9001"); ("gender", " Male "); ("age", "45");
      ("hypertension", "0"); ("heart_disease", "0");
      ("avg_glucose_level", "120.5"); ("stroke", "0") ].

(** A registration form: the email with a blank before it and a newline
    after it. *)
Definition registration_form : gmap string string :=
  list_to_map
    [ ("username", "nurse"); ("email", String " " ("nurse@example.com" +:+ String "010" ""));
      ("password", "SecurePass123"); ("confirm_password", "SecurePass123") ].

(** The record the route makes of [sparse_form]. *)
Definition sparse_patient : pydict :=
  dict_of
    [ ("id", VInt 9001); ("gender", VStr "Male"); ("age", VFloat 45);
      ("hypertension", VInt 0); ("heart_disease", VInt 0);
      ("ever_married", VStr ""); ("work_type", VStr "");
      ("Residence_type", VStr ""); ("avg_glucose_level", VFloat 120.5);
      ("smoking_status", VStr ""); ("stroke", VInt 0); ("bmi", VStr "N/A") ].

(* ===================================================================== *)
(** ** Comparison of binary64 numbers                                     *)
(* ===================================================================== *)

Lemma SFcompare_flip (x y : spec_float) :
  SFcompare x y = CompOpp <$> SFcompare y x.
Proof.
  destruct x as [sx|sx| |sx mx ex], y as [sy|sy| |sy my ey]; try reflexivity;
    try (destruct sx; reflexivity); try (destruct sy; reflexivity);
    try (destruct sx, sy; reflexivity).
  unfold SFcompare. fold (Pos.compare mx my). fold (Pos.compare my mx).
  rewrite (Z.compare_antisym ey ex), (Pos.compare_antisym my mx).
  destruct sx, sy; try reflexivity;
    destruct (ey ?= ex); try reflexivity;
    destruct (my ?= mx)%positive; reflexivity.
Qed.

(** [x <= y] excludes [y < x] (also for infinities; a NaN satisfies neither). *)
Lemma leb_not_ltb (x y : float) :
  (x <=? y)%float = true -> (y <? x)%float = false.
Proof.
  rewrite leb_spec, ltb_spec. unfold SFleb, SFltb.
  rewrite (SFcompare_flip (Prim2SF y)).
  destruct (SFcompare (Prim2SF x) (Prim2SF y)) as [[]|]; simpl; congruence.
Qed.

(** Nothing at or above 0.66 lies below 0.33. *)
Lemma above_high_not_low (p : float) :
  (0.66 <=? p)%float = true -> (p <? 0.33)%float = false.
Proof.
  rewrite leb_spec, ltb_spec. unfold SFleb, SFltb.
  replace (Prim2SF 0.66) with (S754_finite false 5944751508129055 (-53))
    by (vm_compute; reflexivity).
  replace (Prim2SF 0.33) with (S754_finite false 5944751508129055 (-54))
    by (vm_compute; reflexivity).
  destruct (Prim2SF p) as [s|s| |s m e]; try (destruct s); try discriminate;
    try reflexivity.
  unfold SFcompare.
  destruct (Z.compare_spec (-53) e) as [<-| |]; try discriminate.
  - reflexivity.
  - intros _. destruct (Z.compare_spec e (-54)); first [ lia | reflexivity ].
Qed.

(* ===================================================================== *)
(** ** The risk bucketer                                                  *)
(* ===================================================================== *)

(** C1. For every probability p the bucketer gives Low Risk / green when
    p < 0.33, Medium Risk / orange when 0.33 <= p < 0.66 and High Risk / red
    when p >= 0.66; the boundaries 0.33 and 0.66 belong to the higher bucket:
    0.32 is Low, 0.33 is Medium, 0.659 is Medium and 0.66 is High. *)
Theorem categorize_thresholds (p : float) :
  ((p <? 0.33)%float = true -> categorize p = ("Low Risk", "green")) /\
  ((0.33 <=? p)%float = true -> (p <? 0.66)%float = true ->
     categorize p = ("Medium Risk", "orange")) /\
  ((0.66 <=? p)%float = true -> categorize p = ("High Risk", "red")) /\
  categorize 0.32 = ("Low Risk", "green") /\
  categorize 0.33 = ("Medium Risk", "orange") /\
  categorize 0.659 = ("Medium Risk", "orange") /\
  categorize 0.66 = ("High Risk", "red").
Proof.
  unfold categorize. repeat split; try reflexivity.
  - intros ->. reflexivity.
  - intros Hlo ->. rewrite (leb_not_ltb _ _ Hlo). reflexivity.
  - intros Hhi. rewrite (above_high_not_low _ Hhi), (leb_not_ltb _ _ Hhi).
    reflexivity.
Qed.

(** Every bucket is one of the three, whatever the float. *)
Lemma categorize_cases (p : float) :
  categorize p = ("Low Risk", "green") \/
  categorize p = ("Medium Risk", "orange") \/
  categorize p = ("High Risk", "red").
Proof.
  unfold categorize.
  destruct (p <? 0.33)%float; [ by left |].
  destruct (p <? 0.66)%float; [ right; by left | right; by right ].
Qed.

(* ===================================================================== *)
(** ** The order of the features                                          *)
(* ===================================================================== *)

Lemma df_read_Return (df : columns) (c : string) (u : unit) :
  df_read df c = Return u -> c ∈ df.
Proof. unfold df_read. case_bool_decide; [ done | discriminate ]. Qed.

Lemma df_assign_present (df : columns) (c : string) :
  c ∈ df -> df_assign df c = df.
Proof. intros H. unfold df_assign. by rewrite bool_decide_eq_true_2. Qed.

Lemma encode_categorical_from_keeps (cells : Cells) (cols : list string)
    (df df' : columns) :
  encode_categorical_from cells df cols = Return df' -> df' = df.
Proof.
  revert df. induction cols as [|col rest IH]; intros df; simpl.
  - congruence.
  - destruct (df_read df col) as [[]|e] eqn:Hr; simpl; [| discriminate ].
    destruct (fit_transform cells col) as [[]|e]; simpl; [| discriminate ].
    rewrite (df_assign_present _ _ (df_read_Return _ _ _ Hr)). apply IH.
Qed.

(** Whatever the header and the cells of the dataset, a training run that
    gets as far as the matrix X keeps the columns of the file in their order,
    without id and stroke. *)
Lemma training_columns_keep_order (cells : Cells) (header X : columns) :
  training_columns cells header = Return X ->
  X = filter (fun c => c ∉ ["id"; "stroke"]) header.
Proof.
  unfold training_columns, load_and_preprocess_data.
  destruct (df_read header "stroke") as [[]|] eqn:H1; simpl; [| discriminate ].
  destruct (stroke_overview cells) as [[]|]; simpl; [| discriminate ].
  destruct (df_read header "bmi") as [[]|] eqn:H2; simpl; [| discriminate ].
  destruct (bmi_to_numeric cells) as [[]|]; simpl; [| discriminate ].
  rewrite (df_assign_present _ _ (df_read_Return _ _ _ H2)). rewrite H2. simpl.
  destruct (bmi_fillna cells) as [[]|]; simpl; [| discriminate ].
  destruct (df_read header "smoking_status") as [[]|]; simpl; [| discriminate ].
  destruct (smoking_status_fillna cells) as [[]|]; simpl; [| discriminate ].
  destruct (df_dropna header "gender") as [[]|]; simpl; [| discriminate ].
  destruct (gender_dropna cells) as [[]|]; simpl; [| discriminate ].
  destruct (encode_categorical cells header) as [df|] eqn:He; simpl; [| discriminate ].
  apply encode_categorical_from_keeps in He. subst df.
  unfold df_drop.
  destruct (first_failing _ _); simpl; [ discriminate |].
  rewrite H1. simpl. congruence.
Qed.

(* ===================================================================== *)
(** ** The validators                                                     *)
(* ===================================================================== *)

Section ValidatorFacts.
Context {rt : PyRuntime}.

Lemma first_failing_None (test : string -> bool) (fields : list string) :
  Forall (fun f => test f = false) fields -> first_failing test fields = None.
Proof. induction 1 as [|f fs Hf _ IH]; simpl; [ done | by rewrite Hf ]. Qed.

Lemma first_failing_Some (test : string -> bool) (fields : list string) (f : string) :
  f ∈ fields -> test f = true -> exists g, first_failing test fields = Some g.
Proof.
  induction fields as [|h fs IH]; intros Hin Ht; [ by apply elem_of_nil in Hin |].
  simpl. destruct (test h) eqn:Hh; [ by eexists |].
  apply elem_of_cons in Hin as [->|Hin]; [ congruence | by apply IH ].
Qed.

Lemma present_nonempty_not_missing (data : pydict) (f : string) :
  present_nonempty data f -> missing_or_empty data f = false.
Proof.
  intros (v & Hv & Hnone & Hempty). unfold missing_or_empty. rewrite Hv.
  destruct v; try done. apply bool_decide_eq_false_2. congruence.
Qed.

Lemma missing_not_present_nonempty (data : pydict) (f : string) :
  missing_or_empty data f = false -> present_nonempty data f.
Proof.
  unfold missing_or_empty, present_nonempty.
  destruct (data !! f) as [v|]; [| discriminate ].
  intros H. exists v. split; [ done |].
  destruct v; try discriminate; split; try discriminate.
  intros [= ->]. by rewrite bool_decide_eq_true_2 in H.
Qed.

Lemma present_not_missing (data : pydict) (f : string) :
  present data f -> missing_or_none data f = false.
Proof.
  intros (v & Hv & Hnone). unfold missing_or_none. rewrite Hv. by destruct v.
Qed.

Lemma convert_numeric_Return (data : pydict) (fields : list string) :
  Forall (parses_as_float data) fields -> convert_numeric data fields = Return tt.
Proof.
  induction 1 as [|f fs (v & x & Hv & Hx) _ IH]; simpl; [ done |].
  unfold py_getitem. by rewrite Hv, Hx.
Qed.

(** [float(data[field])] as the range checks of validate_patient_data run it. *)
Lemma check_range_out (data : pydict) (f : string) (v : value) (x lo hi : float)
    (range_msg bad_msg : string) :
  data !! f = Some v -> py_float v = Return x ->
  check_range data f lo hi range_msg bad_msg =
    Return (if (x <? lo)%float || (hi <? x)%float
            then Some (false, Some range_msg) else None).
Proof.
  intros Hv Hx. unfold check_range, py_getitem. rewrite Hv, Hx.
  by destruct ((x <? lo)%float || (hi <? x)%float).
Qed.

(** C10. validate_prediction_input enforces no range on the numeric
    fields: when the ten required fields are present and non-empty and age,
    avg_glucose_level and bmi convert to floats, it returns (True, None),
    also for an age outside [0, 120] or a glucose level outside [0, 500],
    which validate_patient_data rejects on a record with its own required
    fields. *)
Theorem validate_prediction_input_has_no_ranges (data : pydict) :
  Forall (present_nonempty data) prediction_required_fields ->
  Forall (parses_as_float data) numeric_fields ->
  validate_prediction_input data = Return (true, None) /\
  (Forall (present data) patient_required_fields ->
   forall v age, data !! "age" = Some v -> py_float v = Return age ->
     ((age <? 0)%float || (120 <? age)%float = true ->
      validate_patient_data data =
        Return (false, Some "Age must be between 0 and 120.")) /\
     ((age <? 0)%float || (120 <? age)%float = false ->
      forall u glucose, data !! "avg_glucose_level" = Some u ->
        py_float u = Return glucose ->
        (glucose <? 0)%float || (500 <? glucose)%float = true ->
        validate_patient_data data =
          Return (false, Some "Glucose level must be between 0 and 500."))).
Proof.
  intros Hreq Hnum. split.
  - unfold validate_prediction_input.
    rewrite first_failing_None.
    + by rewrite (convert_numeric_Return _ _ Hnum).
    + eapply Forall_impl; [ exact Hreq |]. apply present_nonempty_not_missing.
  - intros Hpat v age Hv Hage.
    assert (Hnone : first_failing (missing_or_none data) patient_required_fields = None).
    { apply first_failing_None. eapply Forall_impl; [ exact Hpat |].
      apply present_not_missing. }
    unfold validate_patient_data. rewrite Hnone.
    rewrite (check_range_out _ _ _ _ _ _ _ _ Hv Hage).
    split.
    + by intros ->.
    + intros -> u glucose Hu Hglucose Hout.
      by rewrite (check_range_out _ _ _ _ _ _ _ _ Hu Hglucose), Hout.
Qed.

(** A required field that is absent, None or empty is reported. *)
Lemma validate_prediction_input_missing (data : pydict) (f : string) :
  f ∈ prediction_required_fields -> missing_or_empty data f = true ->
  exists g, g ∈ prediction_required_fields /\
    validate_prediction_input data =
      Return (false, Some ("Missing required field: " +:+ g)).
Proof.
  intros Hin Hmiss. unfold validate_prediction_input.
  destruct (first_failing_Some _ _ _ Hin Hmiss) as [g Hg]. rewrite Hg.
  exists g. split; [| done ].
  clear -Hg. revert Hg. generalize prediction_required_fields.
  induction l as [|h fs IH]; simpl; [ discriminate |].
  destruct (missing_or_empty data h).
  - intros [= ->]. apply elem_of_cons. by left.
  - intros H. apply elem_of_cons. right. by apply IH.
Qed.

(** The three ways validate_prediction_input ends. *)
Lemma validate_prediction_input_cases (data : pydict) :
  validate_prediction_input data = Return (true, None) \/
  (exists msg, validate_prediction_input data = Return (false, Some msg)) \/
  (exists e, validate_prediction_input data = Raise e /\
     is_ValueError e = false /\ is_TypeError e = false).
Proof.
  unfold validate_prediction_input.
  destruct (first_failing _ _); [ right; left; by eexists |].
  destruct (convert_numeric _ _) as [[]|e]; [ by left |].
  destruct (is_ValueError e) eqn:Hv; simpl; [ right; left; by eexists |].
  destruct (is_TypeError e) eqn:Ht; simpl; [ right; left; by eexists |].
  right; right. by exists e.
Qed.

(** When every required field is there and the first numeric field that
    does not convert fails with a ValueError or a TypeError (a string that is
    no number, a list, a dict), the input is rejected with a message. *)
Lemma validate_prediction_input_not_numeric (data : pydict) (e : exn) :
  Forall (present_nonempty data) prediction_required_fields ->
  convert_numeric data numeric_fields = Raise e ->
  is_ValueError e || is_TypeError e = true ->
  validate_prediction_input data =
    Return (false, Some ("Invalid numeric value: " +:+ exn_msg e)).
Proof.
  intros Hreq He Hkind. unfold validate_prediction_input.
  rewrite first_failing_None.
  - by rewrite He, Hkind.
  - eapply Forall_impl; [ exact Hreq |]. apply present_nonempty_not_missing.
Qed.
End ValidatorFacts.

(* ===================================================================== *)
(** ** Computations in the world                                          *)
(* ===================================================================== *)

Lemma bind_run {A B} (m : M A) (k : A -> M B) (w : World) :
  (m ≫= k) w =
    match m w with
    | (Return a, w') => k a w'
    | (Raise e, w') => (Raise e, w')
    end.
Proof. reflexivity. Qed.

Lemma try_except_run {A} (body : M A) (handler : exn -> M A) (w : World) :
  try_except body handler w =
    match body w with
    | (Return a, w') => (Return a, w')
    | (Raise e, w') => handler e w'
    end.
Proof. reflexivity. Qed.

Ltac run :=
  repeat first
    [ rewrite bind_run | rewrite try_except_run
    | progress cbv beta iota zeta delta
        [ mret M_ret get_service put_service logging record raise lift ]
    | progress cbn [ fst snd service log calls _model _scaler _label_encoders ] ].

Section Frames.
Context {A B : Type}.

Lemma so_ret (a : A) : service_only (mret a : M A).
Proof. intros w w0 H. by split. Qed.

Lemma so_raise (e : exn) : service_only (raise e : M A).
Proof. intros w w0 H. by split. Qed.

Lemma so_lift (o : outcome A) : service_only (lift o).
Proof. intros w w0 H. by split. Qed.

Lemma so_bind (m : M A) (k : A -> M B) :
  service_only m -> (forall a, service_only (k a)) -> service_only (m ≫= k).
Proof.
  intros Hm Hk w w0 H. rewrite !bind_run.
  destruct (Hm w w0 H) as [H1 H2].
  destruct (m w) as [[a|e] w'], (m w0) as [[a0|e0] w0']; simpl in *;
    try discriminate; simplify_eq; [ by apply Hk | by split ].
Qed.

Lemma so_try (body : M A) (handler : exn -> M A) :
  service_only body -> (forall e, service_only (handler e)) ->
  service_only (try_except body handler).
Proof.
  intros Hm Hk w w0 H. rewrite !try_except_run.
  destruct (Hm w w0 H) as [H1 H2].
  destruct (body w) as [[a|e] w'], (body w0) as [[a0|e0] w0']; simpl in *;
    try discriminate; simplify_eq; [ by split | by apply Hk ].
Qed.

Lemma ks_ret (a : A) : keeps_service (mret a : M A).
Proof. by intros w. Qed.

Lemma ks_raise (e : exn) : keeps_service (raise e : M A).
Proof. by intros w. Qed.

Lemma ks_lift (o : outcome A) : keeps_service (lift o).
Proof. by intros w. Qed.

Lemma ks_bind (m : M A) (k : A -> M B) :
  keeps_service m -> (forall a, keeps_service (k a)) -> keeps_service (m ≫= k).
Proof.
  intros Hm Hk w. rewrite bind_run. specialize (Hm w).
  destruct (m w) as [[a|e] w']; simpl in *; [| done ].
  by rewrite Hk.
Qed.

Lemma ks_try (body : M A) (handler : exn -> M A) :
  keeps_service body -> (forall e, keeps_service (handler e)) ->
  keeps_service (try_except body handler).
Proof.
  intros Hm Hk w. rewrite try_except_run. specialize (Hm w).
  destruct (body w) as [[a|e] w']; simpl in *; [ done |].
  by rewrite Hk.
Qed.

Lemma km_ret (a : A) : keeps_model (mret a : M A).
Proof. by intros w. Qed.

Lemma km_raise (e : exn) : keeps_model (raise e : M A).
Proof. by intros w. Qed.

Lemma km_bind (m : M A) (k : A -> M B) :
  keeps_model m -> (forall a, keeps_model (k a)) -> keeps_model (m ≫= k).
Proof.
  intros Hm Hk w. rewrite bind_run. specialize (Hm w).
  destruct (m w) as [[a|e] w']; simpl in *; [| done ].
  by rewrite Hk.
Qed.

Lemma kc_ret (a : A) : keeps_calls (mret a : M A).
Proof. by intros w. Qed.

Lemma kc_raise (e : exn) : keeps_calls (raise e : M A).
Proof. by intros w. Qed.

Lemma kc_lift (o : outcome A) : keeps_calls (lift o).
Proof. by intros w. Qed.

Lemma kc_bind (m : M A) (k : A -> M B) :
  keeps_calls m -> (forall a, keeps_calls (k a)) -> keeps_calls (m ≫= k).
Proof.
  intros Hm Hk w. rewrite bind_run. specialize (Hm w).
  destruct (m w) as [[a|e] w']; simpl in *; [| done ].
  by rewrite Hk.
Qed.

Lemma kc_try (body : M A) (handler : exn -> M A) :
  keeps_calls body -> (forall e, keeps_calls (handler e)) ->
  keeps_calls (try_except body handler).
Proof.
  intros Hm Hk w. rewrite try_except_run. specialize (Hm w).
  destruct (body w) as [[a|e] w']; simpl in *; [ done |].
  by rewrite Hk.
Qed.
End Frames.

Lemma so_get_service : service_only get_service.
Proof. intros w w0 H. simpl. by rewrite H. Qed.

Lemma so_put_service (s : Service) : service_only (put_service s).
Proof. intros w w0 H. by split. Qed.

Lemma so_logging (l : level) (m : message) : service_only (logging l m).
Proof. intros w w0 H. by split. Qed.

Lemma so_record (c : call) : service_only (record c).
Proof. intros w w0 H. by split. Qed.

Lemma ks_get_service : keeps_service get_service.
Proof. by intros w. Qed.

Lemma ks_logging (l : level) (m : message) : keeps_service (logging l m).
Proof. by intros w. Qed.

Lemma ks_record (c : call) : keeps_service (record c).
Proof. by intros w. Qed.

Lemma km_logging (l : level) (m : message) : keeps_model (logging l m).
Proof. by intros w. Qed.

Lemma km_set_scaler (sc : Scaler) : keeps_model (set_scaler sc).
Proof. by intros w. Qed.

Lemma km_set_label_encoders (encs : Encoders) : keeps_model (set_label_encoders encs).
Proof. by intros w. Qed.

Lemma kc_get_service : keeps_calls get_service.
Proof. by intros w. Qed.

Lemma kc_put_service (s : Service) : keeps_calls (put_service s).
Proof. by intros w. Qed.

Lemma kc_logging (l : level) (m : message) : keeps_calls (logging l m).
Proof. by intros w. Qed.

Create HintDb frames.
#[local] Hint Resolve so_ret so_raise so_lift so_bind so_try so_get_service
  so_put_service so_logging so_record : frames.
#[local] Hint Resolve ks_ret ks_raise ks_lift ks_bind ks_try ks_get_service
  ks_logging ks_record : frames.
#[local] Hint Resolve km_ret km_raise km_bind km_logging km_set_scaler
  km_set_label_encoders : frames.
#[local] Hint Resolve kc_ret kc_raise kc_lift kc_bind kc_try kc_get_service
  kc_put_service kc_logging : frames.

Ltac frames := repeat (intros; first [ progress eauto with frames | case_match ]).

(* ===================================================================== *)
(** ** load_model                                                         *)
(* ===================================================================== *)

Lemma so_load_first {A} (read : string -> option (outcome A)) (store : A -> M unit)
    (loaded : string -> message) (paths : list string) :
  (forall a, service_only (store a)) ->
  service_only (load_first read store loaded paths).
Proof.
  intros Hs. induction paths as [|path rest IH]; cbn [load_first]; frames.
Qed.

Lemma km_load_first {A} (read : string -> option (outcome A)) (store : A -> M unit)
    (loaded : string -> message) (paths : list string) :
  (forall a, keeps_model (store a)) ->
  keeps_model (load_first read store loaded paths).
Proof.
  intros Hs. induction paths as [|path rest IH]; cbn [load_first]; frames.
Qed.

Lemma kc_load_first {A} (read : string -> option (outcome A)) (store : A -> M unit)
    (loaded : string -> message) (paths : list string) :
  (forall a, keeps_calls (store a)) ->
  keeps_calls (load_first read store loaded paths).
Proof.
  intros Hs. induction paths as [|path rest IH]; cbn [load_first]; frames.
Qed.

(** Nothing is loaded and nothing logged when no path exists. *)
Lemma load_first_absent {A} (read : string -> option (outcome A)) (store : A -> M unit)
    (loaded : string -> message) (paths : list string) (w : World) :
  (forall path, read path = None) ->
  load_first read store loaded paths w = (Return tt, w).
Proof.
  intros Habs. induction paths as [|path rest IH]; cbn [load_first]; [ done |].
  by rewrite Habs.
Qed.

#[local] Arguments load_first : simpl never.

Lemma so_set_model (m : Model) : service_only (set_model m).
Proof. intros w w0 H. simpl. by rewrite H. Qed.

Lemma so_set_scaler (sc : Scaler) : service_only (set_scaler sc).
Proof. intros w w0 H. simpl. by rewrite H. Qed.

Lemma so_set_label_encoders (encs : Encoders) : service_only (set_label_encoders encs).
Proof. intros w w0 H. simpl. by rewrite H. Qed.

Lemma kc_set_model (m : Model) : keeps_calls (set_model m).
Proof. by intros w. Qed.

Lemma kc_set_scaler (sc : Scaler) : keeps_calls (set_scaler sc).
Proof. by intros w. Qed.

Lemma kc_set_label_encoders (encs : Encoders) : keeps_calls (set_label_encoders encs).
Proof. by intros w. Qed.

#[local] Hint Resolve so_load_first so_set_model so_set_scaler so_set_label_encoders
  km_load_first kc_load_first kc_set_model kc_set_scaler kc_set_label_encoders
  : frames.

Lemma so_current_app_config (env : Env) : service_only (current_app_config env).
Proof. unfold current_app_config. frames. Qed.

Lemma kc_current_app_config (env : Env) : keeps_calls (current_app_config env).
Proof. unfold current_app_config. frames. Qed.

#[local] Hint Resolve so_current_app_config kc_current_app_config : frames.

Lemma so_load_model (env : Env) : service_only (load_model env).
Proof.
  unfold load_model. apply so_bind; [ frames |].
  intros s. destruct (_model s); [ frames |].
  apply so_try; [| frames ].
  repeat (apply so_bind; [ frames | intros ]).
  frames.
Qed.

Lemma kc_load_model (env : Env) : keeps_calls (load_model env).
Proof.
  unfold load_model. apply kc_bind; [ frames |].
  intros s. destruct (_model s); [ frames |].
  apply kc_try; [| frames ].
  repeat (apply kc_bind; [ frames | intros ]).
  frames.
Qed.

(** Case analysis on the computation that runs from world [w]. *)
Ltac on_run w pat :=
  match goal with
  | |- context [ match ?b w with _ => _ end ] => destruct (b w) as pat
  end.

(** [load_model] always returns. *)
Lemma load_model_returns (env : Env) (w : World) :
  exists b w', load_model env w = (Return b, w').
Proof.
  unfold load_model. rewrite bind_run. simpl.
  destruct (_model (service w)); [ by eexists _, _ |].
  rewrite try_except_run.
  on_run w ipattern:([[a|e] w']); [ by eexists _, _ |].
  run. by eexists _, _.
Qed.

(** With a classifier already in place nothing is read. *)
Lemma load_model_loaded (env : Env) (w : World) (m : Model) :
  _model (service w) = Some m -> load_model env w = (Return true, w).
Proof. intros H. unfold load_model. rewrite bind_run. simpl. by rewrite H. Qed.

(** A successful load leaves a classifier in place. *)
Lemma load_model_true (env : Env) (w w' : World) :
  load_model env w = (Return true, w') -> exists m, _model (service w') = Some m.
Proof.
  unfold load_model. rewrite bind_run. simpl.
  destruct (_model (service w)) as [m|] eqn:Hm.
  { intros [= <-]. by exists m. }
  rewrite try_except_run.
  match goal with |- context [ match ?b w with _ => _ end ] =>
    destruct (b w) as [[a|e] w1] eqn:Hbody end; [| run; discriminate ].
  intros [= -> ->].
  revert Hbody. rewrite bind_run.
  destruct (current_app_config env w) as [[cfg|?] w2]; [| discriminate ].
  rewrite bind_run.
  on_run w2 ipattern:([[[]|?] w3]); [| discriminate ].
  rewrite bind_run.
  on_run w3 ipattern:([[[]|?] w4]); [| discriminate ].
  rewrite bind_run.
  on_run w4 ipattern:([[[]|?] w5]); [| discriminate ].
  rewrite bind_run. simpl.
  destruct (_model (service w5)) as [m|] eqn:Hm5; simpl; [| discriminate ].
  destruct (negb _ && _ && _); run; intros [= <-]; simpl; eauto.
Qed.

(** Without a classifier file the load fails, call after call. *)
Lemma load_model_without_classifier (env : Env) (w : World) :
  (forall path, model_at env path = None) ->
  _model (service w) = None ->
  (load_model env w).1 = Return false /\
  _model (service (load_model env w).2) = None.
Proof.
  intros Habs Hnone. unfold load_model. run. rewrite Hnone. run.
  unfold current_app_config. destruct (app_config env) as [cfg|]; run; [| done ].
  rewrite (load_first_absent _ _ _ _ _ Habs). run.
  pose proof (km_load_first (scaler_at env) set_scaler LoadedScaler
                (scaler_paths cfg) km_set_scaler w) as H1.
  destruct (load_first (scaler_at env) _ _ _ w) as [[[]|?] w1]; simpl in H1; run;
    [| by rewrite H1 ].
  pose proof (km_load_first (encoders_at env) set_label_encoders LoadedEncoders
                (encoder_paths cfg) km_set_label_encoders w1) as H2.
  destruct (load_first (encoders_at env) _ _ _ w1) as [[[]|?] w2]; simpl in H2; run;
    [| by rewrite H2, H1 ].
  rewrite H2, H1, Hnone. simpl. run. by rewrite H2, H1.
Qed.

(* ===================================================================== *)
(** ** The encoding loop                                                  *)
(* ===================================================================== *)

Lemma index_of_None (s : string) (l : list string) :
  s ∉ l -> index_of s l = None.
Proof.
  induction l as [|c rest IH]; simpl; [ done |].
  intros Hnot. apply not_elem_of_cons in Hnot as [Hne Hrest].
  rewrite bool_decide_eq_false_2 by done. by rewrite IH.
Qed.

(** On a str, transform gives a code or the ValueError of an unseen label. *)
Lemma le_transform_cases (le : LabelEncoder) (s : string) :
  (exists code, le_transform le (VStr s) = Return code) \/
  le_transform le (VStr s) = Raise (unseen_label s).
Proof.
  unfold le_transform, le_lookup.
  destruct (index_of _ _); [ left; by eexists | by right ].
Qed.

(** The only exception of transform that is no ValueError. *)
Lemma le_transform_Raise (le : LabelEncoder) (v : value) (e : exn) :
  le_transform le v = Raise e -> is_ValueError e = true \/ e = unhashable_dict.
Proof.
  assert (forall s, le_lookup le s = Raise e -> is_ValueError e = true) as Hlook.
  { intros s. unfold le_lookup. destruct (index_of _ _); [ done |]. by intros [= <-]. }
  unfold le_transform. destruct v as [|b|z|f|s|l|d]; try (intros [= <-]; by left).
  - intros H. left. by apply (Hlook s).
  - destruct l as [|[|b|z|f|s|l'|d] [|? ?]]; try (intros [= <-]; by left).
    + intros H. left. by apply (Hlook s).
    + intros [= <-]. by right.
  - intros [= <-]. by right.
Qed.

Lemma le_transform_unseen (le : LabelEncoder) (v : value) :
  unseen le v ->
  exists e, le_transform le v = Raise e /\ is_ValueError e = true.
Proof.
  intros (s & -> & Hs). exists (unseen_label s). split; [| done ].
  unfold le_transform, le_lookup. by rewrite index_of_None.
Qed.

Lemma so_encode_col (pd enc : pydict) (col : string) : service_only (encode_col pd enc col).
Proof. unfold encode_col. apply so_bind; frames. Qed.

Lemma ks_encode_col (pd enc : pydict) (col : string) : keeps_service (encode_col pd enc col).
Proof. unfold encode_col. apply ks_bind; frames. Qed.

Lemma kc_encode_col (pd enc : pydict) (col : string) : keeps_calls (encode_col pd enc col).
Proof. unfold encode_col. apply kc_bind; frames. Qed.

#[local] Hint Resolve so_encode_col ks_encode_col kc_encode_col : frames.

Lemma so_encode_cols (pd : pydict) (cols : list string) (enc : pydict) :
  service_only (encode_cols pd enc cols).
Proof. revert enc. induction cols; intros enc; simpl; frames. Qed.

Lemma ks_encode_cols (pd : pydict) (cols : list string) (enc : pydict) :
  keeps_service (encode_cols pd enc cols).
Proof. revert enc. induction cols; intros enc; simpl; frames. Qed.

Lemma kc_encode_cols (pd : pydict) (cols : list string) (enc : pydict) :
  keeps_calls (encode_cols pd enc cols).
Proof. revert enc. induction cols; intros enc; simpl; frames. Qed.

#[local] Hint Resolve so_encode_cols ks_encode_cols kc_encode_cols : frames.

(** One round of the loop with the encoders in memory: a ValueError of
    transform is answered with the default code and a warning, any other
    exception gets through. *)
Lemma encode_col_run (pd enc : pydict) (col : string) (w : World) (encs : Encoders) :
  _label_encoders (service w) = Some encs ->
  encode_col pd enc col w =
    match encs !! col, pd !! col with
    | Some le, Some v =>
        match le_transform le v with
        | Return code => (Return (<[col := VInt code]> enc), w)
        | Raise e =>
            if is_ValueError e
            then (Return (<[col := VInt 0]> enc),
                  {| service := service w;
                     log := log w ++ [(WARNING, UnseenLabel col v)];
                     calls := calls w |})
            else (Raise e, w)
        end
    | _, _ => (Return enc, w)
    end.
Proof.
  intros Henc. unfold encode_col. run. rewrite Henc.
  destruct (encs !! col) as [le|]; [| done ].
  destruct (pd !! col) as [v|]; [| done ].
  destruct (le_transform le v) as [code|e]; [ done |].
  by destruct (is_ValueError e).
Qed.

(** The loop with the encoders in memory touches only the columns it is
    run on, and only adds to the log. *)
Lemma encode_cols_run (pd : pydict) (cols : list string) (enc : pydict) (w : World)
    (encs : Encoders) :
  _label_encoders (service w) = Some encs ->
  exists o w',
    encode_cols pd enc cols w = (o, w') /\
    service w' = service w /\
    log w `prefix_of` log w' /\
    (forall enc', o = Return enc' -> forall c, c ∉ cols -> enc' !! c = enc !! c).
Proof.
  revert enc w. induction cols as [|col rest IH]; intros enc w Henc.
  { exists (Return enc), w. repeat split; [ done |]. by intros enc' [= <-]. }
  cbn [encode_cols]. rewrite bind_run, (encode_col_run _ _ _ _ _ Henc).
  assert (forall enc1 w1, service w1 = service w -> log w `prefix_of` log w1 ->
            (forall c, c ≠ col -> enc1 !! c = enc !! c) ->
            exists o w', encode_cols pd enc1 rest w1 = (o, w') /\
              service w' = service w /\ log w `prefix_of` log w' /\
              (forall enc', o = Return enc' ->
                 forall c, c ∉ col :: rest -> enc' !! c = enc !! c)) as Hgo.
  { intros enc1 w1 Hs Hl Hother.
    destruct (IH enc1 w1) as (o & w' & -> & Hs' & Hl' & Hc'); [ by rewrite Hs |].
    exists o, w'. repeat split; [ congruence | by etrans |].
    intros enc' Ho c Hc. apply not_elem_of_cons in Hc as [Hne Hrest].
    rewrite (Hc' enc' Ho) by done. by apply Hother. }
  destruct (encs !! col) as [le|]; [| by apply Hgo ].
  destruct (pd !! col) as [v|]; [| by apply Hgo ].
  destruct (le_transform le v) as [code|e].
  - apply Hgo; [ done | done |]. intros c Hne. by rewrite lookup_insert_ne.
  - destruct (is_ValueError e).
    + apply Hgo; [ done | by apply prefix_app_r |].
      intros c Hne. by rewrite lookup_insert_ne.
    + exists (Raise e), w. repeat split; done.
Qed.

(** A column whose label is outside the vocabulary gets the code 0 and a
    warning in the log; when the loop returns, the code is still there. *)
Lemma encode_cols_unseen (pd : pydict) (cols : list string) (enc : pydict) (w : World)
    (encs : Encoders) (col : string) (le : LabelEncoder) (v : value) :
  _label_encoders (service w) = Some encs ->
  NoDup cols -> col ∈ cols ->
  encs !! col = Some le -> pd !! col = Some v -> unseen le v ->
  forall enc' w',
    encode_cols pd enc cols w = (Return enc', w') ->
    enc' !! col = Some (VInt 0) /\
    (WARNING, UnseenLabel col v) ∈ log w'.
Proof.
  intros Henc Hnd Hin Hle Hv Hun.
  revert enc w Henc. induction cols as [|c rest IH]; intros enc w Henc enc' w'.
  { by apply elem_of_nil in Hin. }
  apply NoDup_cons in Hnd as [Hnotin Hnd'].
  cbn [encode_cols]. rewrite bind_run.
  destruct (decide (c = col)) as [->|Hne].
  - destruct (le_transform_unseen _ _ Hun) as (e & He & Hval).
    rewrite (encode_col_run _ _ _ _ _ Henc), Hle, Hv, He, Hval.
    match goal with |- context [ encode_cols pd ?e rest ?w1 ] =>
      destruct (encode_cols_run pd rest e w1 encs Henc)
        as (o & w2 & -> & _ & Hl & Hc) end.
    intros [= -> <-]. split.
    + rewrite (Hc enc' eq_refl) by done. apply lookup_insert_eq.
    + destruct Hl as [l' ->]. cbn [log].
      apply elem_of_app. left. apply elem_of_app. right. by left.
  - apply elem_of_cons in Hin as [Heq|Hrest]; [ congruence |].
    pose proof (ks_encode_col pd enc c w) as Hks.
    destruct (encode_col pd enc c w) as [[enc2|e] w2]; [| discriminate ].
    cbn [snd] in Hks. apply IH; [ done | done | congruence ].
Qed.

(** On str labels the loop returns. *)
Lemma encode_cols_labelled (pd : pydict) (cols : list string) (enc : pydict)
    (w : World) (encs : Encoders) :
  _label_encoders (service w) = Some encs ->
  Forall (fun c => forall v, pd !! c = Some v -> exists s, v = VStr s) cols ->
  exists enc' w', encode_cols pd enc cols w = (Return enc', w').
Proof.
  intros Henc Hstr. revert enc w Henc.
  induction Hstr as [|col rest Hcol _ IH]; intros enc w Henc.
  { by exists enc, w. }
  cbn [encode_cols]. rewrite bind_run, (encode_col_run _ _ _ _ _ Henc).
  destruct (encs !! col) as [le|]; [| by apply IH ].
  destruct (pd !! col) as [v|]; [| by apply IH ].
  destruct (Hcol v eq_refl) as [s ->].
  destruct (le_transform_cases le s) as [[code ->] | ->]; by apply IH.
Qed.

(* ===================================================================== *)
(** ** predict_risk                                                       *)
(* ===================================================================== *)

Lemma so_scale (X : list value) : service_only (scale X).
Proof. unfold scale. apply so_bind; frames. Qed.

Lemma ks_scale (X : list value) : keeps_service (scale X).
Proof. unfold scale. apply ks_bind; frames. Qed.

Lemma so_classify (X : list float) : service_only (classify X).
Proof. unfold classify. apply so_bind; frames. Qed.

Lemma ks_classify (X : list float) : keeps_service (classify X).
Proof. unfold classify. apply ks_bind; frames. Qed.

#[local] Hint Resolve so_scale ks_scale so_classify ks_classify : frames.

Section ServiceFacts.
Context {rt : PyRuntime}.

Lemma so_predict_rest (enc : pydict) : service_only (predict_rest enc).
Proof. unfold predict_rest. frames. Qed.

Lemma ks_predict_rest (enc : pydict) : keeps_service (predict_rest enc).
Proof. unfold predict_rest. frames. Qed.

Lemma predict_body_split (pd : pydict) :
  predict_body pd = encode_cols pd pd categorical_cols ≫= predict_rest.
Proof. reflexivity. Qed.

Lemma so_predict_body (pd : pydict) : service_only (predict_body pd).
Proof.
  rewrite predict_body_split. apply so_bind; [ frames |]. apply so_predict_rest.
Qed.

Lemma ks_predict_body (pd : pydict) : keeps_service (predict_body pd).
Proof.
  rewrite predict_body_split. apply ks_bind; [ frames |]. apply ks_predict_rest.
Qed.

(** What a returning run of the rest of the body has gone through. *)
Lemma predict_rest_Return (enc d : pydict) (w w' : World) :
  predict_rest enc w = (Return d, w') ->
  exists m sc X X_scaled p,
    _model (service w) = Some m /\ _scaler (service w) = Some sc /\
    traverse (py_getitem enc) feature_order = Return X /\
    scaler_transform sc X = Return X_scaled /\
    predict_proba m X_scaled = Return p /\
    d = success p.
Proof.
  unfold predict_rest, scale, classify. run.
  destruct (traverse _ _) as [X|]; [| discriminate ]. run.
  destruct (_scaler (service w)) as [sc|]; run; [| discriminate ].
  destruct (scaler_transform sc X) as [Xs|] eqn:Hs; run; [| discriminate ].
  destruct (_model (service w)) as [m|]; run; [| discriminate ].
  destruct (predict_proba m Xs) as [p|] eqn:Hp; run; [| discriminate ].
  intros [= <- <-]. by exists m, sc, X, Xs, p.
Qed.

(** The rest of the body on a row the scaler and the classifier accept. *)
Lemma predict_rest_success (enc : pydict) (w : World) (m : Model) (sc : Scaler)
    (X : list value) (X_scaled : list float) (p : float) :
  _model (service w) = Some m -> _scaler (service w) = Some sc ->
  traverse (py_getitem enc) feature_order = Return X ->
  scaler_transform sc X = Return X_scaled ->
  predict_proba m X_scaled = Return p ->
  (predict_rest enc w).1 = Return (success p).
Proof.
  intros Hm Hsc HX Hs Hp. unfold predict_rest, scale, classify. run.
  rewrite HX. run. rewrite Hsc. run. rewrite Hs. run. rewrite Hm. run.
  rewrite Hp. by run.
Qed.

(** The two ways [predict_risk] goes after recording the call. *)
Lemma predict_risk_run (env : Env) (pd : pydict) (w : World) :
  let w0 := {| service := service w; log := log w;
               calls := calls w ++ [CallPredictRisk pd] |} in
  exists b w1, load_model env w0 = (Return b, w1) /\
    predict_risk env pd w =
      if b then
        match predict_body pd w1 with
        | (Return d, w2) => (Return d, w2)
        | (Raise e, w2) =>
            (Return (failure (exn_msg e)),
             {| service := service w2;
                log := log w2 ++ [(ERROR, PredictionError e)];
                calls := calls w2 |})
        end
      else (Return (failure "Model not loaded"), w1).
Proof.
  intros w0. destruct (load_model_returns env w0) as (b & w1 & Hload).
  exists b, w1. split; [ done |].
  unfold predict_risk. run. fold w0. rewrite Hload.
  destruct b; cbn [negb]; run; [| done ].
  destruct (load_model_true _ _ _ Hload) as [m ->]. run.
  by destruct (predict_body pd w1) as [[d|e] w2].
Qed.
End ServiceFacts.

Lemma failure_success (error : string) : failure error !! "success" = Some (VBool false).
Proof. unfold failure, dict_of. simpl. apply lookup_insert_eq. Qed.

Section ServiceTheorems.
Context {rt : PyRuntime}.

Lemma success_lookup (p : float) :
  success p !! "success" = Some (VBool true) /\
  success p !! "risk_probability" = Some (VFloat (round2 (p * 100)%float)) /\
  success p !! "risk_category" = Some (VStr (categorize p).1) /\
  success p !! "risk_color" = Some (VStr (categorize p).2).
Proof.
  unfold success, dict_of. destruct (categorize p) as [c col]. simpl.
  repeat split; by simplify_map_eq.
Qed.

(** A run of the body that returns has asked the classifier in memory. *)
Lemma predict_body_Return (pd d : pydict) (w w' : World) :
  predict_body pd w = (Return d, w') ->
  exists m X_scaled p,
    _model (service w') = Some m /\ predict_proba m X_scaled = Return p /\
    d = success p.
Proof.
  rewrite predict_body_split, bind_run.
  pose proof (ks_encode_cols pd categorical_cols pd w) as Hks.
  destruct (encode_cols pd pd categorical_cols w) as [[enc|e] w1];
    [| discriminate ].
  cbn [snd] in Hks. intros Hrest.
  pose proof (ks_predict_rest enc w1) as Hks'. rewrite Hrest in Hks'.
  apply predict_rest_Return in Hrest as (m & sc & X & Xs & p & Hm & _ & _ & _ & Hp & ->).
  exists m, Xs, p. cbn [snd] in Hks'. by rewrite Hks'.
Qed.

(** C9. The result of predict_risk is exactly
    {success: True, risk_probability, risk_category, risk_color}, where
    risk_probability is the classifier's probability times 100 rounded to
    two decimals and category and colour are its bucket, or exactly
    {success: False, error: message}. *)
Theorem predict_risk_response (env : Env) (patient_data : pydict) (w : World) :
  exists d w', predict_risk env patient_data w = (Return d, w') /\
    ((exists m X_scaled p risk_category risk_color,
        _model (service w') = Some m /\
        predict_proba m X_scaled = Return p /\
        categorize p = (risk_category, risk_color) /\
        d = dict_of [ ("success", VBool true);
                      ("risk_probability", VFloat (round2 (p * 100)%float));
                      ("risk_category", VStr risk_category);
                      ("risk_color", VStr risk_color) ]) \/
     (exists error,
        d = dict_of [ ("success", VBool false); ("error", VStr error) ])).
Proof.
  destruct (predict_risk_run env patient_data w) as (b & w1 & _ & ->).
  destruct b; [| eexists _, _; split; [ done | right; by eexists ] ].
  destruct (predict_body patient_data w1) as [[d|e] w2] eqn:Hbody;
    [| eexists _, _; split; [ done | right; by eexists ] ].
  exists d, w2. split; [ done |]. left.
  apply predict_body_Return in Hbody as (m & Xs & p & Hm & Hp & ->).
  exists m, Xs, p, (categorize p).1, (categorize p).2.
  repeat split; [ done | done | by destruct (categorize p) |].
  unfold success. by destruct (categorize p).
Qed.

(** C7. predict_risk returns a result dictionary for every input, in
    every world: no exception leaves it, and an exception raised inside the
    body of its try block comes back as {success: False, error: str(e)}. *)
Theorem predict_risk_never_raises (env : Env) (patient_data : pydict) (w : World) :
  exists d w', predict_risk env patient_data w = (Return d, w') /\
    (exists b, d !! "success" = Some (VBool b)) /\
    (forall w0 w1 e w2,
       record (CallPredictRisk patient_data) w = (Return tt, w0) ->
       load_model env w0 = (Return true, w1) ->
       predict_body patient_data w1 = (Raise e, w2) ->
       d = failure (exn_msg e)).
Proof.
  destruct (predict_risk_run env patient_data w) as (b & w1 & Hload & Hrun).
  destruct b.
  - destruct (predict_body patient_data w1) as [[d|e] w2] eqn:Hbody.
    + exists d, w2. split; [ done |]. split.
      * apply predict_body_Return in Hbody as (m & Xs & p & _ & _ & ->).
        exists true. apply success_lookup.
      * intros w0 w1' e w2' [= <-] Hload'. rewrite Hload in Hload'.
        injection Hload' as <-. by rewrite Hbody.
    + eexists _, _. split; [ done |]. split.
      * exists false. apply failure_success.
      * intros w0 w1' e' w2' [= <-] Hload'. rewrite Hload in Hload'.
        injection Hload' as <-. rewrite Hbody. by intros [= <- _].
  - eexists _, _. split; [ done |]. split.
    + exists false. apply failure_success.
    + intros w0 w1' e w2' [= <-] Hload'. rewrite Hload in Hload'. discriminate.
Qed.

(** C5. When a prediction succeeds with a classifier that keeps its
    contract (the probabilities it returns lie in [0, 1]), the probability
    behind the result is one the classifier returned, unchanged, and lies in
    [0, 1]; the result reports it as a percentage, round(p * 100, 2), and its
    category is the bucket of that probability, one of Low Risk, Medium Risk
    and High Risk. *)
Theorem predict_risk_reports_percentage (env : Env) (patient_data d : pydict)
    (w w' : World) (m : Model) :
  predict_risk env patient_data w = (Return d, w') ->
  d !! "success" = Some (VBool true) ->
  _model (service w') = Some m ->
  probabilistic m ->
  exists X_scaled p risk_category,
    predict_proba m X_scaled = Return p /\
    (0 <=? p)%float && (p <=? 1)%float = true /\
    d !! "risk_probability" = Some (VFloat (round2 (p * 100)%float)) /\
    d !! "risk_category" = Some (VStr risk_category) /\
    risk_category = (categorize p).1 /\
    risk_category ∈ ["Low Risk"; "Medium Risk"; "High Risk"].
Proof.
  intros Hrun Hok Hmodel Hcontract.
  destruct (predict_risk_run env patient_data w) as (b & w1 & _ & Hrun').
  rewrite Hrun in Hrun'.
  destruct b; [| injection Hrun' as -> _; by rewrite failure_success in Hok ].
  destruct (predict_body patient_data w1) as [[d'|e] w2] eqn:Hbody;
    [| injection Hrun' as -> _; by rewrite failure_success in Hok ].
  injection Hrun' as -> ->.
  apply predict_body_Return in Hbody as (m' & Xs & p & Hm & Hp & ->).
  rewrite Hmodel in Hm. injection Hm as <-.
  destruct (success_lookup p) as (_ & Hprob & Hcat & _).
  exists Xs, p, (categorize p).1. split; [ done |].
  split; [ by apply (Hcontract Xs) |]. repeat split; try done.
  destruct (categorize_cases p) as [-> | [-> | ->]]; cbn [fst];
    repeat first [ by apply elem_of_cons; left | apply elem_of_cons; right ].
Qed.

(** With a classifier in memory, predict_risk is its try block, which
    reads the service and leaves it alone. *)
Lemma predict_risk_loaded (env : Env) (pd : pydict) (w w1 : World) (m : Model) :
  _model (service w) = Some m -> service w = service w1 ->
  (predict_risk env pd w).1 = answer (predict_body pd w1).1 /\
  service (predict_risk env pd w).2 = service w.
Proof.
  intros Hm Hs.
  destruct (predict_risk_run env pd w) as (b & w0 & Hl & ->).
  rewrite (load_model_loaded _ _ m) in Hl by done. injection Hl as <- <-.
  match goal with |- context [ predict_body pd ?w0 ] =>
    destruct (so_predict_body pd w0 w1) as [Hfst _]; [ done |];
    pose proof (ks_predict_body pd w0) as Hks;
    destruct (predict_body pd w0) as [[d|e] w2] end;
    cbn [fst snd service] in *; rewrite <- Hfst; by split.
Qed.

(** The result of predict_risk and the service it leaves are functions of
    the input, the disk and the attributes of the service. *)
Lemma so_predict_risk (env : Env) (pd : pydict) : service_only (predict_risk env pd).
Proof.
  unfold predict_risk. apply so_bind; [ frames |]. intros _.
  apply so_bind; [ apply so_load_model |]. intros loaded.
  destruct (negb loaded); [ frames |].
  apply so_bind; [ frames |]. intros s.
  destruct (_model s); [| frames ].
  apply so_try; [ apply so_predict_body | frames ].
Qed.

(** C8. The result of predict_risk is a function of patient_data and the
    artifacts in the service: two runs that start from the same attributes
    give the same result dictionary, whatever was logged or called before.
    Run twice in a row on the same patient_data, with the artifacts in memory
    or loaded at this first use, predict_risk gives the same dictionary both
    times, and the second run serves from the same artifacts. *)
Theorem predict_risk_repeatable (env : Env) (patient_data : pydict) (w : World) :
  (forall w0, service w0 = service w ->
     (predict_risk env patient_data w0).1 = (predict_risk env patient_data w).1) /\
  ((load_model env w).1 = Return true ->
   let run1 := predict_risk env patient_data w in
   let run2 := predict_risk env patient_data run1.2 in
   run1.1 = run2.1 /\ service run2.2 = service run1.2).
Proof.
  split; [ intros w0 Hs; by apply so_predict_risk |].
  intros Hload. cbv zeta.
  destruct (predict_risk_run env patient_data w) as (b & w1 & Hl1 & Hrun1).
  assert (b = true) as ->.
  { match type of Hl1 with load_model env ?w0 = _ =>
      destruct (so_load_model env w0 w eq_refl) as [Hb _] end.
    rewrite Hl1, Hload in Hb. by injection Hb. }
  destruct (load_model_true _ _ _ Hl1) as [m Hm].
  pose proof (ks_predict_body patient_data w1) as Hks.
  destruct (predict_risk env patient_data w) as [r1 wA].
  assert (r1 = answer (predict_body patient_data w1).1 /\ service wA = service w1)
    as [-> Hs].
  { destruct (predict_body patient_data w1) as [[d|e] w2];
      injection Hrun1 as -> ->; by split. }
  cbn [fst snd].
  destruct (predict_risk_loaded env patient_data wA w1 m) as [-> ->];
    [ by rewrite Hs | done | done ].
Qed.
End ServiceTheorems.

Section MoreServiceTheorems.
Context {rt : PyRuntime}.

(** Without a classifier file no call ever puts a classifier in memory. *)
Lemma reachable_without_classifier (env : Env) (w : World) :
  (forall path, model_at env path = None) ->
  reachable env w -> _model (service w) = None.
Proof.
  intros Habs. induction 1 as [|w Hw IH|pd w Hw IH|w w' Hw IH Hs].
  - reflexivity.
  - by apply load_model_without_classifier.
  - destruct (predict_risk_run env pd w) as (b & w1 & Hl & ->).
    match type of Hl with load_model env ?w0 = _ =>
      destruct (load_model_without_classifier env w0 Habs IH) as [Hb Hm] end.
    rewrite Hl in Hb, Hm. injection Hb as ->. exact Hm.
  - by rewrite Hs.
Qed.

(** When no classifier file is there, whatever else is on disk, load_model
    returns False and predict_risk returns
    {success: False, error: 'Model not loaded'}, at the first call and at
    every later one; nothing is raised. *)
Lemma absent_classifier_reported (env : Env) (patient_data : pydict) (w : World) :
  (forall path, model_at env path = None) -> reachable env w ->
  (load_model env w).1 = Return false /\
  (predict_risk env patient_data w).1 =
    Return (dict_of [ ("success", VBool false); ("error", VStr "Model not loaded") ]).
Proof.
  intros Hm Hreach.
  pose proof (reachable_without_classifier env w Hm Hreach) as Hnone.
  split; [ by apply load_model_without_classifier |].
  destruct (predict_risk_run env patient_data w) as (b & w1 & Hl & ->).
  match type of Hl with load_model env ?w0 = _ =>
    destruct (load_model_without_classifier env w0 Hm Hnone) as [Hb _] end.
  rewrite Hl in Hb. by injection Hb as ->.
Qed.

(** So it is when none of the three artifact files is there. *)
Lemma absent_artifacts_reported (env : Env) (patient_data : pydict) (w : World) :
  artifacts_absent env -> reachable env w ->
  (load_model env w).1 = Return false /\
  (predict_risk env patient_data w).1 =
    Return (dict_of [ ("success", VBool false); ("error", VStr "Model not loaded") ]).
Proof.
  intros Habs. apply absent_classifier_reported. intros p. apply Habs.
Qed.

(** A str outside the vocabulary of its encoder does not stop the
    encoding: with str labels in the categorical fields the loop returns, the
    column holds the default code 0, the occurrence is in the log as a
    warning, and the prediction goes on from the row so encoded. *)
Lemma unseen_label_is_encoded_as_zero (env : Env) (patient_data : pydict)
    (w : World) (m : Model) (sc : Scaler) (encoders : Encoders)
    (col : string) (le : LabelEncoder) (v : value) :
  _model (service w) = Some m ->
  _scaler (service w) = Some sc ->
  _label_encoders (service w) = Some encoders ->
  labelled patient_data ->
  col ∈ categorical_cols ->
  encoders !! col = Some le ->
  patient_data !! col = Some v ->
  unseen le v ->
  exists encoded_data w',
    encode_cols patient_data patient_data categorical_cols w
      = (Return encoded_data, w') /\
    encoded_data !! col = Some (VInt 0) /\
    (WARNING, UnseenLabel col v) ∈ log w' /\
    (forall X X_scaled p,
       traverse (py_getitem encoded_data) feature_order = Return X ->
       scaler_transform sc X = Return X_scaled ->
       predict_proba m X_scaled = Return p ->
       (predict_risk env patient_data w).1 = Return (success p)).
Proof.
  intros Hm Hsc Henc Hstr Hcol Hle Hv Hun.
  destruct (encode_cols_labelled patient_data categorical_cols patient_data w
              encoders Henc Hstr) as (enc & w' & Hrun).
  destruct (encode_cols_unseen patient_data categorical_cols patient_data w
              encoders col le v Henc) with (enc' := enc) (w' := w')
    as (Hzero & Hlog); try done.
  { apply (bool_decide_unpack _). vm_compute. exact I. }
  exists enc, w'. repeat split; try done.
  intros X Xs p HX Hscale Hp.
  destruct (predict_risk_loaded env patient_data w w m) as [-> _]; [ done | done |].
  rewrite predict_body_split, bind_run, Hrun.
  pose proof (ks_encode_cols patient_data categorical_cols patient_data w) as Hks.
  rewrite Hrun in Hks. cbn [snd] in Hks.
  rewrite (surjective_pairing (predict_rest enc w')). cbn [fst].
  rewrite (predict_rest_success enc w' m sc X Xs p); try done; by rewrite Hks.
Qed.
End MoreServiceTheorems.

(* ===================================================================== *)
(** ** The /predict route                                                 *)
(* ===================================================================== *)

Section RouteFacts.
Context {rt : PyRuntime}.

(** Whenever validation does not pass (it rejects the body, or the
    conversion of a field raises), the route answers with a failure and
    status 400 or 500; predict_risk, the scaler and the classifier are not
    called, and the service is left as it was. *)
Lemma predict_rejects_before_prediction (env : Env) (data : pydict) (w : World) :
  validate_prediction_input data <> Return (true, None) ->
  exists error status w',
    predict env data w = (Return (failure error, status), w') /\
    (status = 400 \/ status = 500) /\
    calls w' = calls w /\ service w' = service w.
Proof.
  intros Hbad. unfold predict, predict_try. rewrite try_except_run.
  case_bool_decide.
  { run. eexists _, _, _. split; [ done |]. split; [ by left | done ]. }
  rewrite bind_run.
  destruct (validate_prediction_input_cases data)
    as [Hok | [[msg Hmsg] | (e & He & Hv & Ht)]]; [ done | |].
  - rewrite Hmsg. run. cbn [negb].
    exists msg, 400. eexists. split; [ done |]. split; [ by left | done ].
  - rewrite He. run. rewrite Hv. run.
    exists (exn_msg e), 500. eexists. split; [ done |]. split; [ by right | done ].
Qed.

(** A required field that is absent, None or empty, or a numeric field
    whose conversion is the first to fail and fails with a ValueError or a
    TypeError, gives (False, message) and the answer 400 (with that
    message, or with 'No data provided' for an empty body), before any call
    of predict_risk. *)
Lemma predict_rejects_invalid_input (env : Env) (data : pydict) (w : World) :
  (exists f, f ∈ prediction_required_fields /\ missing_or_empty data f = true) \/
  (exists e, convert_numeric data numeric_fields = Raise e /\
             is_ValueError e || is_TypeError e = true) ->
  exists msg error w',
    validate_prediction_input data = Return (false, Some msg) /\
    predict env data w = (Return (failure error, 400), w') /\
    (data <> ∅ -> error = msg) /\
    calls w' = calls w /\ service w' = service w.
Proof.
  intros Hbad.
  assert (exists msg, validate_prediction_input data = Return (false, Some msg))
    as [msg Hmsg].
  { destruct Hbad as [(f & Hin & Hmiss) | (e & He & Hkind)].
    - destruct (validate_prediction_input_missing data f Hin Hmiss) as (g & _ & ->).
      by eexists.
    - unfold validate_prediction_input.
      destruct (first_failing _ _); [ by eexists |].
      rewrite He, Hkind. by eexists. }
  exists msg. unfold predict, predict_try. rewrite try_except_run.
  case_bool_decide.
  { run. eexists _, _. by repeat split. }
  rewrite bind_run, Hmsg. run. cbn [negb].
  exists msg. eexists. by repeat split.
Qed.
End RouteFacts.

(* ===================================================================== *)
(** ** The theorems at concrete inputs                                    *)
(* ===================================================================== *)

Lemma categorize_thresholds_witness :
  categorize 0.1 = ("Low Risk", "green") /\
  categorize 0.5 = ("Medium Risk", "orange") /\
  categorize 0.9 = ("High Risk", "red").
Proof.
  split; [| split ].
  - exact (proj1 (categorize_thresholds 0.1) eq_refl).
  - exact (proj1 (proj2 (categorize_thresholds 0.5)) eq_refl eq_refl).
  - exact (proj1 (proj2 (proj2 (categorize_thresholds 0.9))) eq_refl).
Defined.

Ltac holds_for_each :=
  repeat constructor;
  repeat eexists; first [ vm_compute; reflexivity | discriminate ].

Lemma validate_prediction_input_has_no_ranges_witness :
  validate_prediction_input (rt := decimal_runtime) negative_age_input
    = Return (true, None) /\
  validate_patient_data (rt := decimal_runtime) negative_age_input
    = Return (false, Some "Age must be between 0 and 120.") /\
  validate_prediction_input (rt := decimal_runtime) high_glucose_input
    = Return (true, None) /\
  validate_patient_data (rt := decimal_runtime) high_glucose_input
    = Return (false, Some "Glucose level must be between 0 and 500.").
Proof.
  assert (Forall (present_nonempty negative_age_input) prediction_required_fields)
    as Hreq1 by holds_for_each.
  assert (Forall (parses_as_float (rt := decimal_runtime) negative_age_input)
            numeric_fields) as Hnum1 by holds_for_each.
  assert (Forall (present negative_age_input) patient_required_fields)
    as Hpat1 by holds_for_each.
  assert (Forall (present_nonempty high_glucose_input) prediction_required_fields)
    as Hreq2 by holds_for_each.
  assert (Forall (parses_as_float (rt := decimal_runtime) high_glucose_input)
            numeric_fields) as Hnum2 by holds_for_each.
  assert (Forall (present high_glucose_input) patient_required_fields)
    as Hpat2 by holds_for_each.
  destruct (validate_prediction_input_has_no_ranges (rt := decimal_runtime)
              negative_age_input Hreq1 Hnum1) as [Hok1 Hrange1].
  destruct (validate_prediction_input_has_no_ranges (rt := decimal_runtime)
              high_glucose_input Hreq2 Hnum2) as [Hok2 Hrange2].
  split; [ exact Hok1 |]. split.
  - apply (Hrange1 Hpat1 (VInt (-5)) (-5)%float); vm_compute; reflexivity.
  - split; [ exact Hok2 |].
    assert (high_glucose_input !! "age" = Some (VInt 45)) as Hage
      by (vm_compute; reflexivity).
    assert (py_float (rt := decimal_runtime) (VInt 45) = Return 45%float) as Hfl
      by (vm_compute; reflexivity).
    apply (proj2 (Hrange2 Hpat2 (VInt 45) 45%float Hage Hfl) eq_refl
             (VStr "600") 600%float); vm_compute; reflexivity.
Defined.

(** C3, at the input on which the code departs from it: bmi is not a
    number, yet validate_prediction_input raises the OverflowError of the
    oversized age instead of returning (False, message); the route answers
    500 with that error and calls neither predict_risk nor an artifact. *)
Theorem oversized_age_escapes_validation :
  oversized_age_input !! "bmi" = Some (VStr "abc") /\
  py_float (rt := decimal_runtime) (VStr "abc")
    = Raise (Exn ValueError "could not convert string to float: 'abc'") /\
  validate_prediction_input (rt := decimal_runtime) oversized_age_input
    = Raise (Exn OverflowError "int too large to convert to float") /\
  predict (rt := decimal_runtime) (deployed (constant_model 0.5))
      oversized_age_input fresh
    = (Return (failure "int too large to convert to float", 500),
       {| service := service fresh;
          log := [(ERROR,
                   PredictionError
                     (Exn OverflowError "int too large to convert to float"))];
          calls := [] |}).
Proof. repeat split; vm_compute; reflexivity. Qed.

Lemma unseen_label_is_encoded_as_zero_witness :
  exists encoded_data w',
    encode_cols unseen_gender_input unseen_gender_input categorical_cols
        (serving (constant_model 0.5))
      = (Return encoded_data, w') /\
    encoded_data !! "gender" = Some (VInt 0) /\
    (WARNING, UnseenLabel "gender" (VStr "Nonbinary")) ∈ log w' /\
    (forall X X_scaled p,
       traverse (py_getitem encoded_data) feature_order = Return X ->
       scaler_transform unit_scaler X = Return X_scaled ->
       predict_proba (constant_model 0.5) X_scaled = Return p ->
       (predict_risk (rt := decimal_runtime) (deployed (constant_model 0.5))
          unseen_gender_input (serving (constant_model 0.5))).1
         = Return (success (rt := decimal_runtime) p)).
Proof.
  apply (unseen_label_is_encoded_as_zero (rt := decimal_runtime)
           (deployed (constant_model 0.5)) unseen_gender_input
           (serving (constant_model 0.5)) (constant_model 0.5) unit_scaler
           stroke_encoders "gender"
           {| classes_ := ["Female"; "Male"; "Other"] |} (VStr "Nonbinary"));
    try reflexivity.
  - repeat constructor; intros v; vm_compute; intros [= <-]; by eexists.
  - apply (bool_decide_unpack _). vm_compute. exact I.
  - exists "Nonbinary". split; [ done |].
    apply (bool_decide_unpack _). vm_compute. exact I.
Defined.

(** C4, at an input on which the code departs from it: the gender of the
    body is a JSON object. The validator lets it through; transform raises
    TypeError, which the handler of the loop (except ValueError) does not
    catch; predict_risk answers with a failure, no default code is assigned
    and neither the scaler nor the classifier is called; the route serves that
    failure. *)
Theorem unhashable_category_stops_prediction :
  validate_prediction_input (rt := decimal_runtime) unhashable_gender_input
    = Return (true, None) /\
  stroke_encoders !! "gender" = Some {| classes_ := ["Female"; "Male"; "Other"] |} /\
  le_transform {| classes_ := ["Female"; "Male"; "Other"] |} (VDict [("code", VInt 1)])
    = Raise (Exn TypeError "unhashable type: 'dict'") /\
  predict_risk (rt := decimal_runtime) (deployed (constant_model 0.5))
      unhashable_gender_input (serving (constant_model 0.5))
    = (Return (failure "unhashable type: 'dict'"),
       {| service := service (serving (constant_model 0.5));
          log := [(ERROR, PredictionError (Exn TypeError "unhashable type: 'dict'"))];
          calls := [CallPredictRisk unhashable_gender_input] |}) /\
  (predict (rt := decimal_runtime) (deployed (constant_model 0.5))
     unhashable_gender_input (serving (constant_model 0.5))).1
    = Return (failure "unhashable type: 'dict'", 200).
Proof. repeat split; vm_compute; reflexivity. Qed.

(** The unseen gender is served: the answer is the bucket of the
    classifier's probability, computed from the row with code 0. *)
Example unseen_gender_is_served :
  (predict_risk (rt := decimal_runtime) (deployed (constant_model 0.5))
     unseen_gender_input (serving (constant_model 0.5))).1
  = Return (dict_of [ ("success", VBool true); ("risk_probability", VFloat 50);
                      ("risk_category", VStr "Medium Risk");
                      ("risk_color", VStr "orange") ]).
Proof. vm_compute. reflexivity. Qed.

Lemma predict_risk_reports_percentage_witness :
  exists X_scaled p risk_category,
    predict_proba (constant_model 0.5) X_scaled = Return p /\
    (0 <=? p)%float && (p <=? 1)%float = true /\
    dict_of [ ("success", VBool true); ("risk_probability", VFloat 50);
              ("risk_category", VStr "Medium Risk");
              ("risk_color", VStr "orange") ] !! "risk_probability"
      = Some (VFloat (round_by_scaling (p * 100)%float)) /\
    dict_of [ ("success", VBool true); ("risk_probability", VFloat 50);
              ("risk_category", VStr "Medium Risk");
              ("risk_color", VStr "orange") ] !! "risk_category"
      = Some (VStr risk_category) /\
    risk_category = (categorize p).1 /\
    risk_category ∈ ["Low Risk"; "Medium Risk"; "High Risk"].
Proof.
  apply (predict_risk_reports_percentage (rt := decimal_runtime)
           (deployed (constant_model 0.5)) example_input _ fresh
           (predict_risk (rt := decimal_runtime) (deployed (constant_model 0.5))
              example_input fresh).2
           (constant_model 0.5)).
  - vm_compute. reflexivity.
  - vm_compute. reflexivity.
  - vm_compute. reflexivity.
  - intros X_scaled p [= <-]. reflexivity.
Defined.

(** The bound of C5 is the classifier's: the service passes on what the
    classifier returns, and a classifier that returned 1.5 would be reported
    as 150 per cent, High Risk. *)
Remark probability_is_not_clipped :
  (predict_risk (rt := decimal_runtime) (deployed (constant_model 1.5))
     example_input fresh).1
  = Return (dict_of [ ("success", VBool true); ("risk_probability", VFloat 150);
                      ("risk_category", VStr "High Risk");
                      ("risk_color", VStr "red") ]).
Proof. vm_compute. reflexivity. Qed.

Lemma absent_artifacts_reported_witness :
  (load_model bare fresh).1 = Return false /\
  (predict_risk (rt := decimal_runtime) bare example_input fresh).1 =
    Return (dict_of [ ("success", VBool false); ("error", VStr "Model not loaded") ]).
Proof.
  apply (absent_artifacts_reported (rt := decimal_runtime) bare example_input fresh).
  - intros path. repeat split.
  - apply reach_fresh.
Defined.

Lemma predict_risk_repeatable_witness :
  let run1 := predict_risk (rt := decimal_runtime) (deployed (constant_model 0.5))
                example_input fresh in
  let run2 := predict_risk (rt := decimal_runtime) (deployed (constant_model 0.5))
                example_input run1.2 in
  run1.1 = run2.1 /\ service run2.2 = service run1.2.
Proof.
  apply (proj2 (predict_risk_repeatable (rt := decimal_runtime)
                  (deployed (constant_model 0.5)) example_input fresh)).
  vm_compute. reflexivity.
Defined.

(** C6, in a case where the code departs from it: the classifier file and
    the encoders are there and the scaler file is absent. The first
    load_model stores the classifier, finds the scaler missing and returns
    False, and predict_risk answers 'Model not loaded'. From then on
    load_model returns True at its first test, the classifier being in memory,
    although the scaler is still missing, and predict_risk fails inside its
    try block with the text of an AttributeError instead of 'Model not
    loaded'. Nothing is raised. *)
Theorem missing_scaler_is_reported_as_loaded :
  let env := scaler_missing (constant_model 0.5) in
  let call1 := predict_risk (rt := decimal_runtime) env example_input fresh in
  let call2 := predict_risk (rt := decimal_runtime) env example_input call1.2 in
  (forall path, scaler_at env path = None) /\
  (load_model env fresh).1 = Return false /\
  call1.1 = Return (failure "Model not loaded") /\
  (load_model env call1.2).1 = Return true /\
  _scaler (service call1.2) = None /\
  call2.1 = Return (failure "'NoneType' object has no attribute 'transform'").
Proof. repeat split; vm_compute; reflexivity. Qed.

(** Where the condition of C8 stops: with the
    classifier on disk and the scaler and encoders missing, the first call
    reports 'Model not loaded' and leaves the classifier in memory, so that
    the second call finds load_model returning True and fails inside its try
    block instead. *)
Remark partial_load_is_not_repeatable :
  let env := classifier_only (constant_model 0.5) in
  let run1 := predict_risk (rt := decimal_runtime) env example_input fresh in
  let run2 := predict_risk (rt := decimal_runtime) env example_input run1.2 in
  run1.1 = Return (failure "Model not loaded") /\
  (load_model env run1.2).1 = Return true /\
  run2.1 = Return (failure "argument of type 'NoneType' is not iterable").
Proof. repeat split; vm_compute; reflexivity. Qed.

(* ===================================================================== *)
(** ** More on the validators                                             *)
(* ===================================================================== *)

Section MoreValidatorFacts.
Context {rt : PyRuntime}.

Lemma first_failing_None_inv (test : string -> bool) (fields : list string) :
  first_failing test fields = None -> Forall (fun f => test f = false) fields.
Proof.
  induction fields as [|f fs IH]; simpl; [ constructor |].
  destruct (test f) eqn:Hf; [ discriminate |]. intros H. constructor; auto.
Qed.

Lemma first_failing_app (test : string -> bool) (before after : list string) (f : string) :
  Forall (fun g => test g = false) before -> test f = true ->
  first_failing test (before ++ f :: after) = Some f.
Proof.
  induction 1 as [|g gs Hg _ IH]; simpl; intros Hf; [ by rewrite Hf |].
  rewrite Hg. by apply IH.
Qed.

Lemma convert_numeric_Return_inv (data : pydict) (fields : list string) (u : unit) :
  convert_numeric data fields = Return u -> Forall (parses_as_float data) fields.
Proof.
  induction fields as [|f fs IH]; simpl; [ constructor |].
  unfold py_getitem. destruct (data !! f) as [v|] eqn:Hv; [| discriminate ].
  destruct (py_float v) as [x|] eqn:Hx; [| discriminate ].
  intros H. constructor; [ by exists v, x | by apply IH ].
Qed.

(** X1. validate_prediction_input returns (True, None) exactly when the
    ten required fields are present, not None and not '', and age,
    avg_glucose_level and bmi convert to floats. *)
Theorem validate_prediction_input_accepts_iff (data : pydict) :
  validate_prediction_input data = Return (true, None) <->
  Forall (present_nonempty data) prediction_required_fields /\
  Forall (parses_as_float data) numeric_fields.
Proof.
  unfold validate_prediction_input. split.
  - destruct (first_failing _ _) eqn:Hmiss; [ discriminate |].
    apply first_failing_None_inv in Hmiss.
    destruct (convert_numeric _ _) as [[]|e] eqn:Hnum.
    + intros _. split; [| by eapply convert_numeric_Return_inv ].
      eapply Forall_impl; [ exact Hmiss |]. apply missing_not_present_nonempty.
    + by destruct (is_ValueError e || is_TypeError e).
  - intros [Hreq Hnum]. rewrite first_failing_None.
    + by rewrite (convert_numeric_Return _ _ Hnum).
    + eapply Forall_impl; [ exact Hreq |]. apply present_nonempty_not_missing.
Qed.

(** X2. The field named in 'Missing required field: ...' is the first of
    the ten, in their order, that is absent, None or empty; what the later
    fields hold, numeric or not, does not matter. *)
Theorem validate_prediction_input_names_first_missing (data : pydict)
    (before after : list string) (f : string) :
  prediction_required_fields = before ++ f :: after ->
  Forall (present_nonempty data) before ->
  missing_or_empty data f = true ->
  validate_prediction_input data =
    Return (false, Some ("Missing required field: " +:+ f)).
Proof.
  intros Hsplit Hbefore Hf. unfold validate_prediction_input.
  rewrite Hsplit, (first_failing_app _ before after f); [ done | | done ].
  eapply Forall_impl; [ exact Hbefore |]. apply present_nonempty_not_missing.
Qed.

Lemma float_of_Z_Raise (z : Z) (e : exn) :
  float_of_Z z = Raise e -> e = Exn OverflowError "int too large to convert to float".
Proof. unfold float_of_Z. by destruct (binary_normalize _ _ _ _ _); intros [=]. Qed.

(** Which conversions fail with something else than ValueError or TypeError. *)
Lemma py_float_Raise_other (v : value) (e : exn) :
  py_float v = Raise e -> is_ValueError e || is_TypeError e = false ->
  exists z, v = VInt z /\ float_of_Z z = Raise e.
Proof.
  destruct v as [|b|z|f|s|l|d]; simpl; intros H Hk;
    try discriminate; try (injection H as <-; discriminate).
  - by exists z.
  - destruct (parse_float s); [ discriminate |]. injection H as <-. discriminate.
Qed.

(** X3. On a dict, validate_prediction_input raises only in one way:
    one of age, avg_glucose_level and bmi is an int too large for a float, and
    the exception is the OverflowError of that conversion. *)
Theorem validate_prediction_input_raises_only_overflow (data : pydict) (e : exn) :
  validate_prediction_input data = Raise e ->
  e = Exn OverflowError "int too large to convert to float" /\
  exists f z, f ∈ numeric_fields /\ data !! f = Some (VInt z) /\
              float_of_Z z = Raise e.
Proof.
  unfold validate_prediction_input.
  destruct (first_failing _ _) eqn:Hmiss; [ discriminate |].
  apply first_failing_None_inv in Hmiss.
  destruct (convert_numeric _ _) as [[]|e'] eqn:Hnum; [ discriminate |].
  destruct (is_ValueError e' || is_TypeError e') eqn:Hkind; [ discriminate |].
  intros [= ->].
  assert (exists f v, f ∈ numeric_fields /\ data !! f = Some v /\ py_float v = Raise e)
    as (f & v & Hin & Hv & Hraise).
  { assert (Forall (fun f => is_Some (data !! f)) numeric_fields) as Hsome.
    { assert (Forall (fun f => f ∈ prediction_required_fields) numeric_fields) as Hsub
        by (repeat constructor; apply (bool_decide_unpack _); vm_compute; exact I).
      eapply Forall_impl; [ exact Hsub |]. intros f Hf.
      rewrite Forall_forall in Hmiss. specialize (Hmiss f Hf).
      unfold missing_or_empty in Hmiss. by destruct (data !! f). }
    clear Hmiss Hkind. revert Hnum Hsome. generalize numeric_fields.
    induction l as [|f fs IH]; simpl; [ discriminate |].
    intros Hnum Hsome. apply Forall_cons in Hsome as [[v Hv] Hsome].
    unfold py_getitem in Hnum. rewrite Hv in Hnum.
    destruct (py_float v) as [x|e'] eqn:Hx.
    - destruct (IH Hnum Hsome) as (g & u & Hg & Hu & He).
      exists g, u. split; [ by apply elem_of_cons; right | done ].
    - injection Hnum as ->. exists f, v. split; [ by apply elem_of_cons; left | done ]. }
  destruct (py_float_Raise_other v e Hraise Hkind) as (z & -> & Hz).
  split; [ by eapply float_of_Z_Raise | by exists f, z ].
Qed.
End MoreValidatorFacts.

(* ===================================================================== *)
(** ** validate_patient_data                                              *)
(* ===================================================================== *)

Lemma SFcompare_refl (x : spec_float) :
  x <> S754_nan -> SFcompare x x = Some Eq.
Proof.
  destruct x as [s|s| |s m e]; try done; intros _; try (by destruct s).
  unfold SFcompare. fold (Pos.compare m m).
  rewrite (Z.compare_refl e), (Pos.compare_refl m). by destruct s.
Qed.

Lemma is_nan_Prim2SF (x : float) : is_nan x = true -> Prim2SF x = S754_nan.
Proof.
  unfold is_nan. rewrite FloatAxioms.eqb_spec. unfold SFeqb. intros H.
  destruct (Prim2SF x) as [s|s| |s m e] eqn:Hx; [ | | done | ];
    by rewrite SFcompare_refl in H.
Qed.

(** A NaN is below nothing and above nothing. *)
Lemma nan_not_lt (x y : float) :
  is_nan x = true -> (x <? y)%float = false /\ (y <? x)%float = false.
Proof.
  intros H. rewrite !ltb_spec, (is_nan_Prim2SF x H). unfold SFltb.
  split; [ done |]. by destruct (Prim2SF y) as [| | |].
Qed.

Section PatientFacts.
Context {rt : PyRuntime}.

Lemma missing_or_none_present (data : pydict) (f : string) :
  missing_or_none data f = false <-> present data f.
Proof.
  unfold missing_or_none, present. split.
  - destruct (data !! f) as [v|]; [| discriminate ].
    intros H. exists v. split; [ done |]. by destruct v.
  - intros (v & -> & Hv). by destruct v.
Qed.

Lemma check_range_None (data : pydict) (f : string) (lo hi : float)
    (range_msg bad_msg : string) :
  check_range data f lo hi range_msg bad_msg = Return None <-> within data f lo hi.
Proof.
  unfold check_range, within, py_getitem. split.
  - destruct (data !! f) as [v|] eqn:Hv; [| discriminate ].
    destruct (py_float v) as [x|e] eqn:Hx.
    + destruct (x <? lo)%float eqn:Hlo; [ discriminate |].
      destruct (hi <? x)%float eqn:Hhi; [ discriminate |].
      intros _. by exists v, x.
    + by destruct (is_ValueError e || is_TypeError e).
  - intros (v & x & -> & -> & -> & ->). reflexivity.
Qed.

Lemma gender_valid (data : pydict) :
  gender_not_valid data = false <->
  exists g, data !! "gender" = Some (VStr g) /\ g ∈ valid_genders.
Proof.
  unfold gender_not_valid. split.
  - destruct (data !! "gender") as [[| | | |g| |]|]; try discriminate.
    intros H. exists g. split; [ done |].
    apply negb_false_iff, bool_decide_eq_true in H. exact H.
  - intros (g & -> & Hg). apply negb_false_iff, bool_decide_eq_true. exact Hg.
Qed.

Lemma binary_field (data : pydict) (f : string) :
  not_binary data f = false <-> exists v, data !! f = Some v /\ binary_value v.
Proof.
  unfold not_binary, binary_value. split.
  - destruct (data !! f) as [[| |z| |s| |]|]; try discriminate; intros H;
      apply negb_false_iff, bool_decide_eq_true in H; eexists; split; try done.
    + destruct H as [-> | ->]; auto.
    + apply elem_of_cons in H as [-> | H]; [ auto |].
      apply elem_of_cons in H as [-> | H]; [ auto |]. by apply elem_of_nil in H.
  - intros (v & -> & [-> | [-> | [-> | ->]]]); reflexivity.
Qed.

Lemma validate_patient_data_sound (data : pydict) :
  validate_patient_data data = Return (true, None) -> acceptable_patient data.
Proof.
  unfold validate_patient_data, acceptable_patient.
  destruct (first_failing _ patient_required_fields) eqn:Hreq; [ discriminate |].
  apply first_failing_None_inv in Hreq.
  destruct (check_range data "age" _ _ _ _) as [[r|]|e] eqn:Hage;
    [ by intros [= ->]; revert Hage; unfold check_range;
         repeat case_match | | discriminate ].
  destruct (check_range data "avg_glucose_level" _ _ _ _) as [[r|]|e] eqn:Hglu;
    [ by intros [= ->]; revert Hglu; unfold check_range;
         repeat case_match | | discriminate ].
  destruct (gender_not_valid data) eqn:Hgender; [ discriminate |].
  destruct (first_failing _ binary_fields) eqn:Hbin; [ discriminate |].
  apply first_failing_None_inv in Hbin. intros _.
  split; [| split; [| split; [| split ] ] ].
  - eapply Forall_impl; [ exact Hreq |]. intros f. apply missing_or_none_present.
  - by eapply check_range_None.
  - by eapply check_range_None.
  - by apply gender_valid.
  - eapply Forall_impl; [ exact Hbin |]. intros f. apply binary_field.
Qed.

Lemma validate_patient_data_complete (data : pydict) :
  acceptable_patient data -> validate_patient_data data = Return (true, None).
Proof.
  intros (Hreq & Hage & Hglu & Hgender & Hbin). unfold validate_patient_data.
  rewrite first_failing_None
    by (eapply Forall_impl; [ exact Hreq |]; intros f; apply missing_or_none_present).
  rewrite (proj2 (check_range_None data "age" _ _ _ _) Hage).
  rewrite (proj2 (check_range_None data "avg_glucose_level" _ _ _ _) Hglu).
  rewrite (proj2 (gender_valid data) Hgender).
  rewrite first_failing_None
    by (eapply Forall_impl; [ exact Hbin |]; intros f; apply binary_field).
  reflexivity.
Qed.

(** X4. validate_patient_data returns (True, None) exactly for the
    records whose ten required fields are present and not None, whose age and
    avg_glucose_level convert to floats not below 0 and not above 120 and 500,
    whose gender is 'Male', 'Female' or 'Other', and whose hypertension,
    heart_disease and stroke print as '0' or '1'. *)
Theorem validate_patient_data_accepts_iff (data : pydict) :
  validate_patient_data data = Return (true, None) <-> acceptable_patient data.
Proof.
  split; [ apply validate_patient_data_sound | apply validate_patient_data_complete ].
Qed.

Lemma within_insert_ne (data : pydict) (f g : string) (v : value) (lo hi : float) :
  f <> g -> within data f lo hi -> within (<[g := v]> data) f lo hi.
Proof.
  intros Hne (u & x & Hu & Hx). exists u, x. by rewrite lookup_insert_ne.
Qed.

Lemma present_insert (data : pydict) (f g : string) (v : value) :
  v <> VNone -> present data f -> present (<[g := v]> data) f.
Proof.
  intros Hv (u & Hu & Hnone). destruct (decide (g = f)) as [->|Hne].
  - exists v. by rewrite lookup_insert_eq.
  - exists u. by rewrite lookup_insert_ne.
Qed.

(** X5. The range checks let a NaN through: a record that is accepted
    stays accepted when its age, or its avg_glucose_level, is replaced by a
    NaN. *)
Theorem validate_patient_data_accepts_nan (data : pydict) (x : float) :
  validate_patient_data data = Return (true, None) ->
  is_nan x = true ->
  validate_patient_data (<["age" := VFloat x]> data) = Return (true, None) /\
  validate_patient_data (<["avg_glucose_level" := VFloat x]> data)
    = Return (true, None).
Proof.
  intros Hok Hnan. apply validate_patient_data_sound in Hok
    as (Hreq & Hage & Hglu & (g & Hg & Hvalid) & Hbin).
  assert (forall lo hi f, within (<[f := VFloat x]> data) f lo hi) as Hin.
  { intros lo hi f. exists (VFloat x), x. rewrite lookup_insert_eq.
    destruct (nan_not_lt x lo Hnan) as [-> _].
    destruct (nan_not_lt x hi Hnan) as [_ ->]. done. }
  split; apply validate_patient_data_complete.
  - split; [| split; [| split; [| split ] ] ].
    + eapply Forall_impl; [ exact Hreq |]. intros f. by apply present_insert.
    + apply Hin.
    + by apply within_insert_ne.
    + exists g. by rewrite lookup_insert_ne.
    + apply Forall_forall. intros f Hf. rewrite Forall_forall in Hbin.
      destruct (Hbin f Hf) as (v & Hv & Hb). exists v. split; [| done ].
      rewrite lookup_insert_ne; [ done |].
      intros <-. revert Hf. apply (bool_decide_unpack _). vm_compute. exact I.
  - split; [| split; [| split; [| split ] ] ].
    + eapply Forall_impl; [ exact Hreq |]. intros f. by apply present_insert.
    + by apply within_insert_ne.
    + apply Hin.
    + exists g. by rewrite lookup_insert_ne.
    + apply Forall_forall. intros f Hf. rewrite Forall_forall in Hbin.
      destruct (Hbin f Hf) as (v & Hv & Hb). exists v. split; [| done ].
      rewrite lookup_insert_ne; [ done |].
      intros <-. revert Hf. apply (bool_decide_unpack _). vm_compute. exact I.
Qed.

(** X6. validate_patient_data never looks at the value of ever_married,
    work_type, Residence_type or smoking_status, nor at bmi or any other key:
    a record that agrees with an accepted one on gender, age, hypertension,
    heart_disease, avg_glucose_level and stroke, and has the four other
    required fields with any value but None, is accepted too. *)
Theorem validate_patient_data_inspects_six_fields (data data' : pydict) :
  validate_patient_data data = Return (true, None) ->
  Forall (fun f => data' !! f = data !! f) inspected_patient_fields ->
  Forall (present data') uninspected_patient_fields ->
  validate_patient_data data' = Return (true, None).
Proof.
  intros Hok Hsame Hrest. apply validate_patient_data_sound in Hok
    as (Hreq & Hage & Hglu & (g & Hg & Hvalid) & Hbin).
  rewrite Forall_forall in Hsame.
  assert (forall f, f ∈ inspected_patient_fields -> present data f -> present data' f)
    as Hpres.
  { intros f Hf (v & Hv & Hn). exists v. by rewrite (Hsame f Hf). }
  assert (forall f lo hi, f ∈ inspected_patient_fields ->
            within data f lo hi -> within data' f lo hi) as Hwithin.
  { intros f lo hi Hf (v & x & Hv & Hx). exists v, x. by rewrite (Hsame f Hf). }
  apply validate_patient_data_complete.
  split; [| split; [| split; [| split ] ] ].
  - rewrite Forall_forall in Hreq, Hrest. apply Forall_forall. intros f Hf.
    destruct (decide (f ∈ inspected_patient_fields)) as [Hin|Hout].
    + apply Hpres; [ done | by apply Hreq ].
    + apply Hrest. revert Hf Hout. unfold patient_required_fields,
        inspected_patient_fields, uninspected_patient_fields.
      rewrite !elem_of_cons, !elem_of_nil. intuition (subst; auto 20).
  - apply Hwithin; [| done ]. apply (bool_decide_unpack _). vm_compute. exact I.
  - apply Hwithin; [| done ]. apply (bool_decide_unpack _). vm_compute. exact I.
  - exists g. rewrite Hsame; [ done |].
    apply (bool_decide_unpack _). vm_compute. exact I.
  - rewrite Forall_forall in Hbin. apply Forall_forall. intros f Hf.
    destruct (Hbin f Hf) as (v & Hv & Hb). exists v. split; [| done ].
    rewrite Hsame; [ done |]. revert Hf.
    unfold binary_fields, inspected_patient_fields.
    rewrite !elem_of_cons, !elem_of_nil. intuition (subst; auto 20).
Qed.

(** X7. A record accepted by validate_patient_data whose bmi converts to
    a float and none of whose ten prediction fields is the empty string is
    accepted by validate_prediction_input. *)
Theorem patient_record_is_prediction_input (data : pydict) :
  validate_patient_data data = Return (true, None) ->
  parses_as_float data "bmi" ->
  Forall (fun f => data !! f <> Some (VStr "")) prediction_required_fields ->
  validate_prediction_input data = Return (true, None).
Proof.
  intros Hok Hbmi Hfull. apply validate_patient_data_sound in Hok
    as (Hreq & Hage & Hglu & _).
  assert (present data "bmi") as Hpbmi.
  { destruct Hbmi as (v & x & Hv & Hx). exists v. split; [ done |].
    intros ->. discriminate. }
  unfold validate_prediction_input.
  rewrite first_failing_None.
  - rewrite convert_numeric_Return; [ done |].
    destruct Hage as (v & x & Hv & Hx & _), Hglu as (u & y & Hu & Hy & _).
    repeat constructor; [ by exists v, x | by exists u, y | done ].
  - rewrite Forall_forall in Hreq, Hfull. apply Forall_forall. intros f Hf.
    apply present_nonempty_not_missing.
    assert (present data f) as (v & Hv & Hn).
    { destruct (decide (f = "bmi")) as [->|Hne]; [ done |].
      apply Hreq. revert Hf Hne. unfold prediction_required_fields,
        patient_required_fields.
      rewrite !elem_of_cons, !elem_of_nil. intuition (subst; auto 20). }
    exists v. repeat split; try done. intros ->. by apply (Hfull f Hf).
Qed.
End PatientFacts.

(* ===================================================================== *)
(** ** More on load_model                                                 *)
(* ===================================================================== *)

Lemma load_first_cons {A} (read : string -> option (outcome A)) (store : A -> M unit)
    (loaded : string -> message) (path : string) (rest : list string) :
  load_first read store loaded (path :: rest) =
    match read path with
    | None => load_first read store loaded rest
    | Some (Raise e) => raise e
    | Some (Return a) => store a ≫= fun _ => logging INFO (loaded path)
    end.
Proof. reflexivity. Qed.

(** The loop stops at the first path that exists. *)
Lemma load_first_found {A} (read : string -> option (outcome A)) (store : A -> M unit)
    (loaded : string -> message) (before after : list string) (p : string) (a : A)
    (w : World) :
  Forall (fun b => read b = None) before -> read p = Some (Return a) ->
  load_first read store loaded (before ++ p :: after) w =
    (store a ≫= fun _ => logging INFO (loaded p)) w.
Proof.
  induction 1 as [|b bs Hb _ IH]; intros Hp; cbn [app]; rewrite load_first_cons.
  - by rewrite Hp.
  - rewrite Hb. by apply IH.
Qed.

Lemma load_first_broken {A} (read : string -> option (outcome A)) (store : A -> M unit)
    (loaded : string -> message) (before after : list string) (p : string) (e : exn)
    (w : World) :
  Forall (fun b => read b = None) before -> read p = Some (Raise e) ->
  load_first read store loaded (before ++ p :: after) w = (Raise e, w).
Proof.
  induction 1 as [|b bs Hb _ IH]; intros Hp; cbn [app]; rewrite load_first_cons.
  - by rewrite Hp.
  - rewrite Hb. by apply IH.
Qed.

Lemma load_first_none {A} (read : string -> option (outcome A)) (store : A -> M unit)
    (loaded : string -> message) (paths : list string) (w : World) :
  Forall (fun b => read b = None) paths ->
  load_first read store loaded paths w = (Return tt, w).
Proof.
  induction 1 as [|b bs Hb _ IH]; [ done |]. by rewrite load_first_cons, Hb.
Qed.

(** X8. The artifacts are read at most once: after a load that returned
    True, every later load_model returns True and changes nothing, whatever
    has become of the files and the configuration. *)
Theorem load_model_loads_once (env env' : Env) (w w' : World) :
  load_model env w = (Return true, w') ->
  load_model env' w' = (Return true, w').
Proof.
  intros Hload. destruct (load_model_true _ _ _ Hload) as [m Hm].
  by apply (load_model_loaded env' w' m).
Qed.

(** X9. The classifier comes from the first candidate path that exists:
    the configured MODEL_PATH, then stroke_model.pkl, then
    ml_models/stroke_model.pkl. It is in the service after the call whatever
    happens to the scaler and the encoders afterwards. *)
Theorem load_model_takes_first_existing (env : Env) (w : World)
    (cfg : gmap string string) (before after : list string) (p : string) (m : Model) :
  _model (service w) = None ->
  app_config env = Some cfg ->
  model_paths cfg = before ++ p :: after ->
  Forall (fun b => model_at env b = None) before ->
  model_at env p = Some (Return m) ->
  _model (service (load_model env w).2) = Some m.
Proof.
  intros Hnone Hcfg Hpaths Hbefore Hp. unfold load_model. run. rewrite Hnone. run.
  unfold current_app_config. rewrite Hcfg. run.
  rewrite Hpaths, (load_first_found _ _ _ _ _ _ _ _ Hbefore Hp).
  unfold set_model. run.
  match goal with |- context [ load_first (scaler_at env) ?st ?ld ?ps ?w1 ] =>
    pose proof (km_load_first (scaler_at env) st ld ps km_set_scaler w1) as H1;
    destruct (load_first (scaler_at env) st ld ps w1) as [[[]|?] w2] end;
    cbn [snd service _model] in H1; run; [| by rewrite H1 ].
  match goal with |- context [ load_first (encoders_at env) ?st ?ld ?ps ?w1 ] =>
    pose proof (km_load_first (encoders_at env) st ld ps km_set_label_encoders w1) as H2;
    destruct (load_first (encoders_at env) st ld ps w1) as [[[]|?] w3] end;
    cbn [snd] in H2; run; [| by rewrite H2, H1 ].
  destruct (_ && _ && _); run; by rewrite H2, H1.
Qed.

(** X10. A classifier file that cannot be opened or unpickled does not
    make load_model raise: it returns False, logs the error, and leaves the
    service as it was. *)
Theorem load_model_survives_broken_classifier (env : Env) (w : World)
    (cfg : gmap string string) (before after : list string) (p : string) (e : exn) :
  _model (service w) = None ->
  app_config env = Some cfg ->
  model_paths cfg = before ++ p :: after ->
  Forall (fun b => model_at env b = None) before ->
  model_at env p = Some (Raise e) ->
  load_model env w =
    (Return false,
     {| service := service w;
        log := log w ++ [(ERROR, ErrorLoadingModel e)];
        calls := calls w |}).
Proof.
  intros Hnone Hcfg Hpaths Hbefore Hp. unfold load_model. run. rewrite Hnone. run.
  unfold current_app_config. rewrite Hcfg. run.
  rewrite Hpaths, (load_first_broken _ _ _ _ _ _ _ _ Hbefore Hp). by run.
Qed.

(* ===================================================================== *)
(** ** More on the encoding loop and predict_risk                         *)
(* ===================================================================== *)

Lemma categorical_cols_NoDup : NoDup categorical_cols.
Proof. apply (bool_decide_unpack _). vm_compute. exact I. Qed.

Lemma traverse_ext {A B} (f g : A -> outcome B) (l : list A) :
  Forall (fun x => f x = g x) l -> traverse f l = traverse g l.
Proof. induction 1 as [|x xs Hx _ IH]; simpl; [ done |]. by rewrite Hx, IH. Qed.

Lemma traverse_length {A B} (f : A -> outcome B) (l : list A) (ys : list B) :
  traverse f l = Return ys -> length ys = length l.
Proof.
  revert ys. induction l as [|x xs IH]; simpl; intros ys.
  - by intros [= <-].
  - destruct (f x); [| discriminate ].
    destruct (traverse f xs) as [zs|]; [| discriminate ].
    intros [= <-]. simpl. by rewrite (IH zs).
Qed.

(** The list comprehension fails at the first key that is not there. *)
Lemma traverse_getitem_missing (d : pydict) (before after : list string) (c : string) :
  Forall (fun b => is_Some (d !! b)) before -> d !! c = None ->
  traverse (py_getitem d) (before ++ c :: after) = Raise (Exn KeyError (quote c)).
Proof.
  induction 1 as [|b bs [v Hb] _ IH]; intros Hc; simpl.
  - unfold py_getitem. by rewrite Hc.
  - unfold py_getitem at 1. rewrite Hb. by rewrite IH.
Qed.

Lemma traverse_Forall2 {A B} (f : A -> outcome B) (l : list A) (ys : list B) :
  traverse f l = Return ys <-> Forall2 (fun x y => f x = Return y) l ys.
Proof.
  revert ys. induction l as [|x xs IH]; intros ys; simpl.
  - split; [ intros [= <-]; constructor | by intros ->%Forall2_nil_inv_l ].
  - split.
    + destruct (f x) as [y|] eqn:Hx; [| discriminate ].
      destruct (traverse f xs) as [zs|]; [| discriminate ].
      intros [= <-]. constructor; [ done | by apply IH ].
    + intros (y & zs & Hy & Hzs & ->)%Forall2_cons_inv_l.
      apply IH in Hzs. by rewrite Hy, Hzs.
Qed.

Lemma traverse_Raise {A B} (f : A -> outcome B) (l : list A) (e : exn) :
  traverse f l = Raise e -> exists x, x ∈ l /\ f x = Raise e.
Proof.
  induction l as [|x xs IH]; simpl; [ discriminate |].
  destruct (f x) as [y|e'] eqn:Hx.
  - destruct (traverse f xs) as [zs|e'']; [ discriminate |].
    intros [= <-]. destruct IH as (x' & Hin & Hx'); [ done |].
    exists x'. split; [ by right | done ].
  - intros [= <-]. exists x. split; [ by left | done ].
Qed.

(** One round of the loop stores the code, or the default, in the column,
    or raises what transform raised. *)
Lemma encode_col_entry (pd enc : pydict) (col : string) (w : World) (encs : Encoders) :
  _label_encoders (service w) = Some encs ->
  exists o w',
    encode_col pd enc col w = (o, w') /\
    service w' = service w /\ calls w' = calls w /\
    match encode_entry encs pd col (enc !! col) with
    | Return entry =>
        exists enc', o = Return enc' /\ enc' !! col = entry /\
                     (forall c, c <> col -> enc' !! c = enc !! c)
    | Raise e => o = Raise e
    end.
Proof.
  intros Henc. rewrite (encode_col_run _ _ _ _ _ Henc). unfold encode_entry, code_or_zero.
  destruct (encs !! col) as [le|];
    [| eexists _, _; (split; [ done |]); repeat split; by eexists ].
  destruct (pd !! col) as [v|];
    [| eexists _, _; (split; [ done |]); repeat split; by eexists ].
  destruct (le_transform le v) as [code|e]; cbv beta iota delta [mbind outcome_bind].
  - eexists _, _. split; [ done |]. repeat split. eexists. split; [ done |].
    split; [ apply lookup_insert_eq |]. intros c Hc. by rewrite lookup_insert_ne.
  - destruct (is_ValueError e); eexists _, _; (split; [ done |]); repeat split.
    eexists. split; [ done |].
    split; [ apply lookup_insert_eq |]. intros c Hc. by rewrite lookup_insert_ne.
Qed.

(** The loop, entry by entry: it raises at the first column whose round
    raises, and otherwise leaves in each column the entry of its round. *)
Lemma encode_cols_entries (pd : pydict) (cols : list string) (enc : pydict)
    (w : World) (encs : Encoders) :
  NoDup cols ->
  _label_encoders (service w) = Some encs ->
  exists o w',
    encode_cols pd enc cols w = (o, w') /\
    service w' = service w /\ calls w' = calls w /\
    match traverse (fun c => encode_entry encs pd c (enc !! c)) cols with
    | Return _ =>
        exists enc', o = Return enc' /\
          forall c, Return (enc' !! c) =
            if bool_decide (c ∈ cols) then encode_entry encs pd c (enc !! c)
            else Return (enc !! c)
    | Raise e => o = Raise e
    end.
Proof.
  intros Hnd. revert enc w. induction Hnd as [|col rest Hnotin Hnd IH];
    intros enc w Henc.
  { exists (Return enc), w. repeat split. by exists enc. }
  cbn [encode_cols traverse]. rewrite bind_run.
  destruct (encode_col_entry pd enc col w encs Henc)
    as (o1 & w1 & -> & Hs1 & Hc1 & Hentry).
  destruct (encode_entry encs pd col (enc !! col)) as [entry|e] eqn:Hcol.
  - destruct Hentry as (enc1 & -> & Hcol1 & Hother).
    destruct (IH enc1 w1) as (o & w' & -> & Hs' & Hc' & Hentries);
      [ by rewrite Hs1 |].
    rewrite (traverse_ext (fun c => encode_entry encs pd c (enc1 !! c))
               (fun c => encode_entry encs pd c (enc !! c))) in Hentries.
    2:{ apply Forall_forall. intros c Hc. rewrite Hother; [ done |].
        intros ->. done. }
    exists o, w'. split; [ done |]. split; [ congruence |]. split; [ congruence |].
    destruct (traverse _ rest) as [entries|e]; [| done ].
    destruct Hentries as (enc' & -> & Hall). exists enc'. split; [ done |].
    intros c. rewrite Hall. destruct (decide (c = col)) as [->|Hne].
    + rewrite bool_decide_eq_false_2 by done.
      rewrite bool_decide_eq_true_2 by (apply elem_of_cons; by left).
      by rewrite Hcol1, Hcol.
    + rewrite Hother by done.
      destruct (decide (c ∈ rest)) as [Hin|Hout].
      * rewrite !bool_decide_eq_true_2; [ done | by apply elem_of_cons; right | done ].
      * rewrite !bool_decide_eq_false_2; [ done | | done ].
        intros [?|?]%elem_of_cons; done.
  - subst o1. exists (Raise e), w1. by repeat split.
Qed.

(** The loop of predict_risk with the encoders in memory. *)
Lemma encode_patient_data (pd : pydict) (w : World) (encs : Encoders) :
  _label_encoders (service w) = Some encs ->
  exists o w',
    encode_cols pd (py_copy pd) categorical_cols w = (o, w') /\
    service w' = service w /\ calls w' = calls w /\
    match traverse (encoded_entry encs pd) categorical_cols with
    | Return _ =>
        exists enc, o = Return enc /\
          forall c, encoded_entry encs pd c = Return (enc !! c)
    | Raise e => o = Raise e
    end.
Proof.
  intros Henc.
  destruct (encode_cols_entries pd categorical_cols (py_copy pd) w encs
              categorical_cols_NoDup Henc) as (o & w' & Hrun & Hs & Hc & Hent).
  exists o, w'. split; [ done |]. split; [ done |]. split; [ done |].
  rewrite (traverse_ext (encoded_entry encs pd)
             (fun c => encode_entry encs pd c (py_copy pd !! c))).
  2:{ apply Forall_forall. intros c Hc'. unfold encoded_entry, py_copy.
      by rewrite bool_decide_eq_true_2. }
  destruct (traverse _ _) as [entries|e]; [| done ].
  destruct Hent as (enc & -> & Hall). exists enc. split; [ done |].
  intros c. rewrite Hall. unfold encoded_entry, py_copy. by case_bool_decide.
Qed.

(** Without encoders the loop fails at its first column. *)
Lemma encode_without_encoders (pd enc : pydict) (w : World) :
  _label_encoders (service w) = None ->
  encode_cols pd enc categorical_cols w =
    (Raise (Exn TypeError "argument of type 'NoneType' is not iterable"), w).
Proof.
  intros Hnone. unfold categorical_cols. cbn [encode_cols]. rewrite bind_run.
  unfold encode_col. run. by rewrite Hnone.
Qed.

Section MorePredictFacts.
Context {rt : PyRuntime}.

Lemma predict_rest_row (enc enc' : pydict) :
  traverse (py_getitem enc) feature_order = traverse (py_getitem enc') feature_order ->
  predict_rest enc = predict_rest enc'.
Proof. intros H. unfold predict_rest. by rewrite H. Qed.

Lemma categorical_in_features :
  Forall (fun c => c ∈ feature_order) categorical_cols.
Proof. repeat constructor; apply (bool_decide_unpack _); vm_compute; exact I. Qed.

(** The body of the try block looks at the ten features only, through
    their encoded entries. *)
Lemma predict_body_cong (pd1 pd2 : pydict) (w1 w2 : World) :
  service w1 = service w2 ->
  (forall encs, _label_encoders (service w1) = Some encs ->
     Forall (fun c => encoded_entry encs pd1 c = encoded_entry encs pd2 c)
       feature_order) ->
  (predict_body pd1 w1).1 = (predict_body pd2 w2).1.
Proof.
  intros Hs Hsame. rewrite !predict_body_split, !bind_run.
  destruct (_label_encoders (service w1)) as [encs|] eqn:Henc.
  - destruct (encode_patient_data pd1 w1 encs Henc) as (o1 & w1' & Hr1 & Hs1 & _ & He1).
    destruct (encode_patient_data pd2 w2 encs) as (o2 & w2' & Hr2 & Hs2 & _ & He2);
      [ by rewrite <- Hs |].
    unfold py_copy in Hr1, Hr2. rewrite Hr1, Hr2.
    pose proof (Hsame encs eq_refl) as Hall.
    rewrite (traverse_ext (encoded_entry encs pd1) (encoded_entry encs pd2)) in He1.
    2:{ apply Forall_forall. intros c Hc.
        apply (proj1 (Forall_forall _ _) Hall).
        revert Hc. apply (proj1 (Forall_forall _ _) categorical_in_features). }
    destruct (traverse _ categorical_cols) as [entries|e].
    + destruct He1 as (e1 & -> & He1), He2 as (e2 & -> & He2).
      rewrite (predict_rest_row e1 e2).
      * apply so_predict_rest. congruence.
      * apply traverse_ext. eapply Forall_impl; [ exact Hall |].
        intros c Hc. cbv beta in Hc. unfold py_getitem.
        rewrite (He1 c), (He2 c) in Hc. by injection Hc as ->.
    + by subst o1 o2.
  - rewrite !encode_without_encoders; [ done | by rewrite <- Hs | done ].
Qed.

(** How predict_risk ends, with the calls it has made. *)
Lemma predict_risk_cong (env : Env) (pd1 pd2 : pydict) (w : World) :
  (forall encs,
     Forall (fun c => encoded_entry encs pd1 c = encoded_entry encs pd2 c)
       feature_order) ->
  (predict_risk env pd1 w).1 = (predict_risk env pd2 w).1.
Proof.
  intros Hsame.
  destruct (predict_risk_run env pd1 w) as (b1 & w1 & Hl1 & ->).
  destruct (predict_risk_run env pd2 w) as (b2 & w2 & Hl2 & ->).
  match type of Hl1 with load_model env ?w01 = _ =>
    match type of Hl2 with load_model env ?w02 = _ =>
      destruct (so_load_model env w01 w02 eq_refl) as [Hb Hs] end end.
  rewrite Hl1, Hl2 in Hb, Hs. cbn [fst snd] in Hb, Hs. injection Hb as <-.
  destruct b1; [| done ].
  pose proof (predict_body_cong pd1 pd2 w1 w2 Hs (fun encs _ => Hsame encs)) as Hbody.
  destruct (predict_body pd1 w1) as [[d1|e1] w1'],
           (predict_body pd2 w2) as [[d2|e2] w2']; cbn [fst] in *; congruence.
Qed.

(** X11. predict_risk reads the ten features and nothing else: two
    inputs that agree on gender, age, hypertension, heart_disease,
    ever_married, work_type, Residence_type, avg_glucose_level, bmi and
    smoking_status get the same result, whatever other keys they hold. *)
Theorem predict_risk_reads_ten_features (env : Env) (pd1 pd2 : pydict) (w : World) :
  Forall (fun c => pd1 !! c = pd2 !! c) feature_order ->
  (predict_risk env pd1 w).1 = (predict_risk env pd2 w).1.
Proof.
  intros Hsame. apply predict_risk_cong. intros encs.
  eapply Forall_impl; [ exact Hsame |]. intros c Hc.
  unfold encoded_entry, encode_entry. by rewrite Hc.
Qed.

(** X12. The default code 0 is also the code of the first class of the
    vocabulary: a str that the encoder has never seen is predicted exactly
    like that first class. *)
Theorem unseen_label_predicts_like_first_class (env : Env) (pd : pydict) (w : World)
    (m : Model) (encoders : Encoders) (col : string) (le : LabelEncoder)
    (v : value) (first : string) (others : list string) :
  _model (service w) = Some m ->
  _label_encoders (service w) = Some encoders ->
  col ∈ categorical_cols ->
  encoders !! col = Some le ->
  classes_ le = first :: others ->
  pd !! col = Some v ->
  unseen le v ->
  (predict_risk env pd w).1 = (predict_risk env (<[col := VStr first]> pd) w).1.
Proof.
  intros Hm Henc Hcol Hle Hclasses Hv Hun.
  destruct (predict_risk_loaded env pd w w m Hm eq_refl) as [-> _].
  destruct (predict_risk_loaded env (<[col := VStr first]> pd) w w m Hm eq_refl)
    as [-> _].
  f_equal. apply predict_body_cong; [ done |].
  intros encs Hencs. rewrite Henc in Hencs. injection Hencs as <-.
  apply Forall_forall. intros c _. unfold encoded_entry, encode_entry.
  destruct (decide (c = col)) as [->|Hne].
  - rewrite (bool_decide_eq_true_2 _ Hcol), lookup_insert_eq, Hv, Hle.
    unfold code_or_zero. destruct (le_transform_unseen _ _ Hun) as (e & -> & ->).
    unfold le_transform, le_lookup. rewrite Hclasses. simpl.
    by rewrite bool_decide_eq_true_2.
  - by rewrite lookup_insert_ne.
Qed.
End MorePredictFacts.

Section PredictRuns.
Context {rt : PyRuntime}.

(** The rest of the body, step by step, with the calls it records. *)
Lemma predict_rest_run (enc : pydict) (w : World) :
  predict_rest enc w =
    match traverse (py_getitem enc) feature_order with
    | Raise e => (Raise e, w)
    | Return X =>
        match _scaler (service w) with
        | None =>
            (Raise (Exn AttributeError "'NoneType' object has no attribute 'transform'"),
             w)
        | Some sc =>
            let w1 := {| service := service w; log := log w;
                         calls := calls w ++ [CallScaler X] |} in
            match scaler_transform sc X with
            | Raise e => (Raise e, w1)
            | Return X_scaled =>
                match _model (service w) with
                | None =>
                    (Raise (Exn AttributeError
                              "'NoneType' object has no attribute 'predict_proba'"),
                     w1)
                | Some m =>
                    let w2 := {| service := service w; log := log w;
                                 calls := calls w1 ++ [CallModel X_scaled] |} in
                    match predict_proba m X_scaled with
                    | Raise e => (Raise e, w2)
                    | Return p => (Return (success p), w2)
                    end
                end
            end
        end
    end.
Proof.
  unfold predict_rest, scale, classify. run.
  destruct (traverse _ _) as [X|]; run; [| done ].
  destruct (_scaler (service w)) as [sc|]; run; [| done ].
  destruct (scaler_transform sc X) as [Xs|]; run; [| done ].
  destruct (_model (service w)) as [m|]; run; [| done ].
  by destruct (predict_proba m Xs).
Qed.

(** predict_risk with a classifier in memory, with the world it leaves. *)
Lemma predict_risk_loaded_run (env : Env) (pd : pydict) (w : World) (m : Model) :
  _model (service w) = Some m ->
  let w0 := {| service := service w; log := log w;
               calls := calls w ++ [CallPredictRisk pd] |} in
  predict_risk env pd w =
    match predict_body pd w0 with
    | (Return d, w2) => (Return d, w2)
    | (Raise e, w2) =>
        (Return (failure (exn_msg e)),
         {| service := service w2;
            log := log w2 ++ [(ERROR, PredictionError e)];
            calls := calls w2 |})
    end.
Proof.
  intros Hm w0. destruct (predict_risk_run env pd w) as (b & w1 & Hl & ->).
  fold w0 in Hl. rewrite (load_model_loaded env w0 m) in Hl by done.
  by injection Hl as <- <-.
Qed.

Lemma encoded_entry_None (encs : Encoders) (pd : pydict) (c : string) :
  pd !! c = None -> encoded_entry encs pd c = Return None.
Proof.
  intros H. unfold encoded_entry, encode_entry. rewrite H.
  case_bool_decide; [| done ]. by destruct (encs !! c).
Qed.

(** On a str, the guarded call of transform gives a code. *)
Lemma code_or_zero_str (le : LabelEncoder) (s : string) :
  exists code, code_or_zero le (VStr s) = Return code.
Proof.
  unfold code_or_zero.
  destruct (le_transform_cases le s) as [[code ->]| ->]; [ by exists code |].
  by exists 0.
Qed.

(** With str labels no round of the loop raises, and a key that the input
    holds is a key of the encoded input. *)
Lemma encoded_entry_labelled (encs : Encoders) (pd : pydict) (c : string) :
  labelled pd ->
  exists entry, encoded_entry encs pd c = Return entry /\
                (is_Some (pd !! c) -> is_Some entry).
Proof.
  intros Hlab. unfold encoded_entry, encode_entry.
  case_bool_decide as Hc; [| by eexists ].
  destruct (encs !! c) as [le|]; [| by eexists ].
  destruct (pd !! c) as [v|] eqn:Hv; [| by eexists ].
  destruct (proj1 (Forall_forall _ _) Hlab c Hc v Hv) as [s ->].
  destruct (code_or_zero_str le s) as [code ->].
  eexists. split; [ done |]. by eexists.
Qed.

Lemma traverse_Return {A B} (f : A -> outcome B) (l : list A) :
  (forall x, exists y, f x = Return y) -> exists ys, traverse f l = Return ys.
Proof.
  intros Hf. induction l as [|x xs [ys IH]]; simpl; [ by eexists |].
  destruct (Hf x) as [y ->]. rewrite IH. by eexists.
Qed.

(** A prediction that succeeds, step by step: what was in memory, the row
    that went to the scaler, and the calls. *)
Lemma predict_risk_success_run (env : Env) (pd d : pydict) (w w' : World) :
  predict_risk env pd w = (Return d, w') ->
  d !! "success" = Some (VBool true) ->
  exists encoders sc m X X_scaled p,
    _label_encoders (service w') = Some encoders /\
    _scaler (service w') = Some sc /\ _model (service w') = Some m /\
    Forall2 (fun c x => encoded_entry encoders pd c = Return (Some x))
      feature_order X /\
    scaler_transform sc X = Return X_scaled /\
    predict_proba m X_scaled = Return p /\
    d = success p /\
    calls w' = calls w ++ [CallPredictRisk pd; CallScaler X; CallModel X_scaled].
Proof.
  intros Hrun Hok.
  destruct (predict_risk_run env pd w) as (b & w1 & Hload & Hrun').
  rewrite Hrun in Hrun'.
  destruct b; [| injection Hrun' as -> _; by rewrite failure_success in Hok ].
  pose proof (kc_load_model env) as Hkc.
  match type of Hload with load_model env ?w0 = _ => specialize (Hkc w0) end.
  rewrite Hload in Hkc. cbn [snd calls] in Hkc.
  revert Hrun'. rewrite predict_body_split, bind_run.
  destruct (_label_encoders (service w1)) as [encs|] eqn:Henc.
  2:{ unfold py_copy. rewrite encode_without_encoders by done.
      intros [= -> _]. by rewrite failure_success in Hok. }
  destruct (encode_patient_data pd w1 encs Henc) as (o & w2 & Hr & Hs2 & Hc2 & Hent).
  unfold py_copy in Hr. rewrite Hr.
  destruct (traverse (encoded_entry encs pd) categorical_cols) as [entries|e].
  2:{ subst o. intros [= -> _]. by rewrite failure_success in Hok. }
  destruct Hent as (enc & -> & Hent).
  rewrite predict_rest_run.
  destruct (traverse _ _) as [X|e] eqn:HX;
    [| intros [= -> _]; by rewrite failure_success in Hok ].
  destruct (_scaler (service w2)) as [sc|] eqn:Hsc;
    [| intros [= -> _]; by rewrite failure_success in Hok ].
  cbv zeta.
  destruct (scaler_transform sc X) as [Xs|e] eqn:Hscale;
    [| intros [= -> _]; by rewrite failure_success in Hok ].
  destruct (_model (service w2)) as [m|] eqn:Hm;
    [| intros [= -> _]; by rewrite failure_success in Hok ].
  destruct (predict_proba m Xs) as [p|e] eqn:Hp;
    [| intros [= -> _]; by rewrite failure_success in Hok ].
  intros [= Hd Hw]. subst d w'. exists encs, sc, m, X, Xs, p. cbn [service calls].
  repeat split; try done.
  - by rewrite Hs2.
  - apply traverse_Forall2 in HX. eapply Forall2_impl; [ exact HX |].
    intros c x Hx. cbv beta in Hx. rewrite Hent. unfold py_getitem in Hx.
    destruct (enc !! c); [ by injection Hx as -> | discriminate ].
  - rewrite Hc2, Hkc. by rewrite <- !app_assoc.
Qed.

(** C2. The features reach the classifier in the order of the columns at
    training time. The dataset is not among the sources; for every file whose
    columns, without id and stroke, are the ordered tuple of the
    specification, the columns X of a training run that succeeds and the row
    of a prediction that succeeds correspond position by position: the row
    handed to the scaler holds, at the place of each column of X, the encoded
    entry of that column in the input, and the classifier gets what the
    scaler made of that row. *)
Theorem serving_row_follows_training_columns (cells : Cells) (header X : columns)
    (env : Env) (patient_data d : pydict) (w w' : World) :
  filter (fun c => c ∉ ["id"; "stroke"]) header = patient_feature_vector ->
  training_columns cells header = Return X ->
  predict_risk env patient_data w = (Return d, w') ->
  d !! "success" = Some (VBool true) ->
  exists encoders row X_scaled,
    _label_encoders (service w') = Some encoders /\
    calls w' = calls w ++
      [CallPredictRisk patient_data; CallScaler row; CallModel X_scaled] /\
    Forall2 (fun c x => encoded_entry encoders patient_data c = Return (Some x))
      X row.
Proof.
  intros Hfile Htrain Hrun Hok.
  apply training_columns_keep_order in Htrain. rewrite Hfile in Htrain. subst X.
  destruct (predict_risk_success_run env patient_data d w w' Hrun Hok)
    as (encs & sc & m & row & Xs & p & Henc & _ & _ & Hrow & _ & _ & _ & Hcalls).
  exists encs, row, Xs. split; [ done |]. split; [ done |]. exact Hrow.
Qed.

(** X13. With the artifacts in memory and a str (or nothing) in each
    categorical field, an input that lacks one of the ten features is answered
    with {success: False, error: "'<feature>'"}, the text of the KeyError for
    the first missing feature in the order of the row; neither the scaler nor
    the classifier is called. *)
Theorem predict_risk_missing_feature (env : Env) (pd : pydict) (w : World)
    (m : Model) (encoders : Encoders) (before after : list string) (c : string) :
  _model (service w) = Some m ->
  _label_encoders (service w) = Some encoders ->
  labelled pd ->
  feature_order = before ++ c :: after ->
  Forall (fun b => is_Some (pd !! b)) before ->
  pd !! c = None ->
  (predict_risk env pd w).1 = Return (failure (quote c)) /\
  calls (predict_risk env pd w).2 = calls w ++ [CallPredictRisk pd].
Proof.
  intros Hm Henc Hlab Hsplit Hbefore Hc.
  rewrite (predict_risk_loaded_run env pd w m Hm). cbv zeta.
  rewrite predict_body_split, bind_run.
  match goal with |- context [ encode_cols pd pd categorical_cols ?w0 ] =>
    destruct (encode_patient_data pd w0 encoders Henc)
      as (o & w' & Hrun & Hs & Hcalls & Hent) end.
  destruct (traverse_Return (encoded_entry encoders pd) categorical_cols)
    as [entries Hentries].
  { intros x. destruct (encoded_entry_labelled encoders pd x Hlab) as (y & Hy & _).
    by exists y. }
  rewrite Hentries in Hent. destruct Hent as (enc & -> & Hent).
  unfold py_copy in Hrun. rewrite Hrun, predict_rest_run, Hsplit.
  rewrite (traverse_getitem_missing enc before after c).
  - split; [ done |]. by rewrite Hcalls.
  - eapply Forall_impl; [ exact Hbefore |]. intros b Hb. cbv beta in Hb.
    destruct (encoded_entry_labelled encoders pd b Hlab) as (y & Hy & Hsome).
    specialize (Hent b). rewrite Hy in Hent. injection Hent as <-. by apply Hsome.
  - specialize (Hent c). rewrite encoded_entry_None in Hent by done.
    by injection Hent as <-.
Qed.

(** X14. A prediction that succeeds has made exactly three calls, in
    this order: predict_risk itself, the scaler on the row of the ten encoded
    features, and the classifier on what the scaler returned. The row holds,
    feature by feature in the order of feature_order, the entry of the encoded
    input: the code of the label for a categorical field that has an encoder,
    the value of the input otherwise. The result is built from the one
    probability that the classifier returned. *)
Theorem predict_risk_calls (env : Env) (pd d : pydict) (w w' : World) :
  predict_risk env pd w = (Return d, w') ->
  d !! "success" = Some (VBool true) ->
  exists encoders sc m X X_scaled p,
    _label_encoders (service w') = Some encoders /\
    _scaler (service w') = Some sc /\ _model (service w') = Some m /\
    length X = 10%nat /\
    Forall2 (fun c x => encoded_entry encoders pd c = Return (Some x))
      feature_order X /\
    scaler_transform sc X = Return X_scaled /\
    predict_proba m X_scaled = Return p /\
    d = success p /\
    calls w' = calls w ++ [CallPredictRisk pd; CallScaler X; CallModel X_scaled].
Proof.
  intros Hrun Hok.
  destruct (predict_risk_success_run env pd d w w' Hrun Hok)
    as (encs & sc & m & X & Xs & p & Henc & Hsc & Hm & Hrow & Hscale & Hp & Hd & Hc).
  exists encs, sc, m, X, Xs, p. repeat split; try done.
  by rewrite <- (Forall2_length _ _ _ Hrow).
Qed.
End PredictRuns.

Lemma load_first_encoders_keeps (read : string -> option (outcome Encoders))
    (paths : list string) (w : World) :
  _model (service (load_first read set_label_encoders LoadedEncoders paths w).2)
    = _model (service w) /\
  _scaler (service (load_first read set_label_encoders LoadedEncoders paths w).2)
    = _scaler (service w).
Proof.
  induction paths as [|p rest IH]; [ done |]. rewrite load_first_cons.
  destruct (read p) as [[encs|e]|]; [ | done | exact IH ].
  unfold set_label_encoders. by run.
Qed.

Lemma traverse_getitem_Raise (d : pydict) (l : list string) (e : exn) :
  traverse (py_getitem d) l = Raise e -> exists c, e = Exn KeyError (quote c).
Proof.
  induction l as [|c rest IH]; simpl; [ discriminate |].
  unfold py_getitem at 1. destruct (d !! c).
  - destruct (traverse _ rest); [ discriminate |]. intros [= <-]. by apply IH.
  - intros [= <-]. by exists c.
Qed.

(** The one exception that leaves the encoding loop when the encoders are
    in memory. *)
Lemma encoded_entry_Raise (encs : Encoders) (pd : pydict) (c : string) (e : exn) :
  encoded_entry encs pd c = Raise e -> e = unhashable_dict.
Proof.
  unfold encoded_entry, encode_entry, code_or_zero.
  case_bool_decide; [| discriminate ].
  destruct (encs !! c) as [le|]; [| discriminate ].
  destruct (pd !! c) as [v|]; [| discriminate ].
  destruct (le_transform le v) as [code|e'] eqn:Ht; [ discriminate |].
  destruct (le_transform_Raise _ _ _ Ht) as [Hv| ->].
  - rewrite Hv. discriminate.
  - by intros [= <-].
Qed.

Section PartialLoad.
Context {rt : PyRuntime}.

(** load_model when the classifier is found and no scaler is. *)
Lemma load_model_without_scaler (env : Env) (w : World) (cfg : gmap string string)
    (before after : list string) (p : string) (m : Model) :
  _model (service w) = None ->
  _scaler (service w) = None ->
  app_config env = Some cfg ->
  model_paths cfg = before ++ p :: after ->
  Forall (fun b => model_at env b = None) before ->
  model_at env p = Some (Return m) ->
  Forall (fun q => scaler_at env q = None) (scaler_paths cfg) ->
  (load_model env w).1 = Return false /\
  _model (service (load_model env w).2) = Some m /\
  _scaler (service (load_model env w).2) = None.
Proof.
  intros Hnone Hsc Hcfg Hpaths Hbefore Hp Hnoscaler.
  unfold load_model. run. rewrite Hnone. run.
  unfold current_app_config. rewrite Hcfg. run.
  rewrite Hpaths, (load_first_found _ _ _ _ _ _ _ _ Hbefore Hp).
  unfold set_model. run.
  rewrite (load_first_none _ _ _ _ _ Hnoscaler). run.
  match goal with |- context [ load_first (encoders_at env) ?st ?ld ?ps ?w1 ] =>
    destruct (load_first_encoders_keeps (encoders_at env) ps w1) as [H1 H2];
    destruct (load_first (encoders_at env) st ld ps w1) as [[[]|?] w3] end;
    cbn [snd service _model _scaler] in H1, H2; run.
  - rewrite H2, Hsc. cbn [scaler_truthy]. rewrite andb_false_r. cbn [andb]. run.
    split; [ done |]. split; [ exact H1 | by rewrite H2 ].
  - split; [ done |]. split; [ exact H1 | by rewrite H2 ].
Qed.

(** X15. When the classifier file is found and no scaler file is,
    load_model returns False the first time and True from then on: the first
    predict_risk answers 'Model not loaded', the next one finds the model
    marked as loaded and fails inside its try block with another error. *)
Theorem partial_load_reports_loaded (env : Env) (pd : pydict) (w : World)
    (cfg : gmap string string) (before after : list string) (p : string) (m : Model) :
  _model (service w) = None ->
  _scaler (service w) = None ->
  app_config env = Some cfg ->
  model_paths cfg = before ++ p :: after ->
  Forall (fun b => model_at env b = None) before ->
  model_at env p = Some (Return m) ->
  Forall (fun q => scaler_at env q = None) (scaler_paths cfg) ->
  let run1 := predict_risk env pd w in
  let run2 := predict_risk env pd run1.2 in
  run1.1 = Return (failure "Model not loaded") /\
  (load_model env run1.2).1 = Return true /\
  exists error, run2.1 = Return (failure error) /\ error <> "Model not loaded".
Proof.
  intros Hnone Hsc Hcfg Hpaths Hbefore Hp Hnoscaler. cbv zeta.
  destruct (predict_risk_run env pd w) as (b & w1 & Hl & Hrun).
  match type of Hl with load_model env ?w0 = _ =>
    destruct (load_model_without_scaler env w0 cfg before after p m)
      as (Hb & Hm & Hs); try done end.
  rewrite Hl in Hb, Hm, Hs. cbn [fst snd] in Hb, Hm, Hs. injection Hb as ->.
  rewrite Hrun. cbn [fst snd].
  split; [ done |]. split; [ by rewrite (load_model_loaded env w1 m Hm) |].
  destruct (predict_risk_loaded env pd w1 w1 m Hm eq_refl) as [-> _].
  rewrite predict_body_split, bind_run.
  destruct (_label_encoders (service w1)) as [encs|] eqn:Henc.
  - destruct (encode_patient_data pd w1 encs Henc)
      as (o & w2 & Hrun2 & Hs2 & _ & Hent).
    unfold py_copy in Hrun2. rewrite Hrun2.
    destruct (traverse (encoded_entry encs pd) categorical_cols) as [entries|e]
      eqn:Hloop.
    + destruct Hent as (enc & -> & _). rewrite predict_rest_run.
      destruct (traverse (py_getitem enc) feature_order) as [X|e] eqn:HX.
      * rewrite Hs2, Hs. by eexists.
      * apply traverse_getitem_Raise in HX as [c ->]. by eexists.
    + subst o. apply traverse_Raise in Hloop as (c & _ & Hc).
      apply encoded_entry_Raise in Hc as ->. by eexists.
  - rewrite (encode_without_encoders _ _ _ Henc). by eexists.
Qed.
End PartialLoad.

(* ===================================================================== *)
(** ** More on the /predict route                                         *)
(* ===================================================================== *)

Section MoreRouteFacts.
Context {rt : PyRuntime}.

(** predict_risk returns a success with its four keys, or a failure. *)
Lemma predict_risk_shape (env : Env) (pd : pydict) (w : World) :
  exists d w', predict_risk env pd w = (Return d, w') /\
    ((exists p, d = success p) \/ (exists error, d = failure error)).
Proof.
  destruct (predict_risk_run env pd w) as (b & w1 & _ & ->).
  destruct b; [| eexists _, _; split; [ done | right; by eexists ] ].
  destruct (predict_body pd w1) as [[d|e] w2] eqn:Hbody;
    [| eexists _, _; split; [ done | right; by eexists ] ].
  exists d, w2. split; [ done |]. left.
  apply predict_body_Return in Hbody as (m & Xs & p & _ & _ & ->). by exists p.
Qed.

Lemma validate_accepts_nonempty (data : pydict) :
  validate_prediction_input data = Return (true, None) -> data <> ∅.
Proof. intros H ->. revert H. vm_compute. discriminate. Qed.

(** The route once validation has passed and the fields are converted:
    the answer of predict_risk, with status 200. *)
Lemma predict_after_validation (env : Env) (data pd d : pydict) (w w' : World) :
  validate_prediction_input data = Return (true, None) ->
  prepare_patient_data data = Return pd ->
  predict_risk env pd w = (Return d, w') ->
  exists w'', predict env data w = (Return (d, 200), w'') /\
              service w'' = service w' /\ calls w'' = calls w'.
Proof.
  intros Hvalid Hprep Hrun. unfold predict, predict_try. rewrite try_except_run.
  rewrite bool_decide_eq_false_2 by by apply validate_accepts_nonempty.
  rewrite bind_run, Hvalid. run. cbn [negb]. rewrite Hprep. run. rewrite Hrun. run.
  destruct (predict_risk_shape env pd w) as (d' & w2 & Hrun' & Hshape).
  rewrite Hrun in Hrun'. injection Hrun' as <- <-.
  destruct Hshape as [[p ->] | [error ->]].
  - destruct (success_lookup p) as (Hs & Hprob & Hcat & _).
    unfold py_get, py_getitem. rewrite Hs, Hcat, Hprob. run. by eexists.
  - unfold py_get. rewrite failure_success. run. by eexists.
Qed.

(** The route once validation has passed and the conversion of a field
    raises. *)
Lemma predict_conversion_error (env : Env) (data : pydict) (e : exn) (w : World) :
  validate_prediction_input data = Return (true, None) ->
  prepare_patient_data data = Raise e ->
  predict env data w =
    (Return (if is_ValueError e
             then (failure ("Invalid input: " +:+ exn_msg e), 400)
             else (failure (exn_msg e), 500)),
     {| service := service w;
        log := log w ++ [(ERROR, if is_ValueError e
                                 then PredictionValidationError e
                                 else PredictionError e)];
        calls := calls w |}).
Proof.
  intros Hvalid Hprep. unfold predict, predict_try. rewrite try_except_run.
  rewrite bool_decide_eq_false_2 by by apply validate_accepts_nonempty.
  rewrite bind_run, Hvalid. run. cbn [negb]. rewrite Hprep. run.
  by destruct (is_ValueError e).
Qed.

(** X16. For a body that is a JSON object the route never raises, and
    it answers with status 200 exactly when validation passed and the fields
    converted; the body is then what predict_risk returned for the converted
    fields, a failure included; in every other case the status
    is 400 or 500, the body is {success: False, error: ...}, and neither
    predict_risk nor an artifact has been called. *)
Theorem predict_always_answers (env : Env) (data : pydict) (w : World) :
  exists body status w',
    predict env data w = (Return (body, status), w') /\
    (status = 200 <->
       validate_prediction_input data = Return (true, None) /\
       exists pd, prepare_patient_data data = Return pd) /\
    (forall pd, prepare_patient_data data = Return pd -> status = 200 ->
       (predict_risk env pd w).1 = Return body) /\
    (status <> 200 ->
       (status = 400 \/ status = 500) /\
       (exists error, body = failure error) /\
       calls w' = calls w /\ service w' = service w).
Proof.
  destruct (validate_prediction_input_cases data) as [Hok | Hbad].
  - destruct (prepare_patient_data data) as [pd|e] eqn:Hprep.
    + destruct (predict_risk_shape env pd w) as (d & w1 & Hrun & _).
      destruct (predict_after_validation env data pd d w w1 Hok Hprep Hrun)
        as (w2 & Hroute & _).
      exists d, 200, w2. split; [ done |]. split; [| split ].
      * split; [ intros _; split; [ done | by exists pd ] | done ].
      * intros pd' [= <-] _. by rewrite Hrun.
      * done.
    + rewrite (predict_conversion_error env data e w Hok Hprep).
      destruct (is_ValueError e); eexists _, _, _; (split; [ done |]);
        (split; [| split ]);
        try (split; [ discriminate | by intros [_ [pd [=]]] ]);
        try (intros pd [=]);
        (intros _; split; [ auto |]; split; by eauto).
  - destruct (predict_rejects_before_prediction env data w)
      as (error & status & w' & Hroute & Hstatus & Hcalls & Hs).
    { destruct Hbad as [[msg Hmsg] | (e & He & _)]; congruence. }
    exists (failure error), status, w'. split; [ done |]. split; [| split ].
    + split; [ intros ->; by destruct Hstatus | intros [Hv _] ].
      destruct Hbad as [[msg Hmsg] | (e & He & _)]; congruence.
    + intros pd _ ->. by destruct Hstatus.
    + intros _. eauto.
Qed.

(** X17. A failure inside predict_risk is served with status 200: when no
    artifact file exists, a body that passes validation and conversion is
    answered with {success: False, error: 'Model not loaded'} and 200. *)
Theorem predict_serves_model_failure_as_200 (env : Env) (data pd : pydict) (w : World) :
  artifacts_absent env -> reachable env w ->
  validate_prediction_input data = Return (true, None) ->
  prepare_patient_data data = Return pd ->
  (predict env data w).1 = Return (failure "Model not loaded", 200).
Proof.
  intros Habs Hreach Hvalid Hprep.
  assert (forall path, model_at env path = None) as Hm by (intros p; apply Habs).
  pose proof (reachable_without_classifier env w Hm Hreach) as Hnone.
  destruct (predict_risk_run env pd w) as (b & w1 & Hl & Hrun).
  match type of Hl with load_model env ?w0 = _ =>
    destruct (load_model_without_classifier env w0 Hm Hnone) as [Hb _] end.
  rewrite Hl in Hb. injection Hb as ->.
  destruct (predict_after_validation env data pd _ w w1 Hvalid Hprep Hrun)
    as (w2 & -> & _). done.
Qed.

(** X18. A field that passes validation but does not convert stops the
    route before predict_risk: a ValueError (a hypertension or heart_disease
    that is no integer literal) gives status 400 and 'Invalid input: ...', any
    other exception status 500 with its text; the error is logged. *)
Theorem predict_reports_conversion_errors (env : Env) (data : pydict) (e : exn)
    (w : World) :
  validate_prediction_input data = Return (true, None) ->
  prepare_patient_data data = Raise e ->
  (predict env data w).1 =
    Return (if is_ValueError e
            then (failure ("Invalid input: " +:+ exn_msg e), 400)
            else (failure (exn_msg e), 500)) /\
  calls (predict env data w).2 = calls w /\
  service (predict env data w).2 = service w.
Proof.
  intros Hvalid Hprep. by rewrite (predict_conversion_error env data e w Hvalid Hprep).
Qed.

(** X19. The dict the route hands to predict_risk holds the ten features
    and nothing else: age, avg_glucose_level and bmi are float(data.get(k)),
    hypertension and heart_disease are int(data.get(k, 0)), the five
    categorical fields are data.get(k) as it came; every other key of the
    body is dropped. *)
Theorem prepare_patient_data_keys (data pd : pydict) :
  prepare_patient_data data = Return pd ->
  (forall k, is_Some (pd !! k) <-> k ∈ feature_order) /\
  Forall (fun k => exists x, pd !! k = Some (VFloat x) /\
                             py_float (py_get data k) = Return x) numeric_fields /\
  Forall (fun k => exists z, pd !! k = Some (VInt z) /\
                             py_int (py_get_default data k (VInt 0)) = Return z)
    ["hypertension"; "heart_disease"] /\
  Forall (fun k => pd !! k = Some (py_get data k)) categorical_cols.
Proof.
  unfold prepare_patient_data.
  destruct (py_float (py_get data "age")) as [age|] eqn:Hage; [| discriminate ].
  cbv beta iota delta [mbind outcome_bind].
  destruct (py_int (py_get_default data "hypertension" (VInt 0))) as [ht|] eqn:Hht;
    [| discriminate ].
  cbv beta iota delta [mbind outcome_bind].
  destruct (py_int (py_get_default data "heart_disease" (VInt 0))) as [hd|] eqn:Hhd;
    [| discriminate ].
  cbv beta iota delta [mbind outcome_bind].
  destruct (py_float (py_get data "avg_glucose_level")) as [glu|] eqn:Hglu;
    [| discriminate ]. cbv beta iota delta [mbind outcome_bind].
  destruct (py_float (py_get data "bmi")) as [bmi|] eqn:Hbmi; [| discriminate ].
  cbv beta iota delta [mbind outcome_bind]. intros [= <-].
  split; [| split; [| split ] ].
  - intros k. unfold dict_of, feature_order. cbn [list_to_map foldr fst snd].
    rewrite !elem_of_cons, elem_of_nil.
    repeat (rewrite lookup_insert; case_decide; [ subst; split; eauto 20 |]).
    rewrite lookup_empty. split; [ by intros [? ?] | intuition congruence ].
  - repeat constructor; eexists; (split; [ by vm_compute | done ]).
  - repeat constructor; eexists; (split; [ by vm_compute | done ]).
  - repeat constructor; by vm_compute.
Qed.
End MoreRouteFacts.

(* ===================================================================== *)
(** ** More on the training script                                        *)
(* ===================================================================== *)

Lemma df_read_iff (df : columns) (c : string) :
  df_read df c = Return tt <-> c ∈ df.
Proof.
  unfold df_read. case_bool_decide; split; done.
Qed.

Lemma df_drop_present (df : columns) (labels : list string) :
  Forall (fun l => l ∈ df) labels ->
  df_drop df labels = Return (filter (fun c => c ∉ labels) df).
Proof.
  intros H. unfold df_drop. rewrite first_failing_None; [ done |].
  eapply Forall_impl; [ exact H |]. intros l Hl. simpl.
  by rewrite bool_decide_eq_true_2.
Qed.

Lemma df_dropna_iff (df : columns) (c : string) :
  df_dropna df c = Return tt <-> c ∈ df.
Proof.
  unfold df_dropna. case_bool_decide; split; done.
Qed.

Lemma encode_categorical_from_present (cells : Cells) (cols : list string)
    (df : columns) :
  Forall (fun c => c ∈ df) cols ->
  Forall (fun c => fit_transform cells c = Return tt) cols ->
  encode_categorical_from cells df cols = Return df.
Proof.
  induction 1 as [|c cs Hc _ IH]; simpl; [ done |].
  intros [Hfit Hrest]%Forall_cons.
  rewrite (proj2 (df_read_iff df c) Hc), Hfit.
  cbv beta iota delta [mbind outcome_bind].
  rewrite (df_assign_present _ _ Hc). by apply IH.
Qed.

Lemma encode_categorical_from_Return (cells : Cells) (cols : list string)
    (df df' : columns) :
  encode_categorical_from cells df cols = Return df' ->
  Forall (fun c => c ∈ df) cols /\
  Forall (fun c => fit_transform cells c = Return tt) cols.
Proof.
  induction cols as [|c cs IH]; simpl; [ by split; constructor |].
  destruct (df_read df c) as [[]|] eqn:Hr; [| discriminate ].
  destruct (fit_transform cells c) as [[]|] eqn:Hfit; [| discriminate ].
  cbv beta iota delta [mbind outcome_bind].
  apply df_read_iff in Hr. rewrite (df_assign_present _ _ Hr).
  intros [H1 H2]%IH. split; by constructor.
Qed.

(** X20. Whatever the file, the training script gets to its matrix X
    exactly when the file has the columns the script reads by name (stroke,
    bmi, smoking_status, gender, ever_married, work_type, Residence_type, id)
    and every statement that computes on the cells (the overview of stroke,
    to_numeric and fillna on bmi, fillna on smoking_status, dropna on gender,
    fit_transform on the five categorical columns) goes through; X then holds
    the columns of the file in the file's order, without id and stroke. *)
Theorem training_columns_iff (cells : Cells) (header X : columns) :
  training_columns cells header = Return X <->
  Forall (fun c => c ∈ header) columns_read /\
  computes cells /\
  X = filter (fun c => c ∉ ["id"; "stroke"]) header.
Proof.
  split.
  - intros Hrun. split; [| split; [| by apply (training_columns_keep_order cells) ] ];
      revert Hrun; unfold training_columns, load_and_preprocess_data, computes;
      (destruct (df_read header "stroke") as [[]|] eqn:H1; [| discriminate ]);
      (destruct (stroke_overview cells) as [[]|]; [| discriminate ]);
      cbv beta iota zeta delta [mbind outcome_bind];
      (destruct (df_read header "bmi") as [[]|] eqn:H2; [| discriminate ]);
      (destruct (bmi_to_numeric cells) as [[]|]; [| discriminate ]);
      rewrite (df_assign_present _ _ (proj1 (df_read_iff _ _) H2)), H2;
      (destruct (bmi_fillna cells) as [[]|]; [| discriminate ]);
      (destruct (df_read header "smoking_status") as [[]|] eqn:H3; [| discriminate ]);
      (destruct (smoking_status_fillna cells) as [[]|]; [| discriminate ]);
      (destruct (df_dropna header "gender") as [[]|] eqn:H4; [| discriminate ]);
      (destruct (gender_dropna cells) as [[]|]; [| discriminate ]);
      apply df_read_iff in H1, H2, H3; apply df_dropna_iff in H4;
      (destruct (encode_categorical cells header) as [df|] eqn:He; [| discriminate ]);
      unfold encode_categorical in He;
      pose proof (encode_categorical_from_keeps _ _ _ _ He) as ->;
      apply (encode_categorical_from_Return cells) in He as [He Hfit].
    + unfold df_drop. destruct (first_failing _ _) eqn:Hd; [ discriminate |].
      apply first_failing_None_inv in Hd. intros _.
      rewrite Forall_forall in He, Hd. unfold columns_read.
      repeat constructor; try done.
      * apply He. apply (bool_decide_unpack _). vm_compute. exact I.
      * apply He. apply (bool_decide_unpack _). vm_compute. exact I.
      * apply He. apply (bool_decide_unpack _). vm_compute. exact I.
      * assert ("id" ∈ ["id"; "stroke"]) as Hin by (apply elem_of_cons; by left).
        specialize (Hd "id" Hin). simpl in Hd.
        apply negb_false_iff, bool_decide_eq_true in Hd. exact Hd.
    + intros _. by repeat split.
  - intros (Hcols & (Hs & Hb & Hbf & Hsf & Hg & Hfit) & ->).
    rewrite Forall_forall in Hcols.
    assert (Forall (fun c => c ∈ header /\ df_read header c = Return tt) columns_read)
      as Hall.
    { apply Forall_forall. intros c Hc. split; [ by apply Hcols |].
      apply df_read_iff. by apply Hcols. }
    unfold columns_read in Hall.
    repeat match goal with
           | H : Forall _ (_ :: _) |- _ => apply Forall_cons in H as [[? ?] H]
           end.
    unfold training_columns, load_and_preprocess_data.
    rewrite Hs, Hb, Hbf, Hsf, Hg.
    repeat match goal with
           | H : df_read header ?c = _ |- context [ df_read header ?c ] => rewrite H
           end.
    cbv beta iota zeta delta [mbind outcome_bind].
    rewrite (df_assign_present header "bmi") by done.
    repeat match goal with
           | H : df_read header ?c = _ |- context [ df_read header ?c ] => rewrite H
           end.
    rewrite (proj2 (df_dropna_iff header "gender")) by done.
    unfold encode_categorical. rewrite encode_categorical_from_present.
    + rewrite df_drop_present by by repeat constructor.
      by repeat match goal with
                | H : df_read header ?c = _ |- context [ df_read header ?c ] =>
                    rewrite H
                end.
    + unfold categorical_cols. by repeat constructor.
    + done.
Qed.

(* ===================================================================== *)
(** ** Strata at training time and buckets at serving time                *)
(* ===================================================================== *)

Lemma not_nan_Prim2SF (x : float) : is_nan x = false -> Prim2SF x <> S754_nan.
Proof.
  unfold is_nan. rewrite FloatAxioms.eqb_spec. unfold SFeqb. intros H Hx.
  by rewrite Hx in H.
Qed.

Lemma SFcompare_Some (x y : spec_float) :
  x <> S754_nan -> y <> S754_nan -> exists c, SFcompare x y = Some c.
Proof.
  destruct x as [s|s| |s m e], y as [s'|s'| |s' m' e']; try done; intros _ _;
    by eexists.
Qed.

(** On numbers, [x <= y] is the negation of [y < x]. *)
Lemma leb_negb_ltb (x y : float) :
  is_nan x = false -> is_nan y = false -> (x <=? y)%float = negb (y <? x)%float.
Proof.
  intros Hx Hy. apply not_nan_Prim2SF in Hx, Hy.
  rewrite leb_spec, ltb_spec. unfold SFleb, SFltb.
  rewrite (SFcompare_flip (Prim2SF x)).
  destruct (SFcompare_Some _ _ Hy Hx) as [c ->]. by destruct c.
Qed.

(** The stratum of one prediction: the three training masks against the
    serving bucket. *)
Lemma strata_of_number (p : float) :
  is_nan p = false ->
  (0.33 <=? p)%float && (p <? 0.66)%float
    = bool_decide ((categorize p).1 = "Medium Risk") /\
  (0.66 <=? p)%float = bool_decide ((categorize p).1 = "High Risk") /\
  (p <? 0.33)%float = bool_decide ((categorize p).1 = "Low Risk").
Proof.
  intros Hp. unfold categorize.
  rewrite (leb_negb_ltb 0.33 p), (leb_negb_ltb 0.66 p) by done.
  destruct (p <? 0.33)%float eqn:Hlo.
  - assert ((p <? 0.66)%float = true) as ->; [| done ].
    destruct (p <? 0.66)%float eqn:Hhi; [ done |].
    assert ((0.66 <=? p)%float = true) as Hge
      by (rewrite (leb_negb_ltb 0.66 p), Hhi; done).
    by rewrite (above_high_not_low p Hge) in Hlo.
  - by destruct (p <? 0.66)%float.
Qed.

Lemma strata_of_nan (p : float) :
  is_nan p = true ->
  (p <? 0.33)%float = false /\
  (0.33 <=? p)%float && (p <? 0.66)%float = false /\
  (0.66 <=? p)%float = false /\
  categorize p = ("High Risk", "red").
Proof.
  intros Hp. unfold categorize. destruct (nan_not_lt p 0.33 Hp) as [-> _].
  destruct (nan_not_lt p 0.66 Hp) as [-> _].
  rewrite !leb_spec, (is_nan_Prim2SF p Hp). unfold SFleb.
  repeat split; by destruct (Prim2SF _).
Qed.

(** X21. The strata printed by the training script are the buckets of
    the serving code: the same predictions are Low, the same are Medium, and
    High at serving time is the high stratum plus the NaN predictions, which
    no stratum counts; the three strata and the NaNs add up to the number of
    predictions. *)
Theorem strata_match_buckets (all_predictions : list float) :
  low_risk all_predictions = served_as "Low Risk" all_predictions /\
  medium_risk all_predictions = served_as "Medium Risk" all_predictions /\
  (high_risk all_predictions + count_where is_nan all_predictions
     = served_as "High Risk" all_predictions)%nat /\
  (low_risk all_predictions + medium_risk all_predictions
     + high_risk all_predictions + count_where is_nan all_predictions
     = length all_predictions)%nat.
Proof.
  unfold low_risk, medium_risk, high_risk, served_as, count_where.
  induction all_predictions as [|p ps (IH1 & IH2 & IH3 & IH4)]; [ done |].
  cbn [List.filter].
  destruct (is_nan p) eqn:Hp.
  - destruct (strata_of_nan p Hp) as (-> & -> & -> & ->). cbn [fst].
    rewrite !bool_decide_eq_false_2 by done.
    rewrite bool_decide_eq_true_2 by done. cbn [length]. lia.
  - destruct (strata_of_number p Hp) as (-> & -> & ->).
    destruct (categorize_cases p) as [-> | [-> | ->]]; cbn [fst];
      repeat (first [ rewrite bool_decide_eq_true_2 by done
                    | rewrite bool_decide_eq_false_2 by done ]);
      cbn [length]; lia.
Qed.

(* ===================================================================== *)
(** ** From save_model to load_model                                      *)
(* ===================================================================== *)

(** X22. What the training script saves is what the service loads: with
    the three paths configured as the application does (the configured path
    is the first candidate, so that no other copy is looked at), a first
    load_model after save_model returns True and leaves exactly the saved
    classifier, scaler and encoders in the service, for a classifier that has
    estimators and encoders that are not empty (the truth tests of
    load_model's return). *)
Theorem load_model_after_save_model (env : Env) (w : World) (cfg : gmap string string)
    (model : Model) (scaler : Scaler) (le_dict : Encoders) :
  _model (service w) = None ->
  app_config env = Some cfg ->
  config_get cfg "MODEL_PATH" MODEL_PATH = MODEL_PATH ->
  config_get cfg "SCALER_PATH" SCALER_PATH = SCALER_PATH ->
  config_get cfg "ENCODERS_PATH" ENCODERS_PATH = ENCODERS_PATH ->
  estimators_ model <> 0%nat ->
  le_dict <> ∅ ->
  (load_model (save_model model scaler le_dict env) w).1 = Return true /\
  service (load_model (save_model model scaler le_dict env) w).2 =
    {| _model := Some model; _scaler := Some scaler;
       _label_encoders := Some le_dict |}.
Proof.
  intros Hnone Hcfg Hm Hs He Hest Hdict. unfold load_model. run. rewrite Hnone. run.
  unfold current_app_config. cbn [save_model app_config]. rewrite Hcfg. run.
  unfold model_paths, scaler_paths, encoder_paths.
  change "ml_models/stroke_model.pkl" with MODEL_PATH.
  change "ml_models/scaler.pkl" with SCALER_PATH.
  change "ml_models/label_encoders.pkl" with ENCODERS_PATH.
  rewrite Hm, Hs, He, !load_first_cons. cbn [save_model model_at scaler_at encoders_at].
  unfold dump_at. rewrite !bool_decide_eq_true_2 by done.
  unfold set_model, set_scaler, set_label_encoders. run.
  cbn [model_truthy scaler_truthy encoders_truthy].
  rewrite (bool_decide_eq_false_2 _ Hdict).
  destruct (estimators_ model) as [|n]; [ done |]. cbn [Nat.eqb negb andb]. by run.
Qed.

(* ===================================================================== *)
(** ** Sanitized text                                                     *)
(* ===================================================================== *)

Example sanitize_input_docstring :
  sanitize_input (Some "  Hello <b>World</b> & 'co'  ")
    = "Hello &lt;b&gt;World&lt;/b&gt; &amp; &#x27;co&#x27;" /\
  validate_email (Some "user.name+tag@example.co.uk") = true /\
  validate_email (Some "@example.com") = false /\
  validate_email (Some "invalid-email") = false /\
  validate_password (Some "SecurePass123") = (true, None) /\
  validate_password (Some "NoNumbersHere")
    = (false, Some "Password must contain at least one digit.") /\
  register_checks registration_form = inr ("nurse", "nurse@example.com", "SecurePass123").
Proof. repeat split; vm_compute; reflexivity. Qed.

(* A closed decidable fact, by computation. *)
Ltac decided := apply (bool_decide_unpack _); vm_compute; exact I.
Ltac decided_not := apply (bool_decide_eq_false_1 _); vm_compute; reflexivity.

Lemma chars_text (s : list ascii) : chars (text s) = s.
Proof. apply list_ascii_of_string_of_list_ascii. Qed.

Lemma text_chars (s : string) : text (chars s) = s.
Proof. apply string_of_list_ascii_of_string. Qed.

Lemma chars_nil (s : string) : chars s = [] <-> s = "".
Proof.
  split; [| by intros -> ]. intros H. by rewrite <- (text_chars s), H.
Qed.

Lemma replace_app (old : ascii) (new : string) (a b : list ascii) :
  replace old new (a ++ b) = replace old new a ++ replace old new b.
Proof. unfold replace. apply flat_map_app. Qed.

Lemma html_escape_app (a b : list ascii) :
  html_escape (a ++ b) = html_escape a ++ html_escape b.
Proof. unfold html_escape. cbv zeta. by rewrite !replace_app. Qed.

Lemma html_escape_cons (c : ascii) (s : list ascii) :
  html_escape (c :: s) = html_escape [c] ++ html_escape s.
Proof. apply (html_escape_app [c] s). Qed.

(** One character: itself, or an ampersand and the tail of its entity. *)
Lemma html_escape_char (c : ascii) :
  ((c ∉ html_special) /\ html_escape [c] = [c]) \/
  (c ∈ html_special /\
   exists t, t ∈ entity_tails /\ html_escape [c] = "&"%char :: t).
Proof.
  destruct (decide (c ∈ html_special)) as [Hin | Hout].
  - right. split; [ done |]. unfold html_special in Hin.
    repeat (apply elem_of_cons in Hin as [-> | Hin]);
      [ exists (chars "amp;") | exists (chars "lt;") | exists (chars "gt;")
      | exists (chars "quot;") | exists (chars "#x27;") | by apply elem_of_nil in Hin ];
      (split; [ decided | reflexivity ]).
  - left. split; [ done |].
    assert (forall old new, c <> old -> replace old new [c] = [c]) as Hrep.
    { intros old new Hne. unfold replace. cbn [flat_map].
      destruct (Ascii.eqb_spec c old) as [-> | _]; [ done | by rewrite app_nil_r ]. }
    unfold html_escape. cbv zeta.
    rewrite !Hrep; [ done | .. ]; intros ->; apply Hout; decided.
Qed.

Lemma entity_tails_plain (t : list ascii) :
  t ∈ entity_tails ->
  Forall (fun c => (c ∉ html_special) /\ isspace c = false) t /\ t <> [].
Proof.
  unfold entity_tails. cbn [fmap list_fmap]. intros H.
  repeat (apply elem_of_cons in H as [-> | H]); [ .. | by apply elem_of_nil in H ];
    (split; [| done ]); repeat constructor;
    first [ reflexivity | decided ].
Qed.

Lemma lstrip_suffix (s : list ascii) :
  exists ws, s = ws ++ lstrip s /\ Forall (fun c => isspace c = true) ws.
Proof.
  induction s as [|c s (ws & Hs & Hws)]; [ by exists [] |]. cbn [lstrip].
  destruct (isspace c) eqn:Hc; [| by exists [] ].
  exists (c :: ws). split; [ by rewrite Hs at 1 | by constructor ].
Qed.

Lemma lstrip_head (s : list ascii) (c : ascii) :
  head (lstrip s) = Some c -> isspace c = false.
Proof.
  induction s as [|x s IH]; [ done |]. cbn [lstrip].
  destruct (isspace x) eqn:Hx; [ done |]. by intros [= <-].
Qed.

Lemma lstrip_id (s : list ascii) :
  (forall c, head s = Some c -> isspace c = false) -> lstrip s = s.
Proof.
  destruct s as [|x s]; [ done |]. intros H. cbn [lstrip].
  by rewrite (H x eq_refl).
Qed.

Lemma lstrip_last (s : list ascii) (c : ascii) :
  last (lstrip s) = Some c -> last s = Some c.
Proof.
  destruct (lstrip_suffix s) as (ws & Hs & _). intros H. rewrite Hs.
  destruct (lstrip s) as [|x l] eqn:Hl; [ done |].
  by rewrite last_app, H.
Qed.

Lemma strip_trimmed (s : list ascii) : trimmed (strip s).
Proof.
  unfold trimmed, strip, rstrip. split; intros c.
  - rewrite head_reverse. intros H%lstrip_last. rewrite last_reverse in H.
    by apply (lstrip_head s).
  - rewrite last_reverse. apply lstrip_head.
Qed.

Lemma trimmed_strip (s : list ascii) : trimmed s -> strip s = s.
Proof.
  intros [Hhead Hlast]. unfold strip, rstrip. rewrite (lstrip_id s Hhead).
  rewrite lstrip_id; [ apply reverse_involutive |].
  intros c. rewrite head_reverse. apply Hlast.
Qed.

Lemma html_escape_nil_inv (s : list ascii) : html_escape s = [] -> s = [].
Proof.
  destruct s as [|c s]; [ done |]. rewrite html_escape_cons.
  destruct (html_escape_char c) as [[_ ->] | [_ (t & _ & ->)]]; done.
Qed.

Lemma html_escape_trimmed (s : list ascii) : trimmed s -> trimmed (html_escape s).
Proof.
  intros [Hhead Hlast]. split; intros c.
  - destruct s as [|x s]; [ done |]. rewrite html_escape_cons.
    destruct (html_escape_char x) as [[_ ->] | [_ (t & _ & ->)]].
    + intros [= <-]. by apply Hhead.
    + by intros [= <-].
  - induction s as [|x s _] using rev_ind; [ done |]. rewrite html_escape_app.
    destruct (html_escape_char x) as [[_ ->] | [_ (t & Ht & ->)]].
    + rewrite last_snoc. intros [= <-]. apply Hlast, last_snoc.
    + destruct (entity_tails_plain t Ht) as [Hplain Hne].
      destruct t as [|y t]; [ done |].
      rewrite last_app_cons, last_cons_cons.
      intros Hc%last_Some_elem_of.
      by destruct (proj1 (Forall_forall _ _) Hplain c Hc).
Qed.

Lemma html_escape_length (s : list ascii) :
  (length s <= length (html_escape s))%nat.
Proof.
  induction s as [|c s IH]; [ done |]. rewrite html_escape_cons, length_app.
  destruct (html_escape_char c) as [[_ ->] | [_ (t & _ & ->)]]; cbn [length]; lia.
Qed.

Lemma html_escape_plain (s : list ascii) :
  html_escape s = s <-> Forall (fun c => c ∉ html_special) s.
Proof.
  induction s as [|c s IH]; [ done |]. rewrite html_escape_cons.
  destruct (html_escape_char c) as [[Hc ->] | [Hc (t & Ht & ->)]].
  - cbn [app]. split.
    + intros [= H]. constructor; [ done | by apply IH ].
    + intros [_ H%IH]%Forall_cons. by rewrite H.
  - split.
    + intros [= _ H]. apply (f_equal length) in H. rewrite length_app in H.
      pose proof (html_escape_length s).
      destruct (entity_tails_plain t Ht) as [_ Hne]. destruct t; [ done |].
      cbn [length] in H. lia.
    + by intros [? _]%Forall_cons.
Qed.

Lemma html_escape_no_markup (s : list ascii) :
  Forall (fun c => c ∉ [ "<"; ">"; "034"; "'" ]%char) (html_escape s).
Proof.
  assert (forall c, c ∉ html_special -> c ∉ [ "<"; ">"; "034"; "'" ]%char) as Hsub.
  { intros c Hc Hin. apply Hc. unfold html_special. apply elem_of_cons. by right. }
  induction s as [|c s IH]; [ constructor |]. rewrite html_escape_cons.
  apply Forall_app. split; [| done ].
  destruct (html_escape_char c) as [[Hc ->] | [_ (t & Ht & ->)]].
  - constructor; [ by apply Hsub | constructor ].
  - constructor.
    + decided.
    + destruct (entity_tails_plain t Ht) as [Hplain _].
      eapply Forall_impl; [ exact Hplain |]. intros x [Hx _]. by apply Hsub.
Qed.

Lemma app_before_ampersand (t rest before after : list ascii) :
  Forall (fun c => c ∉ html_special) t ->
  t ++ rest = before ++ "&"%char :: after ->
  exists b, before = t ++ b /\ rest = b ++ "&"%char :: after.
Proof.
  intros Ht. revert before. induction Ht as [|x t Hx _ IH]; intros before H.
  - by exists before.
  - destruct before as [|y before].
    + injection H as -> _. exfalso. apply Hx. decided.
    + injection H as -> H. destruct (IH before H) as (b & -> & ->). by exists b.
Qed.

Lemma ampersand_starts_entity (s before after : list ascii) :
  html_escape s = before ++ "&"%char :: after ->
  exists t rest, t ∈ entity_tails /\ after = t ++ rest.
Proof.
  revert before. induction s as [|c s IH]; intros before.
  - by destruct before.
  - rewrite html_escape_cons.
    destruct (html_escape_char c) as [[Hc ->] | [_ (t & Ht & ->)]].
    + intros H.
      assert (Forall (fun x => x ∉ html_special) [c]) as Hplain by (by constructor).
      destruct (app_before_ampersand [c] _ _ _ Hplain H) as (b & _ & Hb).
      by apply (IH b).
    + destruct before as [|y before]; cbn [app].
      * intros [= <-]. by exists t, (html_escape s).
      * intros [= _ H]. destruct (entity_tails_plain t Ht) as [Hplain _].
        destruct (app_before_ampersand t _ _ _
                    (Forall_impl _ _ _ Hplain (fun x Hx => proj1 Hx)) H)
          as (b & _ & Hb).
        by apply (IH b).
Qed.

Lemma ampersand_of_special (s : list ascii) :
  "&"%char ∉ html_escape s -> Forall (fun c => c ∉ html_special) s.
Proof.
  induction s as [|c s IH]; [ constructor |]. rewrite html_escape_cons.
  intros H. apply not_elem_of_app in H as [Hc Hs].
  constructor; [| by apply IH ].
  destruct (html_escape_char c) as [[Hout _] | [_ (t & _ & Heq)]]; [ done |].
  rewrite Heq in Hc. exfalso. apply Hc. apply elem_of_cons. by left.
Qed.

(** X23. What sanitize_input returns holds none of the characters <, >,
    double quote and single quote; every ampersand in it begins one of the
    five entities &amp; &lt; &gt; &quot; &#x27; (the ampersands that the later
    replacements bring in are not escaped again); and it has no whitespace at
    either end. *)
Theorem sanitize_input_output (input_string : option string) :
  let out := chars (sanitize_input input_string) in
  Forall (fun c => c ∉ [ "<"; ">"; "034"; "'" ]%char) out /\
  (forall before after, out = before ++ "&"%char :: after ->
     exists t rest, t ∈ entity_tails /\ after = t ++ rest) /\
  trimmed out.
Proof.
  destruct input_string as [s|]; cbn [sanitize_input].
  - rewrite chars_text. split; [ apply html_escape_no_markup |].
    split; [ apply ampersand_starts_entity |].
    apply html_escape_trimmed, strip_trimmed.
  - split; [ constructor |]. split; [ by intros [] |]. by split.
Qed.

(** X24. Sanitizing twice is not sanitizing once: the second pass leaves
    the text alone exactly when the stripped input has none of the five
    characters &, <, >, double quote, single quote; otherwise it escapes the
    ampersands of the first pass again. *)
Theorem sanitize_input_twice (s : string) :
  sanitize_input (Some (sanitize_input (Some s))) = sanitize_input (Some s) <->
  Forall (fun c => c ∉ html_special) (strip (chars s)).
Proof.
  cbn [sanitize_input]. rewrite chars_text.
  rewrite (trimmed_strip (html_escape _))
    by apply html_escape_trimmed, strip_trimmed.
  split.
  - intros H. apply (f_equal chars) in H. rewrite !chars_text in H.
    apply html_escape_plain in H. apply ampersand_of_special.
    intros Hin. apply (proj1 (Forall_forall _ _) H _ Hin). decided.
  - intros H%html_escape_plain. by rewrite !H.
Qed.

(* ===================================================================== *)
(** ** Patterns                                                           *)
(* ===================================================================== *)

Lemma runs_spec (ranges : list (ascii * ascii)) (s s' : list ascii) :
  s' ∈ runs ranges s <->
  exists m, s = m ++ s' /\ Forall (fun c => in_class ranges c = true) m.
Proof.
  induction s as [|c s IH]; cbn [runs].
  - rewrite list_elem_of_singleton. split.
    + intros ->. by exists [].
    + intros (m & H & _). symmetry in H. by apply app_eq_nil in H as [_ ->].
  - destruct (in_class ranges c) eqn:Hc.
    + rewrite elem_of_app, list_elem_of_singleton, IH. split.
      * intros [(m & -> & Hm) | ->]; [ exists (c :: m) | exists [] ]; split; try done.
        by constructor.
      * intros ([|x m] & H & Hm); [ by right |]. injection H as <- ->.
        left. exists m. split; [ done |]. by apply Forall_cons in Hm as [_ ?].
    + rewrite list_elem_of_singleton. split.
      * intros ->. by exists [].
      * intros ([|x m] & H & Hm); [ done |]. injection H as <- _.
        apply Forall_cons in Hm as [Hx _]. congruence.
Qed.

Lemma atom_ends_Repeat (subject : list ascii) (min : nat)
    (ranges : list (ascii * ascii)) (s s' : list ascii) :
  s' ∈ atom_ends subject (Repeat min ranges) s <->
  exists m, s = m ++ s' /\ Forall (fun c => in_class ranges c = true) m /\
            (min <= length m)%nat.
Proof.
  cbn [atom_ends]. rewrite list_elem_of_In, filter_In, <- list_elem_of_In, runs_spec.
  rewrite Nat.leb_le. split.
  - intros [(m & -> & Hm) Hlen]. exists m. rewrite length_app in Hlen.
    repeat split; [ done | lia ].
  - intros (m & -> & Hm & Hlen). split; [ by exists m |]. rewrite length_app. lia.
Qed.

Lemma atom_ends_Class (subject : list ascii) (ranges : list (ascii * ascii))
    (s s' : list ascii) :
  s' ∈ atom_ends subject (Class ranges) s <->
  exists c, s = c :: s' /\ in_class ranges c = true.
Proof.
  cbn [atom_ends]. destruct s as [|c s].
  - split; [ by intros ?%elem_of_nil | by intros (? & ? & _) ].
  - destruct (in_class ranges c) eqn:Hc.
    + rewrite list_elem_of_singleton. split.
      * intros ->. by exists c.
      * by intros (x & [= <- <-] & _).
    + split; [ by intros ?%elem_of_nil |]. intros (x & [= <- <-] & ?). congruence.
Qed.

Lemma atom_ends_Caret (subject s s' : list ascii) :
  s' ∈ atom_ends subject Caret s <-> s' = s /\ length s = length subject.
Proof.
  cbn [atom_ends].
  destruct (bool_decide_reflect (length s = length subject)) as [H | H].
  - rewrite list_elem_of_singleton. split; [ by intros -> | by intros [-> _] ].
  - rewrite elem_of_nil. split; [ done | by intros [_ ?] ].
Qed.

Lemma atom_ends_Dollar (subject s s' : list ascii) :
  s' ∈ atom_ends subject Dollar s <-> s' = s /\ (s = [] \/ s = [ "010"%char ]).
Proof.
  cbn [atom_ends].
  destruct (bool_decide_reflect (s = [] \/ s = [ "010"%char ])) as [H | H].
  - rewrite list_elem_of_singleton. split; [ by intros -> | by intros [-> _] ].
  - rewrite elem_of_nil. split; [ done | by intros [_ ?] ].
Qed.

Lemma pattern_ends_cons (subject : list ascii) (a : atom) (pattern : list atom)
    (s e : list ascii) :
  e ∈ pattern_ends subject (a :: pattern) s <->
  exists s', s' ∈ atom_ends subject a s /\ e ∈ pattern_ends subject pattern s'.
Proof.
  cbn [pattern_ends]. rewrite list_elem_of_In, in_flat_map.
  by setoid_rewrite list_elem_of_In.
Qed.

Lemma matches_at_true (subject : list ascii) (pattern : list atom) (s : list ascii) :
  matches_at subject pattern s = true <-> exists e, e ∈ pattern_ends subject pattern s.
Proof.
  unfold matches_at. destruct (pattern_ends subject pattern s) as [|e l].
  - split; [ done | by intros (e & ?%elem_of_nil) ].
  - split; [| done ]. intros _. exists e. by left.
Qed.

Lemma in_class_one (x c : ascii) : in_class [ one x ] c = true <-> c = x.
Proof.
  unfold in_class, one. cbn [existsb]. rewrite orb_false_r, andb_true_iff, !N.leb_le.
  split.
  - intros [H1 H2]. rewrite <- (ascii_N_embedding c), <- (ascii_N_embedding x).
    f_equal. lia.
  - intros ->. lia.
Qed.

Lemma re_match_email (s : list ascii) :
  re_match email_regex s = true <->
  exists local domain tld newline,
    s = address local domain tld ++ newline /\ well_formed local domain tld /\
    (newline = [] \/ newline = [ "010"%char ]).
Proof.
  unfold re_match, email_regex. rewrite matches_at_true. split.
  - intros (e & He).
    apply pattern_ends_cons in He as (s1 & [-> _]%atom_ends_Caret & He).
    apply pattern_ends_cons in He as (s2 & (local & -> & Hl & Hlen1)%atom_ends_Repeat & He).
    apply pattern_ends_cons in He as (s3 & (c1 & -> & ->%in_class_one)%atom_ends_Class & He).
    apply pattern_ends_cons in He as (s4 & (domain & -> & Hd & Hlen2)%atom_ends_Repeat & He).
    apply pattern_ends_cons in He as (s5 & (c2 & -> & ->%in_class_one)%atom_ends_Class & He).
    apply pattern_ends_cons in He as (s6 & (tld & -> & Ht & Hlen3)%atom_ends_Repeat & He).
    apply pattern_ends_cons in He as (s7 & [-> Hnl]%atom_ends_Dollar & _).
    exists local, domain, tld, s6. split; [| split; [| done ] ].
    + unfold address. by rewrite <- !app_assoc, <- !app_comm_cons, <- !app_assoc.
    + repeat split; try done.
      * intros ->. cbn [length] in Hlen1. lia.
      * intros ->. cbn [length] in Hlen2. lia.
  - intros (local & domain & tld & newline & -> & (Hl & Hlf & Hd & Hdf & Hlen & Htf) & Hnl).
    exists newline. unfold address.
    apply pattern_ends_cons. eexists. split; [ by apply atom_ends_Caret |].
    apply pattern_ends_cons. exists ("@"%char :: domain ++ "."%char :: tld ++ newline).
    split.
    { apply atom_ends_Repeat. exists local. split.
      - by rewrite <- !app_assoc, <- !app_comm_cons, <- !app_assoc.
      - split; [ done |]. destruct local; [ done | cbn [length]; lia ]. }
    apply pattern_ends_cons. exists (domain ++ "."%char :: tld ++ newline). split.
    { apply atom_ends_Class. eexists. split; [ done |]. by apply in_class_one. }
    apply pattern_ends_cons. exists ("."%char :: tld ++ newline). split.
    { apply atom_ends_Repeat. exists domain. split; [ done |]. split; [ done |].
      destruct domain; [ done | cbn [length]; lia ]. }
    apply pattern_ends_cons. exists (tld ++ newline). split.
    { apply atom_ends_Class. eexists. split; [ done |]. by apply in_class_one. }
    apply pattern_ends_cons. exists newline. split.
    { apply atom_ends_Repeat. by exists tld. }
    apply pattern_ends_cons. exists newline. split.
    { by apply atom_ends_Dollar. }
    cbn [pattern_ends]. by apply list_elem_of_singleton.
Qed.

(** X25. validate_email returns True exactly for the strs of the form
    local@domain.tld, with a local part of one or more of a-z A-Z 0-9 . _ % +
    -, a domain of one or more of a-z A-Z 0-9 . -, and a last label of two or
    more letters, and for such a str followed by one newline, which [$] lets
    through; None and the empty str are refused. *)
Theorem validate_email_accepts_iff (email : option string) :
  validate_email email = true <->
  exists s local domain tld newline,
    email = Some s /\
    chars s = address local domain tld ++ newline /\ well_formed local domain tld /\
    (newline = [] \/ newline = [ "010"%char ]).
Proof.
  destruct email as [s|]; cbn [validate_email].
  - case_bool_decide as Hs.
    + split; [ done |]. intros (s' & local & domain & tld & newline & [= <-] & H & Hwf & _).
      subst s. destruct Hwf as (Hl & _). by destruct local.
    + rewrite re_match_email. split.
      * intros (local & domain & tld & newline & H). by exists s, local, domain, tld, newline.
      * intros (s' & local & domain & tld & newline & [= <-] & H).
        by exists local, domain, tld, newline.
  - split; [ done |]. by intros (s & ? & ? & ? & ? & ? & _).
Qed.

(* ===================================================================== *)
(** ** The form checks                                                    *)
(* ===================================================================== *)

Lemma address_plain (local domain tld : list ascii) :
  well_formed local domain tld ->
  Forall (fun c => c ∉ html_special) (address local domain tld).
Proof.
  assert (forall ranges, Forall (fun x => in_class ranges x = false) html_special ->
          forall l, Forall (fun c => in_class ranges c = true) l ->
                    Forall (fun c => c ∉ html_special) l) as Hclass.
  { intros ranges Hout l Hl. eapply Forall_impl; [ exact Hl |].
    intros c Hc Hin. apply (proj1 (Forall_forall _ _) Hout) in Hin. congruence. }
  intros (_ & Hl & _ & Hd & _ & Ht). unfold address.
  apply Forall_app. split; [ by apply (Hclass local_class); [ repeat constructor |] |].
  constructor; [ decided |].
  apply Forall_app. split; [ by apply (Hclass domain_class); [ repeat constructor |] |].
  constructor; [ decided |].
  by apply (Hclass letter_class); [ repeat constructor |].
Qed.

Lemma sanitized_email (raw : string) :
  validate_email (Some (sanitize_input (Some raw))) = true ->
  exists local domain tld,
    chars (sanitize_input (Some raw)) = address local domain tld /\
    well_formed local domain tld /\
    chars (sanitize_input (Some raw)) = strip (chars raw).
Proof.
  cbn [validate_email]. case_bool_decide as Hne; [ done |].
  intros (local & domain & tld & newline & Hs & Hwf & Hnl)%re_match_email.
  pose proof (html_escape_trimmed _ (strip_trimmed (chars raw))) as [_ Hlast].
  revert Hs Hlast. cbn [sanitize_input]. rewrite chars_text. intros Hs Hlast.
  destruct Hnl as [-> | ->].
  - rewrite app_nil_r in Hs. exists local, domain, tld. split; [ done |].
    split; [ done |]. apply html_escape_plain, ampersand_of_special.
    rewrite Hs. intros Hin.
    apply (proj1 (Forall_forall _ _) (address_plain _ _ _ Hwf) _ Hin). decided.
  - specialize (Hlast "010"%char). rewrite Hs, last_snoc in Hlast.
    by specialize (Hlast eq_refl).
Qed.

(** X26. When register gets as far as AuthService.register, the email it
    hands on is the stripped input, which the escaping has left as it was, and
    is an address local@domain.tld, without the final newline that
    validate_email alone lets through; the username is the sanitized input and
    is not empty; the password is the one of the form, typed twice, and
    passes validate_password. *)
Theorem register_hands_on_checked_input (form : gmap string string)
    (username email password : string) :
  register_checks form = inr (username, email, password) ->
  (exists local domain tld,
     chars email = address local domain tld /\ well_formed local domain tld) /\
  chars email = strip (chars (default "" (form !! "email"))) /\
  username = sanitize_input (Some (default "" (form !! "username"))) /\
  username <> "" /\
  form !! "password" = Some password /\
  form !! "confirm_password" = Some password /\
  validate_password (Some password) = (true, None).
Proof.
  unfold register_checks. cbv zeta.
  destruct (bool_decide_reflect
              (sanitize_input (Some (default "" (form !! "username"))) = "" \/
               sanitize_input (Some (default "" (form !! "email"))) = "" \/
               default "" (form !! "password") = "")) as [| Hfilled]; [ done |].
  destruct (validate_email _) eqn:Hemail; [| done ]. cbn [negb].
  destruct (bool_decide_reflect
              (default "" (form !! "password")
                 <> default "" (form !! "confirm_password"))) as [| Hsame];
    [ done |].
  destruct (validate_password _) as [[] msg] eqn:Hpw; [| done ].
  intros [= <- <- <-].
  destruct (sanitized_email _ Hemail) as (local & domain & tld & Hshape & Hwf & Hstrip).
  assert (default "" (form !! "password") <> "") as Hp by tauto.
  assert (default "" (form !! "password") = default "" (form !! "confirm_password"))
    as Hc by (destruct (decide (default "" (form !! "password")
                                  = default "" (form !! "confirm_password"))); tauto).
  assert (msg = None) as ->
    by (revert Hpw; unfold validate_password; repeat case_match; by intros [= <-]).
  split; [ by exists local, domain, tld |]. split; [ done |]. split; [ done |].
  split; [ tauto |]. clear Hfilled Hsame Hemail Hshape Hstrip.
  destruct (form !! "password") as [p|]; [| done ].
  destruct (form !! "confirm_password") as [c|];
    cbv beta iota delta [from_option id] in Hc, Hp, Hpw |- *; [| done ].
  by subst c.
Qed.

Lemma matches_at_Class (subject : list ascii) (ranges : list (ascii * ascii))
    (s : list ascii) :
  matches_at subject [ Class ranges ] s =
    match s with
    | c :: _ => in_class ranges c
    | [] => false
    end.
Proof.
  unfold matches_at. cbn [pattern_ends atom_ends]. destruct s as [|c s]; [ done |].
  by destruct (in_class ranges c).
Qed.

Lemma re_search_Class (ranges : list (ascii * ascii)) (s : list ascii) :
  re_search [ Class ranges ] s = true <->
  Exists (fun c => in_class ranges c = true) s.
Proof.
  unfold re_search. generalize s at 1 as subject. intros subject.
  induction s as [|c s IH].
  - cbn [tails existsb]. rewrite matches_at_Class. split; [ done |].
    by intros ?%Exists_nil.
  - cbn [tails existsb]. rewrite matches_at_Class, orb_true_iff, Exists_cons.
    by rewrite IH.
Qed.

(** X27. validate_password returns (True, None) exactly for the strs of
    eight characters or more that hold a letter A to Z, a letter a to z and a
    digit 0 to 9, wherever they stand and whatever the other characters are;
    None is refused. *)
Theorem validate_password_accepts_iff (password : option string) :
  validate_password password = (true, None) <->
  exists s, password = Some s /\
    (8 <= length (chars s))%nat /\
    Exists (fun c => in_class [ range "A" "Z" ] c = true) (chars s) /\
    Exists (fun c => in_class [ range "a" "z" ] c = true) (chars s) /\
    Exists (fun c => in_class [ range "0" "9" ] c = true) (chars s).
Proof.
  unfold validate_password. cbv zeta.
  destruct password as [s|]; cbn [from_option id].
  - destruct (bool_decide_reflect (chars s = [])) as [Hnil | _]; cbn [orb].
    { split; [ done |]. intros (? & [= <-] & Hlen & _). rewrite Hnil in Hlen.
      cbn [length] in Hlen. lia. }
    destruct (Nat.ltb_spec (length (chars s)) 8) as [Hshort | Hlong].
    { split; [ done |]. intros (? & [= <-] & Hlen & _). lia. }
    destruct (re_search [ Class [ range "A" "Z" ] ] (chars s)) eqn:Hup; cbn [negb];
      [ apply re_search_Class in Hup
      | split; [ done |]; intros (? & [= <-] & _ & H%re_search_Class & _); congruence ].
    destruct (re_search [ Class [ range "a" "z" ] ] (chars s)) eqn:Hlow; cbn [negb];
      [ apply re_search_Class in Hlow
      | split; [ done |];
        intros (? & [= <-] & _ & _ & H%re_search_Class & _); congruence ].
    destruct (re_search [ Class [ range "0" "9" ] ] (chars s)) eqn:Hdig; cbn [negb];
      [ apply re_search_Class in Hdig
      | split; [ done |];
        intros (? & [= <-] & _ & _ & _ & H%re_search_Class); congruence ].
    split; [| done ]. intros _. by exists s.
  - cbn [bool_decide orb]. split; [ done |]. by intros (? & ? & _).
Qed.

Lemma sanitized_gender (raw : option string) :
  sanitize_input raw ∈ valid_genders <->
  exists s, raw = Some s /\ text (strip (chars s)) ∈ valid_genders.
Proof.
  assert (forall g, g ∈ valid_genders -> Forall (fun c => c ∉ html_special) (chars g))
    as Hplain.
  { intros g Hg. unfold valid_genders in Hg.
    repeat (apply elem_of_cons in Hg as [-> | Hg]); [ .. | by apply elem_of_nil in Hg ];
      repeat constructor; decided. }
  destruct raw as [s|]; cbn [sanitize_input].
  - split.
    + intros Hg. exists s. split; [ done |].
      pose proof (Hplain _ Hg) as Hp. rewrite chars_text in Hp.
      assert ("&"%char ∉ html_escape (strip (chars s))) as Hamp.
      { intros Hin. apply (proj1 (Forall_forall _ _) Hp _ Hin). decided. }
      apply ampersand_of_special, html_escape_plain in Hamp. by rewrite <- Hamp.
    + intros (s' & [= <-] & Hg). pose proof (Hplain _ Hg) as Hp.
      rewrite chars_text in Hp. apply html_escape_plain in Hp. by rewrite Hp.
  - split; [| by intros (? & ? & _) ]. intros Hg. exfalso. revert Hg. decided_not.
Qed.

Section FormFacts.
Context {rt : PyRuntime}.

(** What both routes put into the dict they validate, and what follows. *)
Lemma form_record_checked (form : gmap string string) (data : pydict)
    (age avg_glucose_level : float) (hypertension heart_disease stroke : Z) :
  data !! "gender" = Some (VStr (sanitize_input (form !! "gender"))) ->
  data !! "age" = Some (VFloat age) ->
  data !! "hypertension" = Some (VInt hypertension) ->
  data !! "heart_disease" = Some (VInt heart_disease) ->
  data !! "avg_glucose_level" = Some (VFloat avg_glucose_level) ->
  data !! "stroke" = Some (VInt stroke) ->
  Forall (fun f => data !! f = Some (VStr (sanitize_input (form !! f))))
    uninspected_patient_fields ->
  Forall (present data) patient_required_fields /\
  (exists r, validate_patient_data data = Return r) /\
  (validate_patient_data data = Return (true, None) <->
     within data "age" 0 120 /\ within data "avg_glucose_level" 0 500 /\
     (exists raw, form !! "gender" = Some raw /\
                  text (strip (chars raw)) ∈ valid_genders) /\
     Forall (fun f => data !! f = Some (VInt 0) \/ data !! f = Some (VInt 1))
       binary_fields).
Proof.
  intros Hgender Hage Hht Hhd Hglu Hstroke Hrest.
  assert (Forall (present data) patient_required_fields) as Hreq.
  { unfold uninspected_patient_fields in Hrest.
    apply Forall_cons in Hrest as [H1 Hrest]. apply Forall_cons in Hrest as [H2 Hrest].
    apply Forall_cons in Hrest as [H3 Hrest]. apply Forall_cons in Hrest as [H4 _].
    repeat constructor; eexists; (split; [ eassumption | discriminate ]). }
  split; [ exact Hreq |]. split.
  - unfold validate_patient_data.
    rewrite first_failing_None
      by (eapply Forall_impl; [ exact Hreq |]; intros f; apply missing_or_none_present).
    unfold check_range, py_getitem. rewrite Hage, Hglu. cbn [py_float].
    repeat case_match; first [ discriminate | eauto ].
  - split.
    + intros (_ & Ha & Hg & (g & Hlook & Hin) & Hbin)%validate_patient_data_sound.
      split; [ done |]. split; [ done |]. split.
      * rewrite Hgender in Hlook. injection Hlook as <-. by apply sanitized_gender.
      * unfold binary_fields in *. apply Forall_cons in Hbin as [(v1 & L1 & B1) Hbin].
        apply Forall_cons in Hbin as [(v2 & L2 & B2) Hbin].
        apply Forall_cons in Hbin as [(v3 & L3 & B3) _].
        rewrite Hht in L1. rewrite Hhd in L2. rewrite Hstroke in L3.
        injection L1 as <-. injection L2 as <-. injection L3 as <-.
        unfold binary_value in B1, B2, B3.
        repeat first [ apply Forall_cons_2 | apply Forall_nil_2 ]; cbv beta;
          first [ rewrite Hht | rewrite Hhd | rewrite Hstroke ];
          intuition congruence.
    + intros (Ha & Hg & Hraw & Hbin). apply validate_patient_data_complete.
      split; [ done |]. split; [ done |]. split; [ done |]. split.
      * eexists. split; [ exact Hgender |]. by apply sanitized_gender.
      * eapply Forall_impl; [ exact Hbin |]. intros f [H | H]; eexists;
          (split; [ exact H |]); unfold binary_value; tauto.
Qed.

(** X28. In add_patient and edit_patient the check for required fields
    cannot fail: the dict they validate holds the ten required fields whatever
    the form holds, because sanitize_input turns a field that the form lacks
    into the empty str, which validate_patient_data takes as present.
    ever_married, work_type, Residence_type and smoking_status are stored as
    sanitized, empty when missing. validate_patient_data does not raise on
    that dict, and accepts it exactly when age and glucose level are in range,
    the stripped gender of the form is Male, Female or Other, and
    hypertension, heart_disease and stroke are 0 or 1. *)
Theorem patient_form_is_never_missing_a_field (form : gmap string string)
    (data : pydict) :
  add_patient_data form = Return data \/ edit_patient_data form = Return data ->
  Forall (present data) patient_required_fields /\
  Forall (fun f => data !! f = Some (VStr (sanitize_input (form !! f))))
    uninspected_patient_fields /\
  (exists r, validate_patient_data data = Return r) /\
  (validate_patient_data data = Return (true, None) <->
     within data "age" 0 120 /\ within data "avg_glucose_level" 0 500 /\
     (exists raw, form !! "gender" = Some raw /\
                  text (strip (chars raw)) ∈ valid_genders) /\
     Forall (fun f => data !! f = Some (VInt 0) \/ data !! f = Some (VInt 1))
       binary_fields).
Proof.
  intros Hdata.
  assert (exists age avg_glucose_level hypertension heart_disease stroke,
            data !! "gender" = Some (VStr (sanitize_input (form !! "gender"))) /\
            data !! "age" = Some (VFloat age) /\
            data !! "hypertension" = Some (VInt hypertension) /\
            data !! "heart_disease" = Some (VInt heart_disease) /\
            data !! "avg_glucose_level" = Some (VFloat avg_glucose_level) /\
            data !! "stroke" = Some (VInt stroke) /\
            Forall (fun f => data !! f = Some (VStr (sanitize_input (form !! f))))
              uninspected_patient_fields)
    as (age & glu & ht & hd & st & Hgender & Hage & Hht & Hhd & Hglu & Hst & Hrest).
  { destruct Hdata as [Hdata | Hdata]; revert Hdata;
      unfold add_patient_data, edit_patient_data;
      cbv beta iota zeta delta [mbind outcome_bind mret outcome_ret];
      repeat (match goal with
              | |- context [ match ?m with Return _ => _ | Raise _ => _ end ] =>
                  destruct m; [| discriminate ]
              end);
      intros [= <-];
      do 5 eexists; repeat split; repeat constructor;
      repeat (match goal with
              | |- context [ sanitize_input ?x ] => generalize (sanitize_input x); intro
              end);
      by vm_compute. }
  destruct (form_record_checked form data age glu ht hd st
              Hgender Hage Hht Hhd Hglu Hst Hrest) as (Hreq & Hret & Hiff).
  done.
Qed.
End FormFacts.

(* ===================================================================== *)
(** ** The further theorems at concrete inputs                            *)
(* ===================================================================== *)

Lemma validate_prediction_input_names_first_missing_witness :
  validate_prediction_input (rt := decimal_runtime) ageless_input
    = Return (false, Some "Missing required field: age").
Proof.
  apply (validate_prediction_input_names_first_missing (rt := decimal_runtime)
           ageless_input ["gender"]
           ["hypertension"; "heart_disease"; "ever_married"; "work_type";
            "Residence_type"; "avg_glucose_level"; "bmi"; "smoking_status"] "age").
  - reflexivity.
  - holds_for_each.
  - vm_compute. reflexivity.
Defined.

Lemma validate_prediction_input_raises_only_overflow_witness :
  exists f z, f ∈ numeric_fields /\ oversized_age_input !! f = Some (VInt z) /\
              float_of_Z z = Raise (Exn OverflowError "int too large to convert to float").
Proof.
  apply (validate_prediction_input_raises_only_overflow (rt := decimal_runtime)
           oversized_age_input (Exn OverflowError "int too large to convert to float")).
  vm_compute. reflexivity.
Defined.

Lemma validate_patient_data_accepts_nan_witness :
  validate_patient_data (rt := decimal_runtime) (<["age" := VFloat nan]> example_patient)
    = Return (true, None) /\
  validate_patient_data (rt := decimal_runtime)
      (<["avg_glucose_level" := VFloat nan]> example_patient)
    = Return (true, None).
Proof.
  apply (validate_patient_data_accepts_nan (rt := decimal_runtime) example_patient nan).
  - vm_compute. reflexivity.
  - reflexivity.
Defined.

Lemma validate_patient_data_inspects_six_fields_witness :
  validate_patient_data (rt := decimal_runtime) odd_patient = Return (true, None).
Proof.
  apply (validate_patient_data_inspects_six_fields (rt := decimal_runtime)
           example_patient odd_patient).
  - vm_compute. reflexivity.
  - repeat constructor.
  - holds_for_each.
Defined.

Lemma patient_record_is_prediction_input_witness :
  validate_prediction_input (rt := decimal_runtime) example_patient = Return (true, None).
Proof.
  apply (patient_record_is_prediction_input (rt := decimal_runtime) example_patient).
  - vm_compute. reflexivity.
  - exists (VFloat 25.6), 25.6%float. split; vm_compute; reflexivity.
  - repeat constructor; vm_compute; discriminate.
Defined.

Lemma load_model_loads_once_witness :
  load_model bare (load_model (deployed (constant_model 0.5)) fresh).2
    = (Return true, (load_model (deployed (constant_model 0.5)) fresh).2).
Proof.
  apply (load_model_loads_once (deployed (constant_model 0.5)) bare fresh).
  vm_compute. reflexivity.
Defined.

Lemma load_model_takes_first_existing_witness :
  _model (service (load_model (configured (constant_model 0.9) (constant_model 0.1))
                     fresh).2)
    = Some (constant_model 0.9).
Proof.
  apply (load_model_takes_first_existing
           (configured (constant_model 0.9) (constant_model 0.1)) fresh
           {[ "MODEL_PATH" := "prod/model.pkl" ]} []
           ["stroke_model.pkl"; "ml_models/stroke_model.pkl"] "prod/model.pkl").
  - reflexivity.
  - reflexivity.
  - vm_compute. reflexivity.
  - constructor.
  - vm_compute. reflexivity.
Defined.

Lemma load_model_survives_broken_classifier_witness :
  load_model corrupt_classifier fresh =
    (Return false,
     {| service := service fresh;
        log := [(ERROR, ErrorLoadingModel (Exn OtherError "invalid load key, 'x'."))];
        calls := [] |}).
Proof.
  apply (load_model_survives_broken_classifier corrupt_classifier fresh ∅ []
           ["stroke_model.pkl"; "ml_models/stroke_model.pkl"]
           "ml_models/stroke_model.pkl").
  - reflexivity.
  - reflexivity.
  - vm_compute. reflexivity.
  - constructor.
  - vm_compute. reflexivity.
Defined.

Lemma predict_risk_reads_ten_features_witness :
  (predict_risk (rt := decimal_runtime) (deployed (constant_model 0.5))
     example_input fresh).1
  = (predict_risk (rt := decimal_runtime) (deployed (constant_model 0.5))
       annotated_input fresh).1.
Proof.
  apply (predict_risk_reads_ten_features (rt := decimal_runtime)
           (deployed (constant_model 0.5)) example_input annotated_input fresh).
  repeat constructor.
Defined.

Lemma unseen_label_predicts_like_first_class_witness :
  (predict_risk (rt := decimal_runtime) (deployed (constant_model 0.5))
     unseen_gender_input (serving (constant_model 0.5))).1
  = (predict_risk (rt := decimal_runtime) (deployed (constant_model 0.5))
       (<["gender" := VStr "Female"]> unseen_gender_input)
       (serving (constant_model 0.5))).1.
Proof.
  apply (unseen_label_predicts_like_first_class (rt := decimal_runtime)
           (deployed (constant_model 0.5)) unseen_gender_input
           (serving (constant_model 0.5)) (constant_model 0.5) stroke_encoders
           "gender" {| classes_ := ["Female"; "Male"; "Other"] |}
           (VStr "Nonbinary") "Female" ["Male"; "Other"]);
    try reflexivity.
  - apply (bool_decide_unpack _). vm_compute. exact I.
  - exists "Nonbinary". split; [ reflexivity |].
    apply (bool_decide_unpack _). vm_compute. exact I.
Defined.

Lemma predict_risk_missing_feature_witness :
  (predict_risk (rt := decimal_runtime) (deployed (constant_model 0.5))
     bmiless_input (serving (constant_model 0.5))).1
    = Return (failure "'bmi'") /\
  calls (predict_risk (rt := decimal_runtime) (deployed (constant_model 0.5))
           bmiless_input (serving (constant_model 0.5))).2
    = [CallPredictRisk bmiless_input].
Proof.
  apply (predict_risk_missing_feature (rt := decimal_runtime)
           (deployed (constant_model 0.5)) bmiless_input
           (serving (constant_model 0.5)) (constant_model 0.5) stroke_encoders
           ["gender"; "age"; "hypertension"; "heart_disease"; "ever_married";
            "work_type"; "Residence_type"; "avg_glucose_level"]
           ["smoking_status"] "bmi").
  - reflexivity.
  - reflexivity.
  - repeat constructor; intros v; vm_compute; intros [= <-]; eexists; reflexivity.
  - reflexivity.
  - repeat constructor; vm_compute; eexists; reflexivity.
  - vm_compute. reflexivity.
Defined.

Lemma predict_risk_calls_witness :
  exists encoders sc m X X_scaled p,
    _label_encoders (service (predict_risk (rt := decimal_runtime)
                        (deployed (constant_model 0.5)) example_input fresh).2)
      = Some encoders /\
    _scaler (service (predict_risk (rt := decimal_runtime)
                        (deployed (constant_model 0.5)) example_input fresh).2)
      = Some sc /\
    _model (service (predict_risk (rt := decimal_runtime)
                       (deployed (constant_model 0.5)) example_input fresh).2)
      = Some m /\
    length X = 10%nat /\
    Forall2 (fun c x => encoded_entry encoders example_input c = Return (Some x))
      feature_order X /\
    scaler_transform sc X = Return X_scaled /\
    predict_proba m X_scaled = Return p /\
    dict_of [ ("success", VBool true); ("risk_probability", VFloat 50);
              ("risk_category", VStr "Medium Risk"); ("risk_color", VStr "orange") ]
      = success (rt := decimal_runtime) p /\
    calls (predict_risk (rt := decimal_runtime)
             (deployed (constant_model 0.5)) example_input fresh).2
      = calls fresh ++ [CallPredictRisk example_input; CallScaler X; CallModel X_scaled].
Proof.
  apply (predict_risk_calls (rt := decimal_runtime)
           (deployed (constant_model 0.5)) example_input
           (dict_of [ ("success", VBool true); ("risk_probability", VFloat 50);
                      ("risk_category", VStr "Medium Risk");
                      ("risk_color", VStr "orange") ])
           fresh
           (predict_risk (rt := decimal_runtime)
              (deployed (constant_model 0.5)) example_input fresh).2).
  - vm_compute. reflexivity.
  - vm_compute. reflexivity.
Defined.

Lemma serving_row_follows_training_columns_witness :
  exists encoders row X_scaled,
    _label_encoders (service (predict_risk (rt := decimal_runtime)
                        (deployed (constant_model 0.5)) example_input fresh).2)
      = Some encoders /\
    calls (predict_risk (rt := decimal_runtime)
             (deployed (constant_model 0.5)) example_input fresh).2
      = calls fresh ++
          [CallPredictRisk example_input; CallScaler row; CallModel X_scaled] /\
    Forall2 (fun c x => encoded_entry encoders example_input c = Return (Some x))
      patient_feature_vector row.
Proof.
  apply (serving_row_follows_training_columns (rt := decimal_runtime)
           clean_cells dataset_header patient_feature_vector
           (deployed (constant_model 0.5)) example_input
           (dict_of [ ("success", VBool true); ("risk_probability", VFloat 50);
                      ("risk_category", VStr "Medium Risk");
                      ("risk_color", VStr "orange") ])
           fresh
           (predict_risk (rt := decimal_runtime)
              (deployed (constant_model 0.5)) example_input fresh).2).
  - vm_compute. reflexivity.
  - vm_compute. reflexivity.
  - vm_compute. reflexivity.
  - vm_compute. reflexivity.
Defined.

(** Where the hypothesis on the file stops: the script takes the order of
    whatever file it is given. On a file that lists the age before the gender
    it trains on that order, which is not the order of the row at serving
    time; nothing in the script or in the service compares the two. *)
Remark training_follows_the_file :
  training_columns clean_cells reordered_header
    = Return [ "age"; "gender"; "hypertension"; "heart_disease"; "ever_married";
               "work_type"; "Residence_type"; "avg_glucose_level"; "bmi";
               "smoking_status" ] /\
  training_columns clean_cells reordered_header <> Return feature_order.
Proof. split; [ vm_compute; reflexivity | vm_compute; discriminate ]. Qed.

(** The key of the residence in the file is Residence_type: on a header
    that spells it in lower case the script stops at the encoder of that
    column. *)
Remark lowercase_residence_is_not_trainable :
  training_columns clean_cells lowercase_header
    = Raise (Exn KeyError "'Residence_type'").
Proof. vm_compute. reflexivity. Qed.

Lemma partial_load_reports_loaded_witness :
  let run1 := predict_risk (rt := decimal_runtime) (classifier_only (constant_model 0.5))
                example_input fresh in
  let run2 := predict_risk (rt := decimal_runtime) (classifier_only (constant_model 0.5))
                example_input run1.2 in
  run1.1 = Return (failure "Model not loaded") /\
  (load_model (classifier_only (constant_model 0.5)) run1.2).1 = Return true /\
  exists error, run2.1 = Return (failure error) /\ error <> "Model not loaded".
Proof.
  apply (partial_load_reports_loaded (rt := decimal_runtime)
           (classifier_only (constant_model 0.5)) example_input fresh ∅ []
           ["stroke_model.pkl"; "ml_models/stroke_model.pkl"]
           "ml_models/stroke_model.pkl" (constant_model 0.5)).
  - reflexivity.
  - reflexivity.
  - reflexivity.
  - vm_compute. reflexivity.
  - constructor.
  - vm_compute. reflexivity.
  - repeat constructor.
Defined.

Lemma predict_serves_model_failure_as_200_witness :
  (predict (rt := decimal_runtime) bare example_input fresh).1
    = Return (failure "Model not loaded", 200).
Proof.
  apply (predict_serves_model_failure_as_200 (rt := decimal_runtime)
           bare example_input example_patient_data fresh).
  - intros path. repeat split.
  - apply reach_fresh.
  - vm_compute. reflexivity.
  - vm_compute. reflexivity.
Defined.

Lemma predict_reports_conversion_errors_witness :
  (predict (rt := decimal_runtime) (deployed (constant_model 0.5))
     (<["hypertension" := VStr "yes"]> example_input) fresh).1 =
    Return (failure "Invalid input: invalid literal for int() with base 10: 'yes'",
            400) /\
  calls (predict (rt := decimal_runtime) (deployed (constant_model 0.5))
           (<["hypertension" := VStr "yes"]> example_input) fresh).2 = [] /\
  service (predict (rt := decimal_runtime) (deployed (constant_model 0.5))
             (<["hypertension" := VStr "yes"]> example_input) fresh).2
    = service fresh.
Proof.
  apply (predict_reports_conversion_errors (rt := decimal_runtime)
           (deployed (constant_model 0.5))
           (<["hypertension" := VStr "yes"]> example_input)
           (Exn ValueError "invalid literal for int() with base 10: 'yes'") fresh).
  - vm_compute. reflexivity.
  - vm_compute. reflexivity.
Defined.

Lemma prepare_patient_data_keys_witness :
  (forall k, is_Some (example_patient_data !! k) <-> k ∈ feature_order) /\
  Forall (fun k => exists x, example_patient_data !! k = Some (VFloat x) /\
                             py_float (rt := decimal_runtime) (py_get annotated_input k)
                               = Return x) numeric_fields /\
  Forall (fun k => exists z, example_patient_data !! k = Some (VInt z) /\
                             py_int (rt := decimal_runtime)
                               (py_get_default annotated_input k (VInt 0)) = Return z)
    ["hypertension"; "heart_disease"] /\
  Forall (fun k => example_patient_data !! k = Some (py_get annotated_input k))
    categorical_cols.
Proof.
  apply (prepare_patient_data_keys (rt := decimal_runtime) annotated_input
           example_patient_data).
  vm_compute. reflexivity.
Defined.

Lemma load_model_after_save_model_witness :
  (load_model (save_model (constant_model 0.5) unit_scaler stroke_encoders
                 {| app_config := Some default_config;
                    model_at := fun _ => None;
                    scaler_at := fun _ => None;
                    encoders_at := fun _ => None |}) fresh).1 = Return true /\
  service (load_model (save_model (constant_model 0.5) unit_scaler stroke_encoders
                         {| app_config := Some default_config;
                            model_at := fun _ => None;
                            scaler_at := fun _ => None;
                            encoders_at := fun _ => None |}) fresh).2 =
    {| _model := Some (constant_model 0.5); _scaler := Some unit_scaler;
       _label_encoders := Some stroke_encoders |}.
Proof.
  apply (load_model_after_save_model _ fresh default_config).
  - reflexivity.
  - reflexivity.
  - vm_compute. reflexivity.
  - vm_compute. reflexivity.
  - vm_compute. reflexivity.
  - discriminate.
  - intros H. apply (f_equal (fun d => d !! "gender")) in H. vm_compute in H.
    discriminate.
Defined.

Lemma register_hands_on_checked_input_witness :
  (exists local domain tld,
     chars "nurse@example.com" = address local domain tld /\
     well_formed local domain tld) /\
  chars "nurse@example.com"
    = strip (chars (default "" (registration_form !! "email"))) /\
  "nurse" = sanitize_input (Some (default "" (registration_form !! "username"))) /\
  "nurse" <> "" /\
  registration_form !! "password" = Some "SecurePass123" /\
  registration_form !! "confirm_password" = Some "SecurePass123" /\
  validate_password (Some "SecurePass123") = (true, None).
Proof.
  apply (register_hands_on_checked_input registration_form
           "nurse" "nurse@example.com" "SecurePass123").
  vm_compute. reflexivity.
Defined.

Lemma patient_form_is_never_missing_a_field_witness :
  Forall (present sparse_patient) patient_required_fields /\
  Forall (fun f => sparse_patient !! f = Some (VStr (sanitize_input (sparse_form !! f))))
    uninspected_patient_fields /\
  (exists r, validate_patient_data (rt := decimal_runtime) sparse_patient = Return r) /\
  (validate_patient_data (rt := decimal_runtime) sparse_patient = Return (true, None) <->
     within (rt := decimal_runtime) sparse_patient "age" 0 120 /\
     within (rt := decimal_runtime) sparse_patient "avg_glucose_level" 0 500 /\
     (exists raw, sparse_form !! "gender" = Some raw /\
                  text (strip (chars raw)) ∈ valid_genders) /\
     Forall (fun f => sparse_patient !! f = Some (VInt 0) \/
                      sparse_patient !! f = Some (VInt 1))
       binary_fields).
Proof.
  apply (patient_form_is_never_missing_a_field (rt := decimal_runtime)
           sparse_form sparse_patient).
  left. vm_compute. reflexivity.
Defined.
